(** * Cross-shard migration workflow engine (wrangler/materializer)

    A shallow embedding of the workflow engine of [package wrangler]
    (MoveTables, Materialize, CreateLookupVindex, ExternalizeVindex and the
    materializer they share), together with the properties its design
    document states about it.

    Conventions.
    - Go [string] and [[]byte] are [string] (a list of 8-bit characters);
      Go maps are [gmap]s; a missing key reads as the zero value.
    - Go [int64]/[uint64] are [Z] with the wrap-around written out.
    - The topology store, the tablets reached through the tablet manager
      client and the wrangler's own fields form an explicit [World]; every
      operation is a function from worlds to a result and a new world.  A
      failing operation keeps the effects it had before failing, as the Go
      code does (there is no rollback).
    - Per-shard fan-out ([forAllTargets] and its siblings) starts one
      goroutine per shard and joins them all.  The tasks of one phase touch
      different tablets, so the embedding runs them one after the other in
      shard-list order, never stopping at the first error. *)

From Stdlib Require Import ZArith Ascii.
From stdpp Require Import base tactics option list sorting gmap strings fin_maps pretty.

Local Open Scope Z_scope.
#[local] Set Warnings "-register-all".

(** ** Go standard library: strings, sorting, FNV hashing *)

Module Go.

(** [[]byte(s)]: the bytes of a string, as numbers. *)
Fixpoint bytes (s : string) : list Z :=
  match s with
  | EmptyString => []
  | String c s' => Z.of_N (N_of_ascii c) :: bytes s'
  end.

(** [sort.Strings]: ascending byte-wise order.  Any two correct sorts of
    strings agree, so the algorithm used is immaterial. *)
Definition sort_Strings (l : list string) : list string :=
  merge_sort String.le l.

Definition uint64 (z : Z) : Z := z mod 2 ^ 64.

(** [hash/fnv]: the 64-bit FNV-1 hash ([fnv.New64]): multiply, then xor. *)
Definition offset64 : Z := 14695981039346656037.
Definition prime64 : Z := 1099511628211.

Definition fnv64_byte (hash c : Z) : Z :=
  Z.lxor (uint64 (hash * prime64)) c.

Definition fnv64_Write (hash : Z) (data : list Z) : Z :=
  fold_left fnv64_byte data hash.

Definition MaxInt64 : Z := 2 ^ 63 - 1.

(** [package strings].  Strings are compared and searched byte-wise. *)
Fixpoint drop (n : nat) (s : string) : string :=
  match n, s with
  | O, _ => s
  | S n', String _ s' => drop n' s'
  | S _, EmptyString => EmptyString
  end.

Definition HasPrefix (s prefix : string) : bool := String.prefix prefix s.

Fixpoint Contains (s substr : string) : bool :=
  String.prefix substr s ||
  match s with
  | EmptyString => false
  | String _ s' => Contains s' substr
  end.

(** [strings.Replace(s, old, new, 1)]: the first occurrence only. *)
Fixpoint Replace1 (s old new : string) : string :=
  if String.prefix old s then new +:+ drop (String.length old) s
  else match s with
       | EmptyString => EmptyString
       | String c s' => String c (Replace1 s' old new)
       end.

Definition ascii_eqb (a b : ascii) : bool := bool_decide (a = b).

(** [strings.Split(s, sep)] for a one-byte separator; the split of the
    empty string is the one-element list of the empty string. *)
Fixpoint Split (s : string) (sep : ascii) : list string :=
  match s with
  | EmptyString => [EmptyString]
  | String c s' =>
      if ascii_eqb c sep then EmptyString :: Split s' sep
      else match Split s' sep with
           | x :: xs => String c x :: xs
           | [] => [String c EmptyString]
           end
  end.

Definition Join (elems : list string) (sep : string) : string :=
  String.concat sep elems.

Fixpoint TrimLeft (s : string) : string :=
  match s with
  | String c s' => if Ascii.is_space c then TrimLeft s' else s
  | EmptyString => EmptyString
  end.

Definition TrimSpace (s : string) : string :=
  String.rev (TrimLeft (String.rev (TrimLeft s))).

Definition lower_ascii (c : ascii) : ascii :=
  let n := N_of_ascii c in
  if ((65 <=? n) && (n <=? 90))%N then ascii_of_N (n + 32) else c.

Fixpoint ToLower (s : string) : string :=
  match s with
  | EmptyString => EmptyString
  | String c s' => String (lower_ascii c) (ToLower s')
  end.

(** [strings.EqualFold] on ASCII text. *)
Definition EqualFold (s t : string) : bool :=
  bool_decide (ToLower s = ToLower t).

(** [text/template] execution of a text whose only actions are
    [{{.key}}]: every occurrence of the action is replaced. *)
Fixpoint ReplaceAll_fuel (fuel : nat) (s old new : string) : string :=
  match fuel with
  | O => s
  | S fuel' =>
      if String.prefix old s then
        new +:+ ReplaceAll_fuel fuel' (drop (String.length old) s) old new
      else match s with
           | EmptyString => EmptyString
           | String c s' => String c (ReplaceAll_fuel fuel' s' old new)
           end
  end.

Definition ReplaceAll (s old new : string) : string :=
  match old with
  | EmptyString => s
  | _ => ReplaceAll_fuel (Datatypes.S (String.length s)) s old new
  end.

Definition newline : string := String (ascii_of_nat 10) EmptyString.

End Go.

(** ** Errors *)

(** A Go [error] built by [fmt.Errorf]/[vterrors.Wrapf] is kept as its
    format string and its arguments; [Aggregate] is the combined error of a
    fan-out ([AllErrorRecorder.AggrError(vterrors.Aggregate)]); [Panic] is a
    run-time panic (nil dereference, index out of range). *)
Inductive Arg :=
| AStr (s : string)
| AStrs (l : list string)
| AInt (z : Z)
| AOpaque.

Inductive Error :=
| Errorf (format : string) (args : list Arg)
| Wrapf (inner : Error) (format : string) (args : list Arg)
| Aggregate (errs : list Error)
| Panic (what : string).

Inductive result (A : Type) :=
| Ok (a : A)
| Err (e : Error).
Global Arguments Ok {A} a.
Global Arguments Err {A} e.

(** ** package key *)

Module key.

(** A key range [[Start, End)]; an empty [End] is "no upper bound". *)
Record KeyRange := { Start : string; End : string }.

(** Modelled from the spec: [key.KeyRangesIntersect] lives in package
    [key], outside the shown source.  The spec's shards own half-open
    ranges [[low, high)]; two ranges intersect when each starts before the
    other ends, and a missing range is the whole key space. *)
Definition KeyRangesIntersect (first second : option KeyRange) : bool :=
  match first, second with
  | Some first, Some second =>
      (bool_decide (End first = EmptyString) || String.ltb (Start second) (End first))
      && (bool_decide (End second = EmptyString) || String.ltb (Start first) (End second))
  | _, _ => true
  end.

(** Membership of a key in a range, used to say what "intersect" means. *)
Definition KeyRangeContains (kr : option KeyRange) (id : string) : bool :=
  match kr with
  | None => true
  | Some kr =>
      String.leb (Start kr) id
      && (bool_decide (End kr = EmptyString) || String.ltb id (End kr))
  end.

Definition valid (kr : option KeyRange) : Prop :=
  match kr with
  | None => True
  | Some kr => End kr = EmptyString ∨ String.ltb (Start kr) (End kr) = true
  end.

End key.

(** ** package sqlparser (an opaque capability: only the shapes the
    engine inspects are kept) and sqlescape *)

Module sqlparser.

(** Identifiers are compared without regard to case
    ([IdentifierCI.Equal]); the empty identifier is "no alias". *)
Definition IdentifierCI := string.
Definition IdentifierCI_Equal (a b : IdentifierCI) : bool :=
  bool_decide (Go.ToLower a = Go.ToLower b).
Definition IdentifierCI_IsEmpty (a : IdentifierCI) : bool :=
  bool_decide (a = EmptyString).

Record ColName := { Qualifier : string; Name : IdentifierCI }.

Inductive Expr :=
| ColExpr (c : ColName)
| Literal (Val : string)
| FuncExpr (Name : IdentifierCI) (Exprs : list SelectExpr)
| AndExpr (Left Right : Expr)
| ComplexExpr (text : string)
with SelectExpr :=
| StarExpr
| AliasedExpr (e : Expr) (As : IdentifierCI)
| Nextval (e : Expr).

(** A select statement: its select list, its WHERE clause ([None] when
    the statement has none) and everything else, left as text. *)
Record Select := {
  SelectExprs : list SelectExpr;
  From : string;
  Where : option Expr;
  Rest : string;
}.

Definition set_Where (sel : Select) (w : Expr) : Select :=
  {| SelectExprs := SelectExprs sel; From := From sel;
     Where := Some w; Rest := Rest sel |}.

Inductive Statement :=
| StmtSelect (sel : Select)
| StmtOther (text : string).

Record TableName := { tn_Name : string; tn_Qualifier : string }.

(** DDL: the constraint list of a CREATE TABLE is all the engine
    rewrites. *)
Inductive ConstraintInfo :=
| ForeignKeyDefinition (text : string)
| OtherConstraint (text : string).

Record ConstraintDefinition := {
  cd_Name : string;
  Details : option ConstraintInfo;
}.

Record TableSpec := {
  spec_text : string;
  Constraints : list ConstraintDefinition;
}.

Record DDLStatement := {
  ddl_text : string;
  GetTableSpec : option TableSpec;
}.

(** The top-level conjuncts of a WHERE expression. *)
Fixpoint conjuncts (e : Expr) : list Expr :=
  match e with
  | AndExpr l r => conjuncts l ++ conjuncts r
  | _ => [e]
  end.

Definition is_call (name : string) (e : Expr) : bool :=
  match e with
  | FuncExpr n _ => IdentifierCI_Equal n name
  | _ => false
  end.

End sqlparser.

Module sqlescape.

Fixpoint double_backticks (s : string) : string :=
  match s with
  | EmptyString => EmptyString
  | String c s' =>
      if Go.ascii_eqb c "`"%char then String c (String c (double_backticks s'))
      else String c (double_backticks s')
  end.

(** [EscapeID] quotes an identifier with backticks. *)
Definition EscapeID (s : string) : string :=
  "`" +:+ double_backticks s +:+ "`".

End sqlescape.

(** ** Protocol buffer messages *)

Module vschemapb.

Record ColumnVindex := {
  cv_Column : string;
  cv_Name : string;
  cv_Columns : list string;
}.

Record Table := {
  tbl_Type : string;
  ColumnVindexes : list ColumnVindex;
  AutoIncrement : option (string * string);
  tbl_Columns : list (string * string);
  ColumnListAuthoritative : bool;
}.

Definition empty_Table : Table :=
  {| tbl_Type := ""; ColumnVindexes := []; AutoIncrement := None;
     tbl_Columns := []; ColumnListAuthoritative := false |}.

Record Vindex := {
  vx_Type : string;
  Params : gmap string string;
  Owner : string;
}.

Record Keyspace := {
  Sharded : bool;
  Vindexes : gmap string Vindex;
  Tables : gmap string Table;
}.

Global Instance ColumnVindex_eq_dec : EqDecision ColumnVindex.
Proof. solve_decision. Defined.
Global Instance Table_eq_dec : EqDecision Table.
Proof. solve_decision. Defined.
Global Instance Vindex_eq_dec : EqDecision Vindex.
Proof. solve_decision. Defined.

(** [proto.Equal] on messages is structural equality. *)
Definition proto_Equal {A} `{EqDecision A} (a b : A) : bool :=
  bool_decide (a = b).

(** [m[k]] on a Go [map[string]string]: the empty string when absent. *)
Definition param (m : gmap string string) (k : string) : string :=
  default EmptyString (m !! k).

Definition set_Params (v : Vindex) (p : gmap string string) : Vindex :=
  {| vx_Type := vx_Type v; Params := p; Owner := Owner v |}.
Definition set_Vindexes (k : Keyspace) (m : gmap string Vindex) : Keyspace :=
  {| Sharded := Sharded k; Vindexes := m; Tables := Tables k |}.
Definition set_Tables (k : Keyspace) (m : gmap string Table) : Keyspace :=
  {| Sharded := Sharded k; Vindexes := Vindexes k; Tables := m |}.
Definition set_ColumnVindexes (t : Table) (l : list ColumnVindex) : Table :=
  {| tbl_Type := tbl_Type t; ColumnVindexes := l;
     AutoIncrement := AutoIncrement t; tbl_Columns := tbl_Columns t;
     ColumnListAuthoritative := ColumnListAuthoritative t |}.
Definition set_AutoIncrement (t : Table) (a : option (string * string)) : Table :=
  {| tbl_Type := tbl_Type t; ColumnVindexes := ColumnVindexes t;
     AutoIncrement := a; tbl_Columns := tbl_Columns t;
     ColumnListAuthoritative := ColumnListAuthoritative t |}.

End vschemapb.

(** [package vindexes]: the built (resolved) schema of a keyspace. *)
Module vindexes.

Definition TypeReference : string := "reference".

Record ColumnVindex := {
  Columns : list sqlparser.IdentifierCI;
  Name : string;
}.

Record Table := {
  Type_ : string;
  ColumnVindexes : list ColumnVindex;
}.

Record KeyspaceSchema := {
  Keyspace_Sharded : bool;
  Tables : gmap string Table;
}.

End vindexes.

Module vtctldatapb.

Inductive MaterializationIntent := CUSTOM | MOVETABLES | CREATELOOKUPINDEX.

Definition intent_code (i : MaterializationIntent) : Z :=
  match i with CUSTOM => 0 | MOVETABLES => 1 | CREATELOOKUPINDEX => 2 end.

Global Instance MaterializationIntent_eq_dec : EqDecision MaterializationIntent.
Proof. solve_decision. Defined.

Record TableMaterializeSettings := {
  TargetTable : string;
  SourceExpression : string;
  CreateDdl : string;
}.

Record MaterializeSettings := {
  Workflow : string;
  SourceKeyspace : string;
  TargetKeyspace : string;
  StopAfterCopy : bool;
  TableSettings : list TableMaterializeSettings;
  Cell : string;
  TabletTypes : string;
  ExternalCluster : string;
  MaterializationIntent_ : MaterializationIntent;
  SourceTimeZone : string;
  TargetTimeZone : string;
  SourceShards : list string;
}.

End vtctldatapb.

Module binlogdatapb.

Record Rule := { Match : string; Filter : string }.

Record BinlogSource := {
  Keyspace : string;
  Shard : string;
  Filter_Rules : list Rule;
  StopAfterCopy : bool;
  ExternalCluster : string;
  SourceTimeZone : string;
  TargetTimeZone : string;
}.

Inductive VReplicationWorkflowSubType := SubType_None | SubType_Partial.

Definition subtype_code (t : VReplicationWorkflowSubType) : Z :=
  match t with SubType_None => 0 | SubType_Partial => 1 end.

End binlogdatapb.

Module binlogplayer.
Definition BlpStopped : string := "Stopped".
Definition BlpRunning : string := "Running".
End binlogplayer.

Module tabletmanagerdatapb.

Record Field := { fld_Name : string; fld_Type : string }.

Record TableDefinition := {
  td_Name : string;
  Schema : string;
  Fields : list Field;
}.

End tabletmanagerdatapb.

Module tmutils.
Record SchemaChange := {
  SQL : string;
  Force : bool;
  AllowReplication : bool;
  SQLMode : string;
}.
End tmutils.

(** ** The world: topology store, tablets, and what the engine did *)

Module topo.

Record ShardInfo := {
  Keyspace : string;
  ShardName : string;
  KeyRange : option key.KeyRange;
  PrimaryAlias : option string;
}.

Record TabletInfo := {
  AliasString : string;
  DbName : string;
}.

End topo.

(** One row of [_vt.vreplication], a StreamRecord. *)
Record VRow := {
  id : Z;
  workflow : string;
  source : binlogdatapb.BinlogSource;
  cell : string;
  tablet_types : string;
  state : string;
  message : string;
  db_name : string;
  workflow_type : Z;
  workflow_sub_type : Z;
}.

(** The statements the engine sends to a tablet's replication-control
    table, one constructor per statement text of the source. *)
Inductive Query :=
| SelectStreams (workflow db_name : string)
    (* select id, state, message, source from _vt.vreplication where workflow=%s and db_name=%s *)
| SelectStreamIDs (db_name workflow : string)
    (* select id from _vt.vreplication where db_name=%s and workflow=%s *)
| DeleteStreams (db_name workflow : string)
    (* delete from _vt.vreplication where db_name=%s and workflow=%s *)
| StartStreams (db_name workflow : string)
    (* update _vt.vreplication set state='Running' where db_name=%s and workflow=%s *)
| InsertStreams (rows : list VRow).
    (* the statement of the insert generator, after template execution *)

(** Calls that leave the process, in the order they were made. *)
Inductive Event :=
| EvSaveRoutingRules (rules : gmap string (list string))
| EvSaveVSchema (keyspace : string) (vschema : vschemapb.Keyspace)
| EvRebuildSrvVSchema
| EvApplySchema (tablet : string) (change : tmutils.SchemaChange)
| EvVReplicationExec (tablet : string) (q : Query).

Record Tablet := {
  tables : list tabletmanagerdatapb.TableDefinition;
  vreplication : list VRow;
  next_id : Z;
  resharding_journal : list Z;
  time_zones : list string;
}.

Record Topo := {
  vschemas : gmap string vschemapb.Keyspace;
  serving_shards : gmap string (list topo.ShardInfo);
  tablet_records : gmap string topo.TabletInfo;
  routing_rules : gmap string (list string);
}.

(** [ts] is [wr.ts]; [sourceTs] is [wr.sourceTs], either [wr.ts] itself
    ([None]) or the topology server of a mounted external cluster. *)
Record World := {
  ts : Topo;
  external_clusters : gmap string Topo;
  sourceTs : option string;
  tablet_states : gmap string Tablet;
  trace : list Event;
}.

Definition set_ts (w : World) (t : Topo) : World :=
  {| ts := t; external_clusters := external_clusters w; sourceTs := sourceTs w;
     tablet_states := tablet_states w; trace := trace w |}.
Definition set_sourceTs (w : World) (c : option string) : World :=
  {| ts := ts w; external_clusters := external_clusters w; sourceTs := c;
     tablet_states := tablet_states w; trace := trace w |}.
Definition set_tablet_states (w : World) (m : gmap string Tablet) : World :=
  {| ts := ts w; external_clusters := external_clusters w; sourceTs := sourceTs w;
     tablet_states := m; trace := trace w |}.
Definition log (w : World) (e : Event) : World :=
  {| ts := ts w; external_clusters := external_clusters w; sourceTs := sourceTs w;
     tablet_states := tablet_states w; trace := trace w ++ [e] |}.

Definition set_vschemas (t : Topo) (m : gmap string vschemapb.Keyspace) : Topo :=
  {| vschemas := m; serving_shards := serving_shards t;
     tablet_records := tablet_records t; routing_rules := routing_rules t |}.
Definition set_routing_rules (t : Topo) (m : gmap string (list string)) : Topo :=
  {| vschemas := vschemas t; serving_shards := serving_shards t;
     tablet_records := tablet_records t; routing_rules := m |}.

Definition set_tables (t : Tablet) (l : list tabletmanagerdatapb.TableDefinition) : Tablet :=
  {| tables := l; vreplication := vreplication t; next_id := next_id t;
     resharding_journal := resharding_journal t; time_zones := time_zones t |}.
Definition set_vreplication (t : Tablet) (l : list VRow) (n : Z) : Tablet :=
  {| tables := tables t; vreplication := l; next_id := n;
     resharding_journal := resharding_journal t; time_zones := time_zones t |}.

(** ** The state-and-error monad of the engine *)

Definition M (A : Type) : Type := World → result A * World.

Global Instance M_ret : MRet M := λ A a w, (Ok a, w).
Global Instance M_bind : MBind M := λ A B f m w,
  match m w with
  | (Ok a, w') => f a w'
  | (Err e, w') => (Err e, w')
  end.

Definition fail {A} (e : Error) : M A := λ w, (Err e, w).
Definition get_world : M World := λ w, (Ok w, w).
Definition lift {A} (r : result A) : M A := λ w, (r, w).

(** Run a task and hand back its outcome instead of propagating its error. *)
Definition attempt {A} (m : M A) : M (result A) :=
  λ w, let '(r, w') := m w in (Ok r, w').

(** [AllErrorRecorder.AggrError]: no error when nothing was recorded. *)
Definition AggrError (errs : list Error) : M unit :=
  match errs with
  | [] => mret ()
  | _ => fail (Aggregate errs)
  end.

(** A fan-out whose tasks share the closure variable [s] (guarded by a
    mutex in the source): every task runs, each returns the new value of
    the shared variable and its own error, if any. *)
Fixpoint fanOutShared {A S} (f : A → S → M (S * option Error))
    (l : list A) (s : S) : M (S * list Error) :=
  match l with
  | [] => mret (s, [])
  | a :: l' =>
      '(s1, e) ← f a s;
      '(s2, es) ← fanOutShared f l' s1;
      mret (s2, from_option (λ e, e :: es) es e)
  end.

(** A fan-out whose tasks share nothing. *)
Fixpoint fanOutErrors {A} (f : A → M unit) (l : list A) : M (list Error) :=
  match l with
  | [] => mret []
  | a :: l' =>
      r ← attempt (f a);
      es ← fanOutErrors f l';
      mret (match r with Ok _ => es | Err e => e :: es end)
  end.

Definition fanOut {A} (f : A → M unit) (l : list A) : M unit :=
  es ← fanOutErrors f l; AggrError es.

Global Instance result_ret : MRet result := λ A a, Ok a.
Global Instance result_bind : MBind result := λ A B f r,
  match r with
  | Ok a => f a
  | Err e => Err e
  end.

(** [for _, x := range l] with an early [return err]. *)
Fixpoint forEach {A B} (f : A → result B) (l : list A) : result (list B) :=
  match l with
  | [] => Ok []
  | a :: l' => b ← f a; bs ← forEach f l'; Ok (b :: bs)
  end.

(** ** Collaborators outside the engine

    The SQL parser and printer, the vindex registry, the JSON decoder and
    the database server behind [ApplySchema] are opaque capabilities: the
    engine is verified for every implementation of them. *)
Class Env := {
  sqlparser_Parse : string → result sqlparser.Statement;
  sqlparser_String : sqlparser.Select → string;
  sqlparser_ParseTable : string → result (string * string);
  sqlparser_TableFromStatement : string → result sqlparser.TableName;
  sqlparser_ParseStrictDDL : string → result sqlparser.DDLStatement;
  sqlparser_String_DDL : sqlparser.DDLStatement → string;
  (** [%v] of an identifier in [Myprintf] *)
  sqlparser_FormatID : string → string;
  schema_IsInternalOperationTableName : string → bool;
  vindexes_CreateVindex : string → string → gmap string string → result unit;
  vindexes_ChooseVindexForType : string → result string;
  vindexes_BuildKeyspaceSchema :
    vschemapb.Keyspace → string → result vindexes.KeyspaceSchema;
  (** the table's primary column vindex *)
  vindexes_FindBestColVindex : vindexes.Table → result vindexes.ColumnVindex;
  key_KeyRangeString : option key.KeyRange → string;
  json2_Unmarshal_tables : string → result (gmap string vschemapb.Table);
  (** what the database makes of a batch of DDL *)
  mysql_ApplySchema :
    tmutils.SchemaChange → list tabletmanagerdatapb.TableDefinition →
    result (list tabletmanagerdatapb.TableDefinition);
  vreplication_SQLMode : string;
}.

(** ** Topology server and tablet manager client *)

Definition source_topo (w : World) : result Topo :=
  match sourceTs w with
  | None => Ok (ts w)
  | Some c =>
      match external_clusters w !! c with
      | Some t => Ok t
      | None => Err (Errorf "external cluster %s is not mounted" [AStr c])
      end
  end.

(** [fromSource] selects [wr.sourceTs] instead of [wr.ts]. *)
Definition the_topo (fromSource : bool) (w : World) : result Topo :=
  if fromSource then source_topo w else Ok (ts w).

Definition OpenExternalVitessClusterServer (cluster : string) : M unit := λ w,
  match external_clusters w !! cluster with
  | Some _ => (Ok (), w)
  | None => (Err (Errorf "external cluster %s is not mounted" [AStr cluster]), w)
  end.

Definition GetVSchema (keyspace : string) : M vschemapb.Keyspace := λ w,
  match vschemas (ts w) !! keyspace with
  | Some v => (Ok v, w)
  | None => (Err (Errorf "node doesn't exist: keyspaces/%s/VSchema" [AStr keyspace]), w)
  end.

Definition SaveVSchema (keyspace : string) (v : vschemapb.Keyspace) : M unit := λ w,
  (Ok (), log (set_ts w (set_vschemas (ts w) (<[keyspace := v]> (vschemas (ts w)))))
              (EvSaveVSchema keyspace v)).

Definition GetRoutingRules : M (gmap string (list string)) := λ w,
  (Ok (routing_rules (ts w)), w).

Definition SaveRoutingRules (rules : gmap string (list string)) : M unit := λ w,
  (Ok (), log (set_ts w (set_routing_rules (ts w) rules)) (EvSaveRoutingRules rules)).

Definition RebuildSrvVSchema : M unit := λ w, (Ok (), log w EvRebuildSrvVSchema).

Definition GetServingShards (fromSource : bool) (keyspace : string)
    : M (list topo.ShardInfo) := λ w,
  match the_topo fromSource w with
  | Err e => (Err e, w)
  | Ok t =>
      match serving_shards t !! keyspace with
      | Some l => (Ok l, w)
      | None => (Err (Errorf "node doesn't exist: keyspaces/%s" [AStr keyspace]), w)
      end
  end.

Definition GetTablet (fromSource : bool) (alias : option string)
    : M topo.TabletInfo := λ w,
  match the_topo fromSource w with
  | Err e => (Err e, w)
  | Ok t =>
      match alias ≫= (λ a, tablet_records t !! a) with
      | Some ti => (Ok ti, w)
      | None => (Err (Errorf "node doesn't exist: tablets/%v" [AOpaque]), w)
      end
  end.

(** A call to a tablet fails when the tablet cannot be reached. *)
Definition reach (tablet : topo.TabletInfo) : M Tablet := λ w,
  match tablet_states w !! topo.AliasString tablet with
  | Some t => (Ok t, w)
  | None => (Err (Errorf "tablet %s: connection refused" [AStr (topo.AliasString tablet)]), w)
  end.

Definition store (tablet : topo.TabletInfo) (t : Tablet) : M unit := λ w,
  (Ok (), set_tablet_states w (<[topo.AliasString tablet := t]> (tablet_states w))).

Definition record (e : Event) : M unit := λ w, (Ok (), log w e).

(** [wr.sourceTs = externalTopo] *)
Definition assign_sourceTs (c : option string) : M unit := λ w,
  (Ok (), set_sourceTs w c).

(** [tmc.GetSchema]: every table ([/.*/]) or the one named. *)
Definition tmc_GetSchema (tablet : topo.TabletInfo) (only : option string)
    : M (list tabletmanagerdatapb.TableDefinition) :=
  t ← reach tablet;
  mret (match only with
        | None => tables t
        | Some n => filter (λ td, tabletmanagerdatapb.td_Name td = n) (tables t)
        end).

(** [schematools.GetSchema]: look the tablet up, then ask it. *)
Definition schematools_GetSchema (alias : option string) (only : option string)
    : M (list tabletmanagerdatapb.TableDefinition) :=
  ti ← GetTablet false alias;
  tmc_GetSchema ti only.

Definition tmc_ApplySchema `{Env} (tablet : topo.TabletInfo)
    (change : tmutils.SchemaChange) : M unit :=
  record (EvApplySchema (topo.AliasString tablet) change);;
  t ← reach tablet;
  tbls ← lift (mysql_ApplySchema change (tables t));
  store tablet (set_tables t tbls).

(** The rows of one workflow in one database. *)
Definition stream_of (db wf : string) (r : VRow) : Prop :=
  db_name r = db ∧ workflow r = wf.
Global Instance stream_of_dec db wf r : Decision (stream_of db wf r).
Proof. unfold stream_of. apply _. Defined.

Definition set_state (r : VRow) (st : string) : VRow :=
  {| id := id r; workflow := workflow r; source := source r; cell := cell r;
     tablet_types := tablet_types r; state := st; message := message r;
     db_name := db_name r; workflow_type := workflow_type r;
     workflow_sub_type := workflow_sub_type r |}.
Definition set_id (r : VRow) (i : Z) : VRow :=
  {| id := i; workflow := workflow r; source := source r; cell := cell r;
     tablet_types := tablet_types r; state := state r; message := message r;
     db_name := db_name r; workflow_type := workflow_type r;
     workflow_sub_type := workflow_sub_type r |}.

(** Auto-increment ids for inserted rows. *)
Fixpoint number_rows (n : Z) (rows : list VRow) : list VRow :=
  match rows with
  | [] => []
  | r :: rows' => set_id r n :: number_rows (n + 1) rows'
  end.

(** What the replication-control table does with each statement. *)
Definition exec_query (q : Query) (t : Tablet) : list VRow * Tablet :=
  match q with
  | SelectStreams wf db => (filter (stream_of db wf) (vreplication t), t)
  | SelectStreamIDs db wf => (filter (stream_of db wf) (vreplication t), t)
  | DeleteStreams db wf =>
      ([], set_vreplication t (filter (λ r, ¬ stream_of db wf r) (vreplication t)) (next_id t))
  | StartStreams db wf =>
      ([], set_vreplication t
             (map (λ r, if decide (stream_of db wf r)
                        then set_state r binlogplayer.BlpRunning else r)
                  (vreplication t))
             (next_id t))
  | InsertStreams rows =>
      ([], set_vreplication t (vreplication t ++ number_rows (next_id t) rows)
             (next_id t + Z.of_nat (length rows)))
  end.

Definition tmc_VReplicationExec (tablet : topo.TabletInfo) (q : Query) : M (list VRow) :=
  record (EvVReplicationExec (topo.AliasString tablet) q);;
  t ← reach tablet;
  let '(rows, t') := exec_query q t in
  store tablet t';;
  mret rows.

(** [ExecuteFetchAsApp] of [select convert_tz(testDateTime, tz, 'UTC')]:
    the converted value, or NULL when the server has not loaded [tz]. *)
Definition tmc_ExecuteFetchAsApp_convert_tz (tablet : topo.TabletInfo)
    (testDateTime tz : string) : M (option string) :=
  t ← reach tablet;
  mret (if decide (tz ∈ time_zones t) then Some testDateTime else None).

(** [workflow.Server.CheckReshardingJournalExistsOnTablet]: is there a row
    of [_vt.resharding_journal] with this migration id. *)
Definition CheckReshardingJournalExistsOnTablet (tablet : topo.TabletInfo)
    (migrationID : Z) : M bool :=
  t ← reach tablet;
  mret (bool_decide (migrationID ∈ resharding_journal t)).

(** ** getMigrationID *)

(** [getMigrationID] produces a reproducible hash based on the input
    parameters: the keyspace name and then every element of the sorted list
    are written to one FNV-1 hasher, and the highest bit is dropped. *)
Definition getMigrationID (targetKeyspace : string) (shardTablets : list string) : Z :=
  let shardTablets := Go.sort_Strings shardTablets in
  let hasher := Go.offset64 in
  let hasher := Go.fnv64_Write hasher (Go.bytes targetKeyspace) in
  let hasher :=
    fold_left (fun h str => Go.fnv64_Write h (Go.bytes str)) shardTablets hasher in
  Z.land hasher Go.MaxInt64.

(** ** The materializer *)

Import vtctldatapb.

Record materializer := {
  ms : MaterializeSettings;
  targetVSchema : vindexes.KeyspaceSchema;
  sourceShards : list topo.ShardInfo;
  targetShards : list topo.ShardInfo;
  isPartial : bool;
}.

Definition createDDLAsCopy : string := "copy".
Definition createDDLAsCopyDropConstraint : string := "copy:drop_constraint".
Definition createDDLAsCopyDropForeignKeys : string := "copy:drop_foreign_keys".

Definition str_eqb (a b : string) : bool := bool_decide (a = b).

(** Modelled from the spec: [validateNewWorkflow] is a method of the same
    wrangler defined outside the shown source.  The spec: a workflow name
    must not already exist in the target keyspace; the check asks the
    primary of every shard of the keyspace for replication-control rows of
    that workflow and fails when one answers with a row. *)
Definition validateNewWorkflow (keyspace workflow : string) : M unit :=
  allshards ← GetServingShards false keyspace;
  fanOut (λ si,
    primary ← GetTablet false (topo.PrimaryAlias si);
    rows ← tmc_VReplicationExec primary (SelectStreamIDs (topo.DbName primary) workflow);
    match rows with
    | [] => mret ()
    | _ => fail (Errorf "workflow %s already exists in keyspace %s on tablet %d"
                   [AStr workflow; AStr keyspace; AStr (topo.AliasString primary)])
    end) allshards.

(** The shards of [shards] named in [names], in the order of [shards]. *)
Definition shards_named (names : list string) (shards : list topo.ShardInfo)
    : list topo.ShardInfo :=
  filter (λ shard, topo.ShardName shard ∈ names) shards.

Section Engine.
Context `{Env}.

Definition buildMaterializer (ms : MaterializeSettings) : M materializer :=
  vschema ← GetVSchema (TargetKeyspace ms);
  targetVSchema ← lift (vindexes_BuildKeyspaceSchema vschema (TargetKeyspace ms));
  (if vindexes.Keyspace_Sharded targetVSchema then
     lift (forEach (λ ts,
       match vindexes.Tables targetVSchema !! TargetTable ts with
       | None => Err (Errorf "table %s not found in vschema for keyspace %s"
                        [AStr (TargetTable ts); AStr (TargetKeyspace ms)])
       | Some _ => Ok ()
       end) (TableSettings ms));; mret ()
   else mret ());;
  let isPartial := false in
  sourceShards ← GetServingShards true (SourceKeyspace ms);
  let '(isPartial, sourceShards) :=
    match SourceShards ms with
    | [] => (isPartial, sourceShards)
    | _ => (true, shards_named (SourceShards ms) sourceShards)
    end in
  (match sourceShards with
   | [] => fail (Errorf "no source shards specified for workflow %s " [AStr (Workflow ms)])
   | _ => mret ()
   end);;
  targetShards ← GetServingShards false (TargetKeyspace ms);
  let targetShards :=
    match SourceShards ms with
    | [] => targetShards
    | _ => shards_named (SourceShards ms) targetShards
    end in
  (match targetShards with
   | [] => fail (Errorf "no target shards specified for workflow %s " [AStr (Workflow ms)])
   | _ => mret ()
   end);;
  mret {| ms := ms; targetVSchema := targetVSchema; sourceShards := sourceShards;
          targetShards := targetShards; isPartial := isPartial |}.

Definition getSourceTableDDLs (mz : materializer) : M (gmap string string) :=
  match sourceShards mz with
  | [] => fail (Panic "index out of range: mz.sourceShards[0]")
  | shard0 :: _ =>
      match topo.PrimaryAlias shard0 with
      | None => fail (Errorf "source shard must have a primary for copying schema: %v"
                        [AStr (topo.ShardName shard0)])
      | Some sourcePrimary =>
          ti ← GetTablet true (Some sourcePrimary);
          sourceSchema ← tmc_GetSchema ti None;
          mret (foldl (λ m td, <[tabletmanagerdatapb.td_Name td :=
                                   tabletmanagerdatapb.Schema td]> m)
                      ∅ sourceSchema)
      end
  end.

Definition stripTableForeignKeys (ddl : string) : result string :=
  ast ← sqlparser_ParseStrictDDL ddl;
  let noFKConstraintAST :=
    match sqlparser.GetTableSpec ast with
    | Some spec =>
        let noFKConstraints :=
          filter (λ constraint,
                    match sqlparser.Details constraint with
                    | Some (sqlparser.ForeignKeyDefinition _) => false
                    | Some _ => true
                    | None => false
                    end = true) (sqlparser.Constraints spec) in
        {| sqlparser.ddl_text := sqlparser.ddl_text ast;
           sqlparser.GetTableSpec :=
             Some {| sqlparser.spec_text := sqlparser.spec_text spec;
                     sqlparser.Constraints := noFKConstraints |} |}
    | None => ast
    end in
  Ok (sqlparser_String_DDL noFKConstraintAST).

Definition stripTableConstraints (ddl : string) : result string :=
  ast ← sqlparser_ParseStrictDDL ddl;
  let noConstraintAST :=
    match sqlparser.GetTableSpec ast with
    | Some spec =>
        {| sqlparser.ddl_text := sqlparser.ddl_text ast;
           sqlparser.GetTableSpec :=
             Some {| sqlparser.spec_text := sqlparser.spec_text spec;
                     sqlparser.Constraints := [] |} |}
    | None => ast
    end in
  Ok (sqlparser_String_DDL noConstraintAST).

(** The DDL of one absent target table, given the source DDLs: the body of
    the table loop of [deploySchema] after the cache has been filled. *)
Definition resolveDDL (sourceDDLs : gmap string string)
    (ts : TableMaterializeSettings) : result string :=
  let createDDL := CreateDdl ts in
  if str_eqb createDDL createDDLAsCopy
     || str_eqb createDDL createDDLAsCopyDropConstraint
     || str_eqb createDDL createDDLAsCopyDropForeignKeys then
    (if str_eqb (SourceExpression ts) EmptyString then Ok ()
     else
       sourceTableName ← sqlparser_TableFromStatement (SourceExpression ts);
       if str_eqb (sqlparser.tn_Name sourceTableName) (TargetTable ts) then Ok ()
       else Err (Errorf "source and target table names must match for copying schema: %v vs %v"
                   [AOpaque; AStr (TargetTable ts)]));;
    match sourceDDLs !! TargetTable ts with
    | None => Err (Errorf "source table %v does not exist" [AStr (TargetTable ts)])
    | Some ddl =>
        ddl ← (if str_eqb createDDL createDDLAsCopyDropConstraint
               then stripTableConstraints ddl else Ok ddl);
        ddl ← (if str_eqb createDDL createDDLAsCopyDropForeignKeys
               then stripTableForeignKeys ddl else Ok ddl);
        Ok ddl
    end
  else Ok createDDL.

(** The table loop of [deploySchema] for one target shard.  [sourceDDLs] is
    the closure variable shared by all shard tasks; it is fetched when it is
    still empty.  The loop yields the cache and either the DDL to apply or
    the error of the first table that fails. *)
Fixpoint deploySchema_tables (mz : materializer) (hasTargetTable : gset string)
    (settings : list TableMaterializeSettings)
    (sourceDDLs : gmap string string) (applyDDLs : list string)
    : M (gmap string string * result (list string)) :=
  match settings with
  | [] => mret (sourceDDLs, Ok applyDDLs)
  | ts :: settings' =>
      if decide (TargetTable ts ∈ hasTargetTable) then
        (* Table already exists. *)
        deploySchema_tables mz hasTargetTable settings' sourceDDLs applyDDLs
      else if str_eqb (CreateDdl ts) EmptyString then
        mret (sourceDDLs,
              Err (Errorf "target table %v does not exist and there is no create ddl defined"
                     [AStr (TargetTable ts)]))
      else
        fetched ← (if decide (size sourceDDLs = 0%nat)
                   then attempt (getSourceTableDDLs mz)
                   else mret (Ok sourceDDLs));
        match fetched with
        | Err err => mret (∅, Err err)
        | Ok sourceDDLs =>
            match resolveDDL sourceDDLs ts with
            | Err err => mret (sourceDDLs, Err err)
            | Ok createDDL =>
                deploySchema_tables mz hasTargetTable settings' sourceDDLs
                  (applyDDLs ++ [createDDL])
            end
        end
  end.

Definition deploySchema_target (mz : materializer) (target : topo.ShardInfo)
    (sourceDDLs : gmap string string) : M (gmap string string * option Error) :=
  r ← attempt (schematools_GetSchema (topo.PrimaryAlias target) None);
  match r with
  | Err err => mret (sourceDDLs, Some err)
  | Ok targetSchema =>
      let hasTargetTable : gset string :=
        list_to_set (map tabletmanagerdatapb.td_Name targetSchema) in
      r ← attempt (GetTablet false (topo.PrimaryAlias target));
      match r with
      | Err err => mret (sourceDDLs, Some err)
      | Ok targetTablet =>
          '(sourceDDLs, r) ←
            deploySchema_tables mz hasTargetTable (TableSettings (ms mz)) sourceDDLs [];
          match r with
          | Err err => mret (sourceDDLs, Some err)
          | Ok [] => mret (sourceDDLs, None)
          | Ok applyDDLs =>
              let sql := Go.Join applyDDLs (";" +:+ Go.newline) in
              r ← attempt (tmc_ApplySchema targetTablet
                             {| tmutils.SQL := sql;
                                tmutils.Force := false;
                                tmutils.AllowReplication := true;
                                tmutils.SQLMode := vreplication_SQLMode |});
              mret (sourceDDLs, match r with Err err => Some err | Ok _ => None end)
          end
      end
  end.

Definition deploySchema (mz : materializer) : M unit :=
  '(_, errs) ← fanOutShared (deploySchema_target mz) (targetShards mz) ∅;
  AggrError errs.

(** Modelled from the spec: [vreplication.InsertGenerator] is defined
    outside the shown source.  It accumulates the rows of one insert
    statement into the replication-control table; every row carries the
    state and database name the generator was created with (id, workflow,
    source, cell, tablet_types, state, message, db_name, intent code and
    workflow-subtype code make up a StreamRecord). *)
Record InsertGenerator := {
  ig_state : string;
  ig_dbname : string;
  ig_rows : list VRow;
}.

Definition NewInsertGenerator (state dbname : string) : InsertGenerator :=
  {| ig_state := state; ig_dbname := dbname; ig_rows := [] |}.

Definition AddRow (ig : InsertGenerator) (workflow : string)
    (bls : binlogdatapb.BinlogSource) (pos cell tabletTypes : string)
    (workflowType workflowSubType : Z) : InsertGenerator :=
  {| ig_state := ig_state ig; ig_dbname := ig_dbname ig;
     ig_rows := ig_rows ig ++
       [{| id := 0; workflow := workflow; source := bls; cell := cell;
           tablet_types := tabletTypes; state := ig_state ig;
           message := EmptyString; db_name := ig_dbname ig;
           workflow_type := workflowType;
           workflow_sub_type := workflowSubType |}] |}.

Definition matchColInSelect (col : sqlparser.IdentifierCI) (sel : sqlparser.Select)
    : result sqlparser.ColName :=
  (fix loop (exprs : list sqlparser.SelectExpr) : result sqlparser.ColName :=
     match exprs with
     | [] => Err (Errorf "could not find vindex column %v" [AStr col])
     | sqlparser.StarExpr :: _ =>
         Ok {| sqlparser.Qualifier := EmptyString; sqlparser.Name := col |}
     | sqlparser.AliasedExpr e As :: rest =>
         if sqlparser.IdentifierCI_IsEmpty As then
           match e with
           | sqlparser.ColExpr colExpr =>
               if sqlparser.IdentifierCI_Equal (sqlparser.Name colExpr) col
               then Ok colExpr else loop rest
           | _ =>
               (* Cannot match against a complex expression. *)
               loop rest
           end
         else if sqlparser.IdentifierCI_Equal As col then
           match e with
           | sqlparser.ColExpr colExpr => Ok colExpr
           | _ => Err (Errorf "vindex column cannot be a complex expression: %v" [AOpaque])
           end
         else loop rest
     | _ :: _ => Err (Errorf "unsupported select expression: %v" [AOpaque])
     end) (sqlparser.SelectExprs sel).

(** The range predicate [in_keyrange(cols..., 'ks.vindex', '{{.keyrange}}')]. *)
Definition inKeyRange (mappedCols : list sqlparser.ColName) (vindexName : string)
    : sqlparser.Expr :=
  let subExprs :=
    map (λ mappedCol, sqlparser.AliasedExpr (sqlparser.ColExpr mappedCol) EmptyString)
        mappedCols
    ++ [sqlparser.AliasedExpr (sqlparser.Literal vindexName) EmptyString;
        sqlparser.AliasedExpr (sqlparser.Literal "{{.keyrange}}") EmptyString] in
  sqlparser.FuncExpr "in_keyrange" subExprs.

(** The body of the table-settings loop of [generateInserts]: the filter
    rule of one table. *)
Definition generateInserts_rule (mz : materializer) (ts : TableMaterializeSettings)
    : result binlogdatapb.Rule :=
  if str_eqb (SourceExpression ts) EmptyString then
    Ok {| binlogdatapb.Match := TargetTable ts; binlogdatapb.Filter := EmptyString |}
  else
    (* Validate non-empty query. *)
    stmt ← sqlparser_Parse (SourceExpression ts);
    match stmt with
    | sqlparser.StmtSelect sel =>
        let filter := SourceExpression ts in
        filter ←
          (if vindexes.Keyspace_Sharded (targetVSchema mz) then
             match vindexes.Tables (targetVSchema mz) !! TargetTable ts with
             | None => Err (Panic "nil dereference: mz.targetVSchema.Tables[ts.TargetTable]")
             | Some table =>
                 if negb (str_eqb (vindexes.Type_ table) vindexes.TypeReference) then
                   cv ← vindexes_FindBestColVindex table;
                   mappedCols ← forEach (λ col, matchColInSelect col sel)
                                        (vindexes.Columns cv);
                   let vindexName :=
                     TargetKeyspace (ms mz) +:+ "." +:+ vindexes.Name cv in
                   let sel :=
                     match sqlparser.Where sel with
                     | Some where_ =>
                         sqlparser.set_Where sel
                           (sqlparser.AndExpr (inKeyRange mappedCols vindexName) where_)
                     | None =>
                         sqlparser.set_Where sel (inKeyRange mappedCols vindexName)
                     end in
                   Ok (sqlparser_String sel)
                 else Ok filter
             end
           else Ok filter);
        Ok {| binlogdatapb.Match := TargetTable ts; binlogdatapb.Filter := filter |}
    | _ => Err (Errorf "unrecognized statement: %s" [AStr (SourceExpression ts)])
    end.

Fixpoint generateInserts_sources (mz : materializer) (targetShard : topo.ShardInfo)
    (sources : list topo.ShardInfo) (ig : InsertGenerator) : result InsertGenerator :=
  match sources with
  | [] => Ok ig
  | sourceShard :: sources' =>
      (* Don't create streams from sources which won't contain data for the
         target shard.  Only for MoveTables. *)
      if bool_decide (MaterializationIntent_ (ms mz) = MOVETABLES)
         && negb (key.KeyRangesIntersect (topo.KeyRange sourceShard)
                                         (topo.KeyRange targetShard))
      then generateInserts_sources mz targetShard sources' ig
      else
        rules ← forEach (generateInserts_rule mz) (TableSettings (ms mz));
        let bls :=
          {| binlogdatapb.Keyspace := SourceKeyspace (ms mz);
             binlogdatapb.Shard := topo.ShardName sourceShard;
             binlogdatapb.Filter_Rules := rules;
             binlogdatapb.StopAfterCopy := StopAfterCopy (ms mz);
             binlogdatapb.ExternalCluster := ExternalCluster (ms mz);
             binlogdatapb.SourceTimeZone := SourceTimeZone (ms mz);
             binlogdatapb.TargetTimeZone := TargetTimeZone (ms mz) |} in
        let workflowSubType :=
          if isPartial mz then binlogdatapb.SubType_Partial
          else binlogdatapb.SubType_None in
        generateInserts_sources mz targetShard sources'
          (AddRow ig (Workflow (ms mz)) bls EmptyString (Cell (ms mz))
                  (TabletTypes (ms mz))
                  (intent_code (MaterializationIntent_ (ms mz)))
                  (binlogdatapb.subtype_code workflowSubType))
  end.

(** The result stands for the text of the insert statement: its rows. *)
Definition generateInserts (mz : materializer) (targetShard : topo.ShardInfo)
    : result (list VRow) :=
  let ig := NewInsertGenerator binlogplayer.BlpStopped "{{.dbname}}" in
  ig ← generateInserts_sources mz targetShard (sourceShards mz) ig;
  Ok (ig_rows ig).

(** [vterrors.Wrapf] around a failing call. *)
Definition wrapf {A} (m : M A) (format : string) (args : list Arg) : M A := λ w,
  match m w with
  | (Err e, w') => (Err (Wrapf e format args), w')
  | ok => ok
  end.

Definition forAllTargets (mz : materializer) (f : topo.ShardInfo → M unit) : M unit :=
  fanOut f (targetShards mz).

(** Template execution on the insert statement: the two actions the
    generator left in it, the key range inside the filters and the database
    name, are replaced (user-supplied names are taken to hold no template
    action). *)
Definition execute_template (keyrange dbname : string) (r : VRow) : VRow :=
  let bls := source r in
  {| id := id r; workflow := workflow r;
     source :=
       {| binlogdatapb.Keyspace := binlogdatapb.Keyspace bls;
          binlogdatapb.Shard := binlogdatapb.Shard bls;
          binlogdatapb.Filter_Rules :=
            map (λ rule, {| binlogdatapb.Match := binlogdatapb.Match rule;
                            binlogdatapb.Filter :=
                              Go.ReplaceAll (binlogdatapb.Filter rule)
                                            "{{.keyrange}}" keyrange |})
                (binlogdatapb.Filter_Rules bls);
          binlogdatapb.StopAfterCopy := binlogdatapb.StopAfterCopy bls;
          binlogdatapb.ExternalCluster := binlogdatapb.ExternalCluster bls;
          binlogdatapb.SourceTimeZone := binlogdatapb.SourceTimeZone bls;
          binlogdatapb.TargetTimeZone := binlogdatapb.TargetTimeZone bls |};
     cell := cell r; tablet_types := tablet_types r; state := state r;
     message := message r;
     db_name := Go.ReplaceAll (db_name r) "{{.dbname}}" dbname;
     workflow_type := workflow_type r; workflow_sub_type := workflow_sub_type r |}.

Definition createStreams (mz : materializer) (insertsMap : gmap string (list VRow))
    : M unit :=
  forAllTargets mz (λ target,
    let inserts := default [] (insertsMap !! topo.ShardName target) in
    targetPrimary ← wrapf (GetTablet false (topo.PrimaryAlias target))
                          "GetTablet(%v) failed" [AOpaque];
    let keyrange := key_KeyRangeString (topo.KeyRange target) in
    let dbname := topo.DbName targetPrimary in
    tmc_VReplicationExec targetPrimary
      (InsertStreams (map (execute_template keyrange dbname) inserts));;
    mret ()).

Definition startStreams (mz : materializer) : M unit :=
  forAllTargets mz (λ target,
    targetPrimary ← wrapf (GetTablet false (topo.PrimaryAlias target))
                          "GetTablet(%v) failed" [AOpaque];
    let query := StartStreams (topo.DbName targetPrimary) (Workflow (ms mz)) in
    wrapf (tmc_VReplicationExec targetPrimary query) "VReplicationExec(%v, %s)"
          [AOpaque; AOpaque];;
    mret ()).

(** checkTZConversion is a light-weight consistency check to validate that,
    if a source time zone is specified to MoveTables, the current primary
    has the time zone loaded. *)
Definition checkTZConversion (mz : materializer) (tz : string) : M unit :=
  forAllTargets mz (λ target,
    targetPrimary ← wrapf (GetTablet false (topo.PrimaryAlias target))
                          "GetTablet(%v) failed" [AOpaque];
    let testDateTime := "2006-01-02 15:04:05" in
    r ← wrapf (tmc_ExecuteFetchAsApp_convert_tz targetPrimary testDateTime tz)
              "ExecuteFetchAsApp(%v, %s)" [AOpaque; AOpaque];
    match r with
    | Some _ => mret ()
    | None =>
        fail (Errorf "unable to perform time_zone conversions from %s to UTC — result of the attempt was: %s. Either the specified source time zone is invalid or the time zone tables have not been loaded on the %s tablet"
                [AStr tz; AOpaque; AStr (topo.AliasString targetPrimary)])
    end).

Definition collectTargetStreams (mz : materializer) : M (list string) :=
  '(shardTablets, errs) ←
    fanOutShared (λ target (shardTablets : list string),
      r ← attempt (
        targetPrimary ← wrapf (GetTablet false (topo.PrimaryAlias target))
                              "GetTablet(%v) failed" [AOpaque];
        let query := SelectStreamIDs (topo.DbName targetPrimary) (Workflow (ms mz)) in
        wrapf (tmc_VReplicationExec targetPrimary query) "VReplicationExec(%v, %s)"
              [AOpaque; AOpaque]);
      match r with
      | Err err => mret (shardTablets, Some err)
      | Ok rows =>
          mret (shardTablets ++
                  map (λ row, topo.ShardName target +:+ ":" +:+ pretty (id row)) rows,
                None)
      end) (targetShards mz) [];
  AggrError errs;;
  mret shardTablets.

(** The loop of [prepareMaterializerStreams] that fills [insertMap]. *)
Fixpoint generateInsertMap (mz : materializer) (targets : list topo.ShardInfo)
    (insertMap : gmap string (list VRow)) : result (gmap string (list VRow)) :=
  match targets with
  | [] => Ok insertMap
  | targetShard :: targets' =>
      inserts ← generateInserts mz targetShard;
      generateInsertMap mz targets' (<[topo.ShardName targetShard := inserts]> insertMap)
  end.

Definition prepareMaterializerStreams (ms : MaterializeSettings) : M materializer :=
  validateNewWorkflow (TargetKeyspace ms) (Workflow ms);;
  mz ← buildMaterializer ms;
  deploySchema mz;;
  insertMap ← lift (generateInsertMap mz (targetShards mz) ∅);
  createStreams mz insertMap;;
  mret mz.

(** Materialize performs the steps needed to materialize a list of tables
    based on the materialization specs. *)
Definition Materialize (ms : MaterializeSettings) : M unit :=
  mz ← prepareMaterializerStreams ms;
  startStreams mz.

(** The closure variables [exists] and [tablets] are shared by the tasks of
    all source shards: each task overwrites [exists] with the answer of its
    own tablet, and adds the tablet to [tablets] when that answer is yes. *)
Definition checkIfPreviousJournalExists (mz : materializer) (migrationID : Z)
    : M (bool * list string) :=
  '((exists_, tablets), errs) ←
    fanOutShared (λ si (shared : bool * list string),
      let '(exists_, tablets) := shared in
      r ← attempt (GetTablet false (topo.PrimaryAlias si));
      match r with
      | Err err => mret ((exists_, tablets), Some err)
      | Ok tablet =>
          r ← attempt (CheckReshardingJournalExistsOnTablet tablet migrationID);
          match r with
          | Err err => mret ((false, tablets), Some err)
          | Ok exists_ =>
              mret ((exists_,
                     if (exists_ : bool) then tablets ++ [topo.AliasString tablet]
                     else tablets),
                    None)
          end
      end) (sourceShards mz) (false, []);
  AggrError errs;;
  mret (exists_, tablets).

(** ** MoveTables *)

(** addTablesToVSchema adds tables to an (unsharded) vschema.  Depending on
    copyAttributes it will also add any sequence info that is associated
    with a table by copying it from the vschema of the source keyspace. *)
Definition addTablesToVSchema (sourceKeyspace : string)
    (targetVSchema : vschemapb.Keyspace) (tables : list string)
    (copyAttributes : bool) : M vschemapb.Keyspace :=
  let targetVSchema :=
    vschemapb.set_Tables targetVSchema
      (foldl (λ m table, <[table := vschemapb.empty_Table]> m)
             (vschemapb.Tables targetVSchema) tables) in
  if copyAttributes then
    srcVSchema ← GetVSchema sourceKeyspace;
    mret (vschemapb.set_Tables targetVSchema
            (foldl (λ m table,
                      match vschemapb.Tables srcVSchema !! table with
                      | Some srcTable =>
                          alter (λ t, vschemapb.set_AutoIncrement t
                                        (vschemapb.AutoIncrement srcTable)) table m
                      | None => m
                      end)
                   (vschemapb.Tables targetVSchema) tables))
  else mret targetVSchema.

Definition shouldInclude (table : string) (excludes : list string) : bool :=
  if schema_IsInternalOperationTableName table then false
  else negb (bool_decide (table ∈ excludes)).

Definition validateSourceTablesExist (sourceKeyspace : string)
    (ksTables tables : list string) : result unit :=
  (* validate that tables provided are present in the source keyspace *)
  let missingTables :=
    filter (λ table, schema_IsInternalOperationTableName table = false
                     ∧ table ∉ ksTables) tables in
  match missingTables with
  | [] => Ok ()
  | _ => Err (Errorf "table(s) not found in source keyspace %s: %s"
                [AStr sourceKeyspace; AStr (Go.Join missingTables ",")])
  end.

Definition getKeyspaceTables (ks : string) : M (list string) :=
  shards ← GetServingShards true ks;
  match shards with
  | [] => fail (Errorf "keyspace %s has no shards" [AStr ks])
  | shard0 :: _ =>
      match topo.PrimaryAlias shard0 with
      | None => fail (Errorf "shard does not have a primary: %v"
                        [AStr (topo.ShardName shard0)])
      | Some primary =>
          ti ← GetTablet true (Some primary);
          schema ← tmc_GetSchema ti None;
          mret (map tabletmanagerdatapb.td_Name schema)
      end
  end.

(** The first part of [MoveTables]: the tables to move and the target
    vschema with them added.  [tableSpecs] is either a JSON object of table
    definitions or a comma-separated list of table names. *)
Definition MoveTables_tables (sourceKeyspace targetKeyspace tableSpecs : string)
    (allTables : bool) (excludeTables externalCluster : string)
    (vschema : vschemapb.Keyspace) : M (list string * vschemapb.Keyspace) :=
  if Go.HasPrefix tableSpecs "{" then
    ks ← lift (json2_Unmarshal_tables tableSpecs);
    mret ((map_to_list ks).*1,
          vschemapb.set_Tables vschema
            (foldl (λ m kv, <[kv.1 := kv.2]> m) (vschemapb.Tables vschema)
                   (map_to_list ks)))
  else
    let tables :=
      if str_eqb (Go.TrimSpace tableSpecs) EmptyString then []
      else Go.Split tableSpecs "," in
    ksTables ← getKeyspaceTables sourceKeyspace;
    tables ← match tables with
             | _ :: _ =>
                 lift (validateSourceTablesExist sourceKeyspace ksTables tables);;
                 mret tables
             | [] =>
                 if allTables then mret ksTables
                 else fail (Errorf "no tables to move" [])
             end;
    let excludeTables := Go.TrimSpace excludeTables in
    excludeTablesList ←
      (if str_eqb excludeTables EmptyString then mret []
       else
         let excludeTablesList := Go.Split excludeTables "," in
         lift (validateSourceTablesExist sourceKeyspace ksTables excludeTablesList);;
         mret excludeTablesList);
    let tables := filter (λ t, shouldInclude t excludeTablesList = true) tables in
    match tables with
    | [] => fail (Errorf "no tables to move" [])
    | _ =>
        if vschemapb.Sharded vschema then mret (tables, vschema)
        else
          vschema ← addTablesToVSchema sourceKeyspace vschema tables
                      (str_eqb externalCluster EmptyString);
          mret (tables, vschema)
    end.

(** The routing rules that send every moved table to the source keyspace. *)
Definition MoveTables_rules (sourceKeyspace targetKeyspace : string)
    (tables : list string) (rules : gmap string (list string))
    : gmap string (list string) :=
  foldl (λ rules table,
    let toSource := [sourceKeyspace +:+ "." +:+ table] in
    let rules := <[table := toSource]> rules in
    let rules := <[table +:+ "@replica" := toSource]> rules in
    let rules := <[table +:+ "@rdonly" := toSource]> rules in
    let rules := <[targetKeyspace +:+ "." +:+ table := toSource]> rules in
    let rules := <[targetKeyspace +:+ "." +:+ table +:+ "@replica" := toSource]> rules in
    let rules := <[targetKeyspace +:+ "." +:+ table +:+ "@rdonly" := toSource]> rules in
    let rules := <[targetKeyspace +:+ "." +:+ table := toSource]> rules in
    let rules := <[sourceKeyspace +:+ "." +:+ table +:+ "@replica" := toSource]> rules in
    let rules := <[sourceKeyspace +:+ "." +:+ table +:+ "@rdonly" := toSource]> rules in
    rules) rules tables.

(** The settings [MoveTables] hands to the materializer. *)
Definition MoveTables_settings (workflow sourceKeyspace targetKeyspace cell
    tabletTypes : string) (stopAfterCopy : bool) (externalCluster : string)
    (dropForeignKeys : bool) (sourceTimeZone : string) (sourceShards : list string)
    (tables : list string) : MaterializeSettings :=
  let '(msSourceTimeZone, msTargetTimeZone) :=
    if str_eqb sourceTimeZone EmptyString then (EmptyString, EmptyString)
    else (sourceTimeZone, "UTC") in
  let createDDLMode :=
    if dropForeignKeys then createDDLAsCopyDropForeignKeys else createDDLAsCopy in
  {| Workflow := workflow;
     MaterializationIntent_ := MOVETABLES;
     SourceKeyspace := sourceKeyspace;
     TargetKeyspace := targetKeyspace;
     Cell := cell;
     TabletTypes := tabletTypes;
     StopAfterCopy := stopAfterCopy;
     ExternalCluster := externalCluster;
     SourceShards := sourceShards;
     SourceTimeZone := msSourceTimeZone;
     TargetTimeZone := msTargetTimeZone;
     TableSettings :=
       map (λ table,
              {| TargetTable := table;
                 SourceExpression := "select * from " +:+ sqlparser_FormatID table;
                 CreateDdl := createDDLMode |}) tables |}.

Definition previousJournalError (migrationID : Z) (tablets : list string)
    (workflow targetKeyspace : string) : Error :=
  Errorf "found an entry from a previous run for migration id %d in _vt.resharding_journal of tablets %s,please review and delete it before proceeding and restart the workflow using the Workflow %s.%s start"
    [AInt migrationID; AStr (Go.Join tablets ","); AStr workflow; AStr targetKeyspace].

(** The part of [MoveTables] that follows the construction of the
    settings: create the streams, then look for the journal of an earlier
    run, then start the streams. *)
Definition MoveTables_streams (ms : MaterializeSettings) (autoStart : bool) : M unit :=
  mz ← prepareMaterializerStreams ms;
  (if str_eqb (SourceTimeZone ms) EmptyString then mret ()
   else checkTZConversion mz (SourceTimeZone ms));;
  tabletShards ← collectTargetStreams mz;
  let migrationID := getMigrationID (TargetKeyspace ms) tabletShards in
  (if str_eqb (ExternalCluster ms) EmptyString then
     '(exists_, tablets) ← checkIfPreviousJournalExists mz migrationID;
     if (exists_ : bool) then
       fail (previousJournalError migrationID tablets (Workflow ms) (TargetKeyspace ms))
     else mret ()
   else mret ());;
  if autoStart then startStreams mz
  else mret ().

(** The part of [MoveTables] that precedes the materializer: resolve the
    tables, save routing rules and vschema, build the settings. *)
Definition MoveTables_plan (workflow sourceKeyspace targetKeyspace tableSpecs cell
    tabletTypes : string) (allTables : bool) (excludeTables : string)
    (stopAfterCopy : bool) (externalCluster : string)
    (dropForeignKeys : bool) (sourceTimeZone : string) (sourceShards : list string)
    : M MaterializeSettings :=
  (if str_eqb externalCluster EmptyString then mret ()
   else
     (* the source is an external cluster mounted using the Mount command *)
     OpenExternalVitessClusterServer externalCluster;;
     assign_sourceTs (Some externalCluster));;
  vschema ← GetVSchema targetKeyspace;
  '(tables, vschema) ←
    MoveTables_tables sourceKeyspace targetKeyspace tableSpecs allTables
      excludeTables externalCluster vschema;
  (if str_eqb externalCluster EmptyString then
     (* Save routing rules before vschema. *)
     rules ← GetRoutingRules;
     SaveRoutingRules (MoveTables_rules sourceKeyspace targetKeyspace tables rules);;
     (* We added to the vschema. *)
     SaveVSchema targetKeyspace vschema
   else mret ());;
  RebuildSrvVSchema;;
  mret (MoveTables_settings workflow sourceKeyspace targetKeyspace cell tabletTypes
          stopAfterCopy externalCluster dropForeignKeys sourceTimeZone sourceShards
          tables).

(** MoveTables initiates moving table(s) over to another keyspace. *)
Definition MoveTables (workflow sourceKeyspace targetKeyspace tableSpecs cell
    tabletTypes : string) (allTables : bool) (excludeTables : string)
    (autoStart stopAfterCopy : bool) (externalCluster : string)
    (dropForeignKeys : bool) (sourceTimeZone : string) (sourceShards : list string)
    : M unit :=
  ms ← MoveTables_plan workflow sourceKeyspace targetKeyspace tableSpecs cell
         tabletTypes allTables excludeTables stopAfterCopy externalCluster
         dropForeignKeys sourceTimeZone sourceShards;
  MoveTables_streams ms autoStart.

(** ** CreateLookupVindex *)

Definition generateColDef (lines : list string) (sourceVindexCol vindexFromCol : string)
    : result string :=
  let source := sqlescape.EscapeID sourceVindexCol in
  let target := sqlescape.EscapeID vindexFromCol in
  (fix loop (ls : list string) : result string :=
     match ls with
     | [] => Err (Errorf "column %s not found in schema %v" [AStr sourceVindexCol; AStrs lines])
     | line :: ls' =>
         if Go.Contains line source then
           let line := Go.Replace1 line source target in
           let line := Go.Replace1 line " AUTO_INCREMENT" EmptyString in
           let line := Go.Replace1 line " DEFAULT NULL" EmptyString in
           Ok line
         else loop ls'
     end) (tail lines).

(** What the validation of the input of [prepareCreateLookup] establishes
    (the "important variables" of the source). *)
Record LookupInput := {
  vindexName : string;
  vindex : vschemapb.Vindex;
  targetKeyspace : string;
  targetTableName : string;
  vindexFromCols : list string;
  vindexToCol : string;
  sourceTableName : string;
  sourceColumnVindex : vschemapb.ColumnVindex;
  sourceVindexColumns : list string;
}.

(** The validation of the input vindex and table, the first part of
    [prepareCreateLookup]; it reads nothing but the specs. *)
Definition prepareCreateLookup_validate (specs : vschemapb.Keyspace)
    : result LookupInput :=
  (* Validate input vindex *)
  match map_to_list (vschemapb.Vindexes specs) with
  | [(vindexName, vindex)] =>
      if negb (Go.Contains (vschemapb.vx_Type vindex) "lookup") then
        Err (Errorf "vindex %s is not a lookup type" [AStr (vschemapb.vx_Type vindex)])
      else
      match sqlparser_ParseTable (vschemapb.param (vschemapb.Params vindex) "table") with
      | Ok (targetKeyspace, targetTableName) =>
        if str_eqb targetKeyspace EmptyString then
          Err (Errorf "vindex table name must be in the form <keyspace>.<table>. Got: %v"
                 [AStr (vschemapb.param (vschemapb.Params vindex) "table")])
        else
        let vindexFromCols :=
          Go.Split (vschemapb.param (vschemapb.Params vindex) "from") "," in
        (if Go.Contains (vschemapb.vx_Type vindex) "unique" then
           if decide (length vindexFromCols ≠ 1%nat) then
             Err (Errorf "unique vindex 'from' should have only one column: %v" [AOpaque])
           else Ok ()
         else
           if decide (length vindexFromCols < 2)%nat then
             Err (Errorf "non-unique vindex 'from' should have more than one column: %v" [AOpaque])
           else Ok ());;
        let vindexToCol := vschemapb.param (vschemapb.Params vindex) "to" in
        (* Make the vindex write_only. *)
        let vindex :=
          vschemapb.set_Params vindex
            (<["write_only" := "true"]> (vschemapb.Params vindex)) in
        (* See if we can create the vindex without errors. *)
        vindexes_CreateVindex (vschemapb.vx_Type vindex) vindexName
                              (vschemapb.Params vindex);;
        (* Validate input table *)
        match map_to_list (vschemapb.Tables specs) with
        | [(sourceTableName, sourceTable)] =>
            match vschemapb.ColumnVindexes sourceTable with
            | [cv0] =>
                (* Validate input table and vindex consistency *)
                if negb (str_eqb (vschemapb.cv_Name cv0) vindexName) then
                  Err (Errorf "ColumnVindex name must match vindex name: %s vs %s"
                         [AStr (vschemapb.cv_Name cv0); AStr vindexName])
                else if negb (str_eqb (vschemapb.Owner vindex) EmptyString)
                        && negb (str_eqb (vschemapb.Owner vindex) sourceTableName) then
                  Err (Errorf "vindex owner must match table name: %v vs %v"
                         [AStr (vschemapb.Owner vindex); AStr sourceTableName])
                else
                  sourceVindexColumns ←
                    match vschemapb.cv_Columns cv0 with
                    | _ :: _ => Ok (vschemapb.cv_Columns cv0)
                    | [] =>
                        if str_eqb (vschemapb.cv_Column cv0) EmptyString then
                          Err (Errorf "at least one column must be specified in ColumnVindexes: %v" [AOpaque])
                        else Ok [vschemapb.cv_Column cv0]
                    end;
                  if decide (length sourceVindexColumns ≠ length vindexFromCols) then
                    Err (Errorf "length of table columns differes from length of vindex columns: %v vs %v"
                           [AStrs sourceVindexColumns; AStrs vindexFromCols])
                  else
                    Ok {| vindexName := vindexName; vindex := vindex;
                          targetKeyspace := targetKeyspace;
                          targetTableName := targetTableName;
                          vindexFromCols := vindexFromCols;
                          vindexToCol := vindexToCol;
                          sourceTableName := sourceTableName;
                          sourceColumnVindex := cv0;
                          sourceVindexColumns := sourceVindexColumns |}
            | _ => Err (Errorf "exactly one ColumnVindex must be specified for the table: %v" [AOpaque])
            end
        | _ => Err (Errorf "exactly one table must be specified in the specs: %v" [AOpaque])
        end
      | Err _ =>
          Err (Errorf "vindex table name must be in the form <keyspace>.<table>. Got: %v"
                 [AStr (vschemapb.param (vschemapb.Params vindex) "table")])
      end
  | _ => Err (Errorf "only one vindex must be specified in the specs: %v" [AOpaque])
  end.

Definition is_consistent_lookup (type : string) : bool :=
  Go.EqualFold type "consistent_lookup_unique" || Go.EqualFold type "consistent_lookup".

(** Generate "create table" statement *)
Definition lookup_createDDL (i : LookupInput) (schema : string) : result string :=
  let lines := Go.Split schema (ascii_of_nat 10) in
  if decide (length lines < 3)%nat then
    (* Unreachable *)
    Err (Errorf "schema looks incorrect: %s, expecting at least four lines" [AStr schema])
  else
    let modified :=
      [Go.Replace1 (hd EmptyString lines) (sourceTableName i) (targetTableName i)] in
    colDefs ← forEach (λ cols, generateColDef lines cols.1 cols.2)
                      (zip (sourceVindexColumns i) (vindexFromCols i));
    let modified := modified ++ colDefs in
    let modified :=
      modified ++
      [if str_eqb (vschemapb.param (vschemapb.Params (vindex i)) "data_type") EmptyString
          || is_consistent_lookup (vschemapb.vx_Type (vindex i))
       then "  " +:+ sqlescape.EscapeID (vindexToCol i) +:+ " varbinary(128),"
       else "  " +:+ sqlescape.EscapeID (vindexToCol i) +:+ " "
            +:+ sqlescape.EscapeID (vschemapb.param (vschemapb.Params (vindex i)) "data_type")
            +:+ ","] in
    let modified :=
      modified ++
      ["  PRIMARY KEY (" +:+ Go.Join (map sqlescape.EscapeID (vindexFromCols i)) ", "
       +:+ ")"] in
    let modified := modified ++ [")"] in
    Ok (Go.Join modified Go.newline).

(** Generate vreplication query *)
Definition lookup_materializeQuery (i : LookupInput) : string :=
  "select "
  +:+ String.concat EmptyString
        (map (λ cols, sqlparser_FormatID cols.1 +:+ " as " +:+ sqlparser_FormatID cols.2
                      +:+ ", ")
             (zip (sourceVindexColumns i) (vindexFromCols i)))
  +:+ (if Go.EqualFold (vindexToCol i) "keyspace_id"
          || is_consistent_lookup (vschemapb.vx_Type (vindex i))
       then "keyspace_id() as " +:+ sqlparser_FormatID (vindexToCol i) +:+ " "
       else sqlparser_FormatID (vindexToCol i) +:+ " as "
            +:+ sqlparser_FormatID (vindexToCol i) +:+ " ")
  +:+ "from " +:+ sqlparser_FormatID (sourceTableName i)
  +:+ (if str_eqb (vschemapb.Owner (vindex i)) EmptyString then EmptyString
       else
         (* Only backfill *)
         " group by "
         +:+ String.concat EmptyString
               (map (λ col, sqlparser_FormatID col +:+ ", ") (vindexFromCols i))
         +:+ sqlparser_FormatID (vindexToCol i)).

(** The two vschemas [prepareCreateLookup] edits.  They are one object when
    the source and target keyspaces are the same: an edit of either is then
    an edit of both. *)
Definition VSchemas : Type := vschemapb.Keyspace * vschemapb.Keyspace.

Definition editTarget (same : bool) (f : vschemapb.Keyspace → vschemapb.Keyspace)
    (vs : VSchemas) : VSchemas :=
  if same then (f vs.2, f vs.2) else (vs.1, f vs.2).
Definition editSource (same : bool) (f : vschemapb.Keyspace → vschemapb.Keyspace)
    (vs : VSchemas) : VSchemas :=
  if same then (f vs.1, f vs.1) else (f vs.1, vs.2).

(** Update targetVSchema *)
Definition lookup_updateTarget (i : LookupInput) (same : bool)
    (tableDef : tabletmanagerdatapb.TableDefinition) (vs : VSchemas) : result VSchemas :=
  '(targetTable, vs) ←
    (if vschemapb.Sharded vs.2 then
       (* Choose a primary vindex type for target table based on source specs *)
       match filter (λ field, hd EmptyString (sourceVindexColumns i)
                              = tabletmanagerdatapb.fld_Name field)
                    (tabletmanagerdatapb.Fields tableDef) with
       | [] =>
           (* Unreachable. We validated column names when generating the DDL. *)
           Err (Errorf "column %s not found in schema %v"
                  [AStr (hd EmptyString (sourceVindexColumns i)); AOpaque])
       | field :: _ =>
           targetVindexType ← vindexes_ChooseVindexForType (tabletmanagerdatapb.fld_Type field);
           let targetVindex :=
             {| vschemapb.vx_Type := targetVindexType; vschemapb.Params := ∅;
                vschemapb.Owner := EmptyString |} in
           vs ← match vschemapb.Vindexes vs.2 !! targetVindexType with
                | Some existing =>
                    if vschemapb.proto_Equal existing targetVindex then Ok vs
                    else Err (Errorf "a conflicting vindex named %v already exists in the target vschema"
                                [AStr targetVindexType])
                | None =>
                    Ok (editTarget same
                          (λ v, vschemapb.set_Vindexes v
                                  (<[targetVindexType := targetVindex]> (vschemapb.Vindexes v)))
                          vs)
                end;
           Ok (vschemapb.set_ColumnVindexes vschemapb.empty_Table
                 [{| vschemapb.cv_Column := hd EmptyString (vindexFromCols i);
                     vschemapb.cv_Name := targetVindexType;
                     vschemapb.cv_Columns := [] |}],
               vs)
       end
     else Ok (vschemapb.empty_Table, vs));
  match vschemapb.Tables vs.2 !! targetTableName i with
  | Some existing =>
      if vschemapb.proto_Equal existing targetTable then Ok vs
      else Err (Errorf "a conflicting table named %v already exists in the target vschema"
                  [AStr (targetTableName i)])
  | None =>
      Ok (editTarget same
            (λ v, vschemapb.set_Tables v
                    (<[targetTableName i := targetTable]> (vschemapb.Tables v)))
            vs)
  end.

(** prepareCreateLookup performs the preparatory steps for creating a
    lookup vindex. *)
Definition prepareCreateLookup (keyspace : string) (specs : vschemapb.Keyspace)
    (continueAfterCopyWithOwner : bool)
    : M (MaterializeSettings * vschemapb.Keyspace * vschemapb.Keyspace) :=
  i ← lift (prepareCreateLookup_validate specs);
  (* Validate against source vschema *)
  sourceVSchema ← GetVSchema keyspace;
  (* If source and target keyspaces are same, make vschemas point to the
     same object. *)
  let same := str_eqb keyspace (targetKeyspace i) in
  targetVSchema ← (if same then mret sourceVSchema else GetVSchema (targetKeyspace i));
  (match vschemapb.Vindexes sourceVSchema !! vindexName i with
   | Some existing =>
       if vschemapb.proto_Equal existing (vindex i) then mret ()
       else fail (Errorf "a conflicting vindex named %s already exists in the source vschema"
                    [AStr (vindexName i)])
   | None => mret ()
   end);;
  sourceVSchemaTable ←
    match vschemapb.Tables sourceVSchema !! sourceTableName i with
    | Some t => mret t
    | None =>
        if negb (schema_IsInternalOperationTableName (sourceTableName i)) then
          fail (Errorf "source table %s not found in vschema" [AStr (sourceTableName i)])
        else fail (Panic "nil dereference: sourceVSchemaTable.ColumnVindexes")
    end;
  lift (forEach (λ colVindex,
          (* For a conflict, the vindex name and column should match. *)
          if negb (str_eqb (vschemapb.cv_Name colVindex) (vindexName i)) then Ok ()
          else
            let colName :=
              match vschemapb.cv_Columns colVindex with
              | c :: _ => c
              | [] => vschemapb.cv_Column colVindex
              end in
            if str_eqb colName (hd EmptyString (sourceVindexColumns i)) then
              Err (Errorf "ColumnVindex for table %v already exists: %v, please remove it and try again"
                     [AStr (sourceTableName i); AStr colName])
            else Ok ())
        (vschemapb.ColumnVindexes sourceVSchemaTable));;
  (* Validate against source schema *)
  sourceShards ← GetServingShards false keyspace;
  onesource ← match sourceShards with
              | s :: _ => mret s
              | [] => fail (Panic "index out of range: sourceShards[0]")
              end;
  (match topo.PrimaryAlias onesource with
   | None => fail (Errorf "source shard has no primary: %v" [AStr (topo.ShardName onesource)])
   | Some _ => mret ()
   end);;
  tableSchema ← schematools_GetSchema (topo.PrimaryAlias onesource)
                                      (Some (sourceTableName i));
  tableDef ← match tableSchema with
             | [td] => mret td
             | _ => fail (Errorf "unexpected number of tables returned from schema: %v" [AOpaque])
             end;
  createDDL ← lift (lookup_createDDL i (tabletmanagerdatapb.Schema tableDef));
  let materializeQuery := lookup_materializeQuery i in
  vs ← lift (lookup_updateTarget i same tableDef (sourceVSchema, targetVSchema));
  let ms :=
    {| Workflow := targetTableName i +:+ "_vdx";
       MaterializationIntent_ := CREATELOOKUPINDEX;
       SourceKeyspace := keyspace;
       TargetKeyspace := targetKeyspace i;
       StopAfterCopy :=
         negb (str_eqb (vschemapb.Owner (vindex i)) EmptyString)
         && negb continueAfterCopyWithOwner;
       TableSettings :=
         [{| TargetTable := targetTableName i;
             SourceExpression := materializeQuery;
             CreateDdl := createDDL |}];
       Cell := EmptyString; TabletTypes := EmptyString;
       ExternalCluster := EmptyString; SourceTimeZone := EmptyString;
       TargetTimeZone := EmptyString; SourceShards := [] |} in
  (* Update sourceVSchema *)
  let vs :=
    editSource same
      (λ v, vschemapb.set_Vindexes v (<[vindexName i := vindex i]> (vschemapb.Vindexes v)))
      vs in
  let vs :=
    editSource same
      (λ v, vschemapb.set_Tables v
              (alter (λ t, vschemapb.set_ColumnVindexes t
                             (vschemapb.ColumnVindexes t ++ [sourceColumnVindex i]))
                     (sourceTableName i) (vschemapb.Tables v)))
      vs in
  mret (ms, vs.1, vs.2).

Definition set_Cell_TabletTypes (ms : MaterializeSettings) (cell tabletTypes : string)
    : MaterializeSettings :=
  {| Workflow := Workflow ms; SourceKeyspace := SourceKeyspace ms;
     TargetKeyspace := TargetKeyspace ms; StopAfterCopy := StopAfterCopy ms;
     TableSettings := TableSettings ms; Cell := cell; TabletTypes := tabletTypes;
     ExternalCluster := ExternalCluster ms;
     MaterializationIntent_ := MaterializationIntent_ ms;
     SourceTimeZone := SourceTimeZone ms; TargetTimeZone := TargetTimeZone ms;
     SourceShards := SourceShards ms |}.

(** CreateLookupVindex creates a lookup vindex and sets up the backfill. *)
Definition CreateLookupVindex (keyspace : string) (specs : vschemapb.Keyspace)
    (cell tabletTypes : string) (continueAfterCopyWithOwner : bool) : M unit :=
  '(ms, sourceVSchema, targetVSchema) ←
    prepareCreateLookup keyspace specs continueAfterCopyWithOwner;
  SaveVSchema (TargetKeyspace ms) targetVSchema;;
  let ms := set_Cell_TabletTypes ms cell tabletTypes in
  Materialize ms;;
  SaveVSchema keyspace sourceVSchema;;
  RebuildSrvVSchema.

(** ** ExternalizeVindex *)

(** The state a stream must be in for its vindex to be externalized. *)
Definition externalize_check (sourceVindex : vschemapb.Vindex)
    (targetShard : topo.ShardInfo) (row : VRow) : result unit :=
  let bls := source row in
  if str_eqb (vschemapb.Owner sourceVindex) EmptyString
     || negb (binlogdatapb.StopAfterCopy bls) then
    (* If there's no owner or we've requested that the workflow NOT be
       stopped after the copy phase completes, then all streams need to be
       running. *)
    if negb (str_eqb (state row) binlogplayer.BlpRunning) then
      Err (Errorf "stream %d for %v.%v is not in Running state: %v"
             [AInt (id row); AStr (topo.Keyspace targetShard);
              AStr (topo.ShardName targetShard); AStr (state row)])
    else Ok ()
  else
    (* If there is an owner, all streams need to be stopped after copy. *)
    if negb (str_eqb (state row) binlogplayer.BlpStopped)
       || negb (Go.Contains (message row) "Stopped after copy") then
      Err (Errorf "stream %d for %v.%v is not in Stopped after copy state: %v, %v"
             [AInt (id row); AStr (topo.Keyspace targetShard);
              AStr (topo.ShardName targetShard); AStr (state row); AStr (message row)])
    else Ok ().

(** The first closure [ExternalizeVindex] runs for all targets: every
    stream of the workflow on the shard's primary is in the expected state. *)
Definition ExternalizeVindex_verify (sourceVindex : vschemapb.Vindex)
    (workflow : string) (targetShard : topo.ShardInfo) : M unit :=
  targetPrimary ← GetTablet false (topo.PrimaryAlias targetShard);
  rows ← tmc_VReplicationExec targetPrimary
           (SelectStreams workflow (topo.DbName targetPrimary));
  lift (forEach (externalize_check sourceVindex targetShard) rows);;
  mret ().

(** The second closure: delete the streams of the workflow. *)
Definition ExternalizeVindex_delete (workflow : string) (targetShard : topo.ShardInfo)
    : M unit :=
  targetPrimary ← GetTablet false (topo.PrimaryAlias targetShard);
  let query := DeleteStreams (topo.DbName targetPrimary) workflow in
  tmc_VReplicationExec targetPrimary query;;
  mret ().

(** ExternalizeVindex externalizes a lookup vindex that's finished
    backfilling or has caught up. *)
Definition ExternalizeVindex (qualifiedVindexName : string) : M unit :=
  match Go.Split qualifiedVindexName "." with
  | [sourceKeyspace; vindexName] =>
      sourceVSchema ← GetVSchema sourceKeyspace;
      match vschemapb.Vindexes sourceVSchema !! vindexName with
      | None => fail (Errorf "vindex %s not found in vschema" [AStr qualifiedVindexName])
      | Some sourceVindex =>
          match sqlparser_ParseTable
                  (vschemapb.param (vschemapb.Params sourceVindex) "table") with
          | Ok (targetKeyspace, targetTableName) =>
            if str_eqb targetKeyspace EmptyString then
              fail (Errorf "vindex table name must be in the form <keyspace>.<table>. Got: %v"
                      [AStr (vschemapb.param (vschemapb.Params sourceVindex) "table")])
            else
            let workflow := targetTableName +:+ "_vdx" in
            targetShards ← GetServingShards false targetKeyspace;
            (* Create a parallelizer function. *)
            let forAllTargets f := fanOut f targetShards in
            forAllTargets (ExternalizeVindex_verify sourceVindex workflow);;
            (if str_eqb (vschemapb.Owner sourceVindex) EmptyString then mret ()
             else
               (* If there is an owner, we have to delete the streams. *)
               forAllTargets (ExternalizeVindex_delete workflow));;
            (* Remove the write_only param and save the source vschema. *)
            let sourceVindex :=
              vschemapb.set_Params sourceVindex
                (delete "write_only" (vschemapb.Params sourceVindex)) in
            let sourceVSchema :=
              vschemapb.set_Vindexes sourceVSchema
                (<[vindexName := sourceVindex]> (vschemapb.Vindexes sourceVSchema)) in
            SaveVSchema sourceKeyspace sourceVSchema;;
            RebuildSrvVSchema
          | Err _ =>
              fail (Errorf "vindex table name must be in the form <keyspace>.<table>. Got: %v"
                      [AStr (vschemapb.param (vschemapb.Params sourceVindex) "table")])
          end
      end
  | _ => fail (Errorf "vindex name should be of the form keyspace.vindex: %s"
                 [AStr qualifiedVindexName])
  end.

End Engine.

(** ** A concrete instance

    One implementation of the collaborators and one small cluster, used to
    run the engine on explicit inputs: keyspace [legacy] is unsharded (one
    shard, the whole key space), keyspace [sales] has the two shards [-80]
    and [80-]. *)

Module Demo.

Fixpoint print_Expr (e : sqlparser.Expr) : string :=
  match e with
  | sqlparser.ColExpr c => sqlparser.Name c
  | sqlparser.Literal v => "'" +:+ v +:+ "'"
  | sqlparser.FuncExpr n args =>
      n +:+ "("
      +:+ Go.Join (map (λ a, match a with
                             | sqlparser.AliasedExpr e _ => print_Expr e
                             | sqlparser.Nextval e => print_Expr e
                             | sqlparser.StarExpr => "*"
                             end) args) ", "
      +:+ ")"
  | sqlparser.AndExpr l r => print_Expr l +:+ " and " +:+ print_Expr r
  | sqlparser.ComplexExpr t => t
  end.

Definition print_SelectExpr (a : sqlparser.SelectExpr) : string :=
  match a with
  | sqlparser.StarExpr => "*"
  | sqlparser.AliasedExpr e As =>
      if sqlparser.IdentifierCI_IsEmpty As then print_Expr e
      else print_Expr e +:+ " as " +:+ As
  | sqlparser.Nextval e => "next value for " +:+ print_Expr e
  end.

Definition print_Select (sel : sqlparser.Select) : string :=
  "select " +:+ Go.Join (map print_SelectExpr (sqlparser.SelectExprs sel)) ", "
  +:+ " from " +:+ sqlparser.From sel
  +:+ match sqlparser.Where sel with
      | Some w => " where " +:+ print_Expr w
      | None => EmptyString
      end
  +:+ sqlparser.Rest sel.

(** A parser for the two shapes of query the examples use:
    [select * from t] and [select * from t where <text>]. *)
Definition parse (sql : string) : result sqlparser.Statement :=
  if Go.HasPrefix sql "select * from " then
    match Go.Split (Go.drop 14 sql) " " with
    | [t] =>
        Ok (sqlparser.StmtSelect
              {| sqlparser.SelectExprs := [sqlparser.StarExpr]; sqlparser.From := t;
                 sqlparser.Where := None; sqlparser.Rest := EmptyString |})
    | t :: "where" :: cond =>
        Ok (sqlparser.StmtSelect
              {| sqlparser.SelectExprs := [sqlparser.StarExpr]; sqlparser.From := t;
                 sqlparser.Where := Some (sqlparser.ComplexExpr (Go.Join cond " "));
                 sqlparser.Rest := EmptyString |})
    | _ => Err (Errorf "syntax error" [])
    end
  else if Go.HasPrefix sql "select " then Err (Errorf "syntax error" [])
  else Ok (sqlparser.StmtOther sql).

Definition parseTable (input : string) : result (string * string) :=
  match Go.Split input "." with
  | [t] => Ok (EmptyString, t)
  | [k; t] => Ok (k, t)
  | _ => Err (Errorf "invalid table name: %s" [AStr input])
  end.

Definition hex_digit (n : N) : ascii :=
  if (n <? 10)%N then ascii_of_N (48 + n) else ascii_of_N (87 + n).

Fixpoint hex (s : string) : string :=
  match s with
  | EmptyString => EmptyString
  | String c s' =>
      String (hex_digit (N_of_ascii c / 16)) (String (hex_digit (N_of_ascii c mod 16)) (hex s'))
  end.

Definition keyRangeString (kr : option key.KeyRange) : string :=
  match kr with
  | None => "-"
  | Some kr => hex (key.Start kr) +:+ "-" +:+ hex (key.End kr)
  end.

Definition buildKeyspaceSchema (vs : vschemapb.Keyspace) (name : string)
    : result vindexes.KeyspaceSchema :=
  Ok {| vindexes.Keyspace_Sharded := vschemapb.Sharded vs;
        vindexes.Tables :=
          (λ t, {| vindexes.Type_ := vschemapb.tbl_Type t;
                   vindexes.ColumnVindexes :=
                     map (λ cv, {| vindexes.Columns :=
                                     match vschemapb.cv_Columns cv with
                                     | [] => [vschemapb.cv_Column cv]
                                     | cols => cols
                                     end;
                                   vindexes.Name := vschemapb.cv_Name cv |})
                         (vschemapb.ColumnVindexes t) |})
          <$> vschemapb.Tables vs |}.

Definition env : Env :=
  {| sqlparser_Parse := parse;
     sqlparser_String := print_Select;
     sqlparser_ParseTable := parseTable;
     sqlparser_TableFromStatement sql :=
       if Go.HasPrefix sql "select * from " then
         Ok {| sqlparser.tn_Name := hd EmptyString (Go.Split (Go.drop 14 sql) " ");
               sqlparser.tn_Qualifier := EmptyString |}
       else Err (Errorf "unrecognized statement" []);
     sqlparser_ParseStrictDDL ddl :=
       Ok {| sqlparser.ddl_text := ddl; sqlparser.GetTableSpec := None |};
     sqlparser_String_DDL := sqlparser.ddl_text;
     sqlparser_FormatID s := s;
     schema_IsInternalOperationTableName t := Go.HasPrefix t "_vt_";
     vindexes_CreateVindex _ _ _ := Ok ();
     vindexes_ChooseVindexForType _ := Ok "xxhash";
     vindexes_BuildKeyspaceSchema := buildKeyspaceSchema;
     vindexes_FindBestColVindex t :=
       match vindexes.ColumnVindexes t with
       | cv :: _ => Ok cv
       | [] => Err (Errorf "table has no vindex" [])
       end;
     key_KeyRangeString := keyRangeString;
     json2_Unmarshal_tables _ := Err (Errorf "invalid JSON" []);
     mysql_ApplySchema change tbls :=
       Ok (tbls ++
           map (λ stmt,
                  {| tabletmanagerdatapb.td_Name :=
                       hd EmptyString (Go.Split (Go.drop 13 (Go.TrimSpace stmt)) " ");
                     tabletmanagerdatapb.Schema := Go.TrimSpace stmt;
                     tabletmanagerdatapb.Fields := [] |})
               (Go.Split (tmutils.SQL change) ";"));
     vreplication_SQLMode := "NO_AUTO_VALUE_ON_ZERO" |}.

Definition x80 : string := String (ascii_of_nat 128) EmptyString.

Definition shard (ks name : string) (lo hi : string) (primary : string) : topo.ShardInfo :=
  {| topo.Keyspace := ks; topo.ShardName := name;
     topo.KeyRange := Some {| key.Start := lo; key.End := hi |};
     topo.PrimaryAlias := Some primary |}.

Definition legacy_0 : topo.ShardInfo :=
  {| topo.Keyspace := "legacy"; topo.ShardName := "0"; topo.KeyRange := None;
     topo.PrimaryAlias := Some "zone1-100" |}.
Definition sales_lo : topo.ShardInfo := shard "sales" "-80" EmptyString x80 "zone1-200".
Definition sales_hi : topo.ShardInfo := shard "sales" "80-" x80 EmptyString "zone1-300".

Definition customer_vschema : vschemapb.Table :=
  vschemapb.set_ColumnVindexes vschemapb.empty_Table
    [{| vschemapb.cv_Column := "cid"; vschemapb.cv_Name := "hash";
        vschemapb.cv_Columns := [] |}].

Definition the_topo : Topo :=
  {| vschemas :=
       {[ "legacy" := {| vschemapb.Sharded := false; vschemapb.Vindexes := ∅;
                         vschemapb.Tables := {[ "customer" := vschemapb.empty_Table ]} |};
          "sales" := {| vschemapb.Sharded := true;
                        vschemapb.Vindexes :=
                          {[ "hash" := {| vschemapb.vx_Type := "hash";
                                          vschemapb.Params := ∅;
                                          vschemapb.Owner := EmptyString |} ]};
                        vschemapb.Tables := {[ "customer" := customer_vschema ]} |} ]};
     serving_shards := {[ "legacy" := [legacy_0]; "sales" := [sales_lo; sales_hi] ]};
     tablet_records :=
       {[ "zone1-100" := {| topo.AliasString := "zone1-100"; topo.DbName := "vt_legacy" |};
          "zone1-200" := {| topo.AliasString := "zone1-200"; topo.DbName := "vt_sales" |};
          "zone1-300" := {| topo.AliasString := "zone1-300"; topo.DbName := "vt_sales" |} ]};
     routing_rules := ∅ |}.

Definition customer_table : tabletmanagerdatapb.TableDefinition :=
  {| tabletmanagerdatapb.td_Name := "customer";
     tabletmanagerdatapb.Schema := "create table customer (cid bigint, primary key (cid))";
     tabletmanagerdatapb.Fields :=
       [{| tabletmanagerdatapb.fld_Name := "cid"; tabletmanagerdatapb.fld_Type := "INT64" |}] |}.

Definition empty_tablet : Tablet :=
  {| tables := []; vreplication := []; next_id := 1; resharding_journal := [];
     time_zones := ["UTC"] |}.

(** A fresh cluster: the source holds the table, the targets are empty. *)
Definition fresh : World :=
  {| ts := the_topo; external_clusters := ∅; sourceTs := None;
     tablet_states :=
       {[ "zone1-100" := set_tables empty_tablet [customer_table];
          "zone1-200" := empty_tablet;
          "zone1-300" := empty_tablet ]};
     trace := [] |}.

(** [MoveTables] of table [customer] from [legacy] to [sales], workflow
    [movecust], with and without auto-start. *)
Definition movecust (autoStart : bool) : M unit :=
  MoveTables (H := env) "movecust" "legacy" "sales" "customer" "zone1" "primary"
    false EmptyString autoStart false EmptyString false EmptyString [].

(** The streams [movecust] creates get id 1 on either target shard. *)
Definition movecust_id : Z := getMigrationID "sales" ["-80:1"; "80-:1"].

(** The same cluster after an earlier run left its journal entry on the
    source primary. *)
Definition journaled : World :=
  set_tablet_states fresh
    (<[ "zone1-100" :=
          {| tables := [customer_table]; vreplication := []; next_id := 1;
             resharding_journal := [movecust_id]; time_zones := ["UTC"] |} ]>
       (tablet_states fresh)).

Definition rows_on (alias : string) (w : World) : list VRow :=
  from_option vreplication [] (tablet_states w !! alias).

(** The materializer of [movecust]. *)
Definition movecust_mz : materializer :=
  {| ms := MoveTables_settings (H := env) "movecust" "legacy" "sales" "zone1" "primary"
             false EmptyString false EmptyString [] ["customer"];
     targetVSchema :=
       {| vindexes.Keyspace_Sharded := true;
          vindexes.Tables :=
            {[ "customer" :=
                 {| vindexes.Type_ := EmptyString;
                    vindexes.ColumnVindexes :=
                      [{| vindexes.Columns := ["cid"]; vindexes.Name := "hash" |}] |} ]} |};
     sourceShards := [legacy_0];
     targetShards := [sales_lo; sales_hi];
     isPartial := false |}.

(** The cluster with a stream of a workflow [movecust] already on one
    target primary (left there by an earlier Materialize, say); no routing
    rule has been saved yet. *)
Definition occupied : World :=
  set_tablet_states fresh
    (<[ "zone1-200" :=
          {| tables := [];
             vreplication :=
               [{| id := 1; workflow := "movecust";
                   source :=
                     {| binlogdatapb.Keyspace := "legacy"; binlogdatapb.Shard := "0";
                        binlogdatapb.Filter_Rules := [];
                        binlogdatapb.StopAfterCopy := false;
                        binlogdatapb.ExternalCluster := EmptyString;
                        binlogdatapb.SourceTimeZone := EmptyString;
                        binlogdatapb.TargetTimeZone := EmptyString |};
                   cell := "zone1"; tablet_types := "primary"; state := "Running";
                   message := EmptyString; db_name := "vt_sales";
                   workflow_type := 0; workflow_sub_type := 0 |}];
             next_id := 2; resharding_journal := []; time_zones := ["UTC"] |} ]>
       (tablet_states fresh)).

(** A unique lookup vindex backed by table [lookupks.email_lookup]. *)
Definition email_vindex : vschemapb.Vindex :=
  {| vschemapb.vx_Type := "lookup_unique";
     vschemapb.Params :=
       {[ "table" := "lookupks.email_lookup"; "from" := "email";
          "to" := "keyspace_id" ]};
     vschemapb.Owner := "users" |}.

(** The vindex as [CreateLookupVindex] saves it, write-only, in keyspace
    [main]; its backfill stream on the one shard of [lookupks] is in state
    [st] with message [msg]. *)
Definition main_vschema : vschemapb.Keyspace :=
  {| vschemapb.Sharded := false;
     vschemapb.Vindexes :=
       {[ "email_vdx" :=
            vschemapb.set_Params email_vindex
              (<["write_only" := "true"]> (vschemapb.Params email_vindex)) ]};
     vschemapb.Tables := ∅ |}.

Definition lookup_shard : topo.ShardInfo :=
  {| topo.Keyspace := "lookupks"; topo.ShardName := "0"; topo.KeyRange := None;
     topo.PrimaryAlias := Some "zone1-600" |}.

Definition backfill_row (st msg : string) : VRow :=
  {| id := 1; workflow := "email_lookup_vdx";
     source :=
       {| binlogdatapb.Keyspace := "main"; binlogdatapb.Shard := "0";
          binlogdatapb.Filter_Rules := [];
          binlogdatapb.StopAfterCopy := true;
          binlogdatapb.ExternalCluster := EmptyString;
          binlogdatapb.SourceTimeZone := EmptyString;
          binlogdatapb.TargetTimeZone := EmptyString |};
     cell := EmptyString; tablet_types := EmptyString; state := st; message := msg;
     db_name := "vt_lookupks"; workflow_type := 2; workflow_sub_type := 0 |}.

Definition backfilling (st msg : string) : World :=
  {| ts :=
       {| vschemas := {[ "main" := main_vschema ]};
          serving_shards := {[ "lookupks" := [lookup_shard] ]};
          tablet_records :=
            {[ "zone1-600" := {| topo.AliasString := "zone1-600";
                                 topo.DbName := "vt_lookupks" |} ]};
          routing_rules := ∅ |};
     external_clusters := ∅; sourceTs := None;
     tablet_states :=
       {[ "zone1-600" :=
            {| tables := []; vreplication := [backfill_row st msg]; next_id := 2;
               resharding_journal := []; time_zones := [] |} ]};
     trace := [] |}.

(** A lookup-vindex spec with two vindex definitions. *)
Definition two_vindexes : vschemapb.Keyspace :=
  let v := {| vschemapb.vx_Type := "lookup_unique";
              vschemapb.Params :=
                {[ "table" := "lookupks.email_lookup"; "from" := "email";
                   "to" := "keyspace_id" ]};
              vschemapb.Owner := "users" |} in
  {| vschemapb.Sharded := false;
     vschemapb.Vindexes := {[ "email_vdx" := v; "other_vdx" := v ]};
     vschemapb.Tables := ∅ |}.

(** The built schema of [sales]: table [customer] is sharded by [hash(cid)]. *)
Definition sales_schema : vindexes.KeyspaceSchema :=
  {| vindexes.Keyspace_Sharded := true;
     vindexes.Tables :=
       {[ "customer" :=
            {| vindexes.Type_ := EmptyString;
               vindexes.ColumnVindexes :=
                 [{| vindexes.Columns := ["cid"]; vindexes.Name := "hash" |}] |} ]} |}.

(** A materializer that moves [customer] between two keyspaces with the
    same two shards. *)
Definition split_mz : materializer :=
  {| ms := MoveTables_settings (H := env) "split" "oldsales" "sales" "zone1" "primary"
             false EmptyString false EmptyString [] ["customer"];
     targetVSchema := sales_schema;
     sourceShards := [shard "oldsales" "-80" EmptyString x80 "zone1-400";
                      shard "oldsales" "80-" x80 EmptyString "zone1-500"];
     targetShards := [sales_lo; sales_hi];
     isPartial := false |}.

(** A table setting whose query already has a WHERE clause. *)
Definition customer_active : TableMaterializeSettings :=
  {| TargetTable := "customer";
     SourceExpression := "select * from customer where active = 1";
     CreateDdl := EmptyString |}.

End Demo.

(** ** Vocabulary of the properties *)

(** The key ranges of a source and a target shard intersect. *)
Definition intersects (targetShard sourceShard : topo.ShardInfo) : Prop :=
  key.KeyRangesIntersect (topo.KeyRange sourceShard) (topo.KeyRange targetShard) = true.
Global Instance intersects_dec t s : Decision (intersects t s).
Proof. unfold intersects. apply _. Defined.

(** A row built from the settings of a materializer: it carries the rules
    of the table settings, the time zones and workflow name of the
    settings, and it is created Stopped. *)
Definition row_of_settings `{Env} (mz : materializer) (r : VRow) : Prop :=
  forEach (generateInserts_rule mz) (TableSettings (ms mz))
    = Ok (binlogdatapb.Filter_Rules (source r))
  ∧ binlogdatapb.SourceTimeZone (source r) = SourceTimeZone (ms mz)
  ∧ binlogdatapb.TargetTimeZone (source r) = TargetTimeZone (ms mz)
  ∧ workflow r = Workflow (ms mz)
  ∧ state r = binlogplayer.BlpStopped.

(** The number of range predicates among the conjuncts of a WHERE clause. *)
Definition range_predicates (where_ : option sqlparser.Expr) : nat :=
  length (filter (λ e, sqlparser.is_call "in_keyrange" e = true)
                 (from_option sqlparser.conjuncts [] where_)).

(** A spec [prepareCreateLookup] must refuse: not exactly one vindex, or
    not exactly one table, or a vindex whose type is not of the lookup
    family, or a unique vindex without exactly one [from] column, or a
    non-unique vindex with fewer than two, or a table whose single
    column-vindex binding names another vindex. *)
Definition invalid_lookup_spec (specs : vschemapb.Keyspace) : Prop :=
  size (vschemapb.Vindexes specs) ≠ 1%nat
  ∨ size (vschemapb.Tables specs) ≠ 1%nat
  ∨ ∃ name vindex,
      vschemapb.Vindexes specs = {[ name := vindex ]}
      ∧ let type := vschemapb.vx_Type vindex in
        let from := Go.Split (vschemapb.param (vschemapb.Params vindex) "from") "," in
        Go.Contains type "lookup" = false
        ∨ (Go.Contains type "unique" = true ∧ length from ≠ 1%nat)
        ∨ (Go.Contains type "unique" = false ∧ (length from < 2)%nat)
        ∨ ∃ tableName table cv,
            vschemapb.Tables specs = {[ tableName := table ]}
            ∧ vschemapb.ColumnVindexes table = [cv]
            ∧ vschemapb.cv_Name cv ≠ name.

(** [steps R m]: every run of [m] takes a world to one related to it by
    [R].  With a preorder [R] this is how frame properties ("the tablets are
    untouched", "only such events are added") are carried through the
    engine. *)
Definition steps {A} (R : relation World) (m : M A) : Prop :=
  ∀ w r w', m w = (r, w') → R w w'.

(** The events [m] adds to the trace all satisfy [P]. *)
Definition adds_only (P : Event → Prop) : relation World :=
  λ w w', ∃ evs, trace w' = trace w ++ evs ∧ Forall P evs.

(** Nothing but the trace changes. *)
Definition same_state : relation World :=
  λ w w', ts w' = ts w ∧ external_clusters w' = external_clusters w
          ∧ sourceTs w' = sourceTs w ∧ tablet_states w' = tablet_states w.

(** The tablets, and where the topology says they are, do not change. *)
Definition same_tablets : relation World :=
  λ w w', tablet_states w' = tablet_states w
          ∧ serving_shards (ts w') = serving_shards (ts w)
          ∧ tablet_records (ts w') = tablet_records (ts w).

Definition both (R1 R2 : relation World) : relation World :=
  λ w w', R1 w w' ∧ R2 w w'.

(** A statement that only reads the replication-control table. *)
Definition is_select (q : Query) : Prop :=
  match q with
  | SelectStreams _ _ | SelectStreamIDs _ _ => True
  | _ => False
  end.

Definition is_read (e : Event) : Prop :=
  match e with
  | EvVReplicationExec _ q => is_select q
  | _ => False
  end.

(** A workflow of this name already has a stream on the primary of some
    shard of the keyspace. *)
Definition workflow_exists (keyspace workflow_ : string) (w : World) : Prop :=
  ∃ shards si alias primary t r,
    serving_shards (ts w) !! keyspace = Some shards
    ∧ si ∈ shards
    ∧ topo.PrimaryAlias si = Some alias
    ∧ tablet_records (ts w) !! alias = Some primary
    ∧ tablet_states w !! topo.AliasString primary = Some t
    ∧ r ∈ vreplication t
    ∧ stream_of (topo.DbName primary) workflow_ r.

(** Calls that change neither a tablet's schema nor its streams: reads of
    the replication-control table and writes to the topology store. *)
Definition is_topo_write_or_read (e : Event) : Prop :=
  match e with
  | EvVReplicationExec _ q => is_select q
  | EvApplySchema _ _ => False
  | EvSaveRoutingRules _ | EvSaveVSchema _ _ | EvRebuildSrvVSchema => True
  end.

(** The source descriptor of a row carries the time-zone pair MoveTables
    derives from its [sourceTimeZone] argument. *)
Definition carries_time_zones (sourceTimeZone : string) (r : VRow) : Prop :=
  binlogdatapb.SourceTimeZone (source r) = sourceTimeZone
  ∧ binlogdatapb.TargetTimeZone (source r)
    = if decide (sourceTimeZone = EmptyString) then EmptyString else "UTC".

Definition is_insert (e : Event) : Prop :=
  match e with
  | EvVReplicationExec _ (InsertStreams _) => True
  | _ => False
  end.

(** The workflow a statement on the replication-control table selects. *)
Definition query_workflow (q : Query) : option string :=
  match q with
  | SelectStreams wf _ | SelectStreamIDs _ wf | DeleteStreams _ wf | StartStreams _ wf =>
      Some wf
  | InsertStreams _ => None
  end.

(** A call about workflow [wf] only: a statement that selects its rows by
    that workflow name, or an insert of rows that satisfy [Q]; calls that do
    not touch the replication-control table are not restricted. *)
Definition sends (wf : string) (Q : VRow → Prop) (e : Event) : Prop :=
  match e with
  | EvVReplicationExec _ (InsertStreams rows) => Forall Q rows
  | EvVReplicationExec _ q => query_workflow q = Some wf
  | _ => True
  end.

(** Every insert statement sent to a tablet creates only rows satisfying [P]. *)
Definition inserts_only (P : VRow → Prop) (e : Event) : Prop :=
  match e with
  | EvVReplicationExec _ (InsertStreams rows) => Forall P rows
  | _ => True
  end.

(** The state [ExternalizeVindex] expects a stream of the backfill
    workflow to be in: Running when the vindex has no owner or the stream
    does not stop after copy, otherwise Stopped with a message that says the
    copy is complete. *)
Definition expected_state (sourceVindex : vschemapb.Vindex) (r : VRow) : Prop :=
  if decide (vschemapb.Owner sourceVindex = EmptyString
             ∨ binlogdatapb.StopAfterCopy (source r) = false)
  then state r = binlogplayer.BlpRunning
  else state r = binlogplayer.BlpStopped
       ∧ Go.Contains (message r) "Stopped after copy" = true.
Global Instance expected_state_dec v r : Decision (expected_state v r).
Proof. unfold expected_state. destruct (decide _); apply _. Defined.

(** The streams of a workflow on the primary of a shard, as the topology
    store and the tablets of world [w] have them. *)
Definition primary_streams (w : World) (si : topo.ShardInfo) (wf : string)
    (primary : topo.TabletInfo) (rows : list VRow) : Prop :=
  ∃ alias t,
    topo.PrimaryAlias si = Some alias
    ∧ tablet_records (ts w) !! alias = Some primary
    ∧ tablet_states w !! topo.AliasString primary = Some t
    ∧ rows = filter (stream_of (topo.DbName primary) wf) (vreplication t).

(** Tablets only lose streams. *)
Definition streams_shrink : relation World :=
  λ w w', ts w' = ts w
          ∧ ∀ a t, tablet_states w !! a = Some t →
                   ∃ t', tablet_states w' !! a = Some t'
                         ∧ vreplication t' ⊆ vreplication t.

(** The vindex without its [write_only] parameter, in its vschema. *)
Definition externalized (vschema : vschemapb.Keyspace) (name : string)
    (sourceVindex : vschemapb.Vindex) : vschemapb.Keyspace :=
  vschemapb.set_Vindexes vschema
    (<[name := vschemapb.set_Params sourceVindex
                 (delete "write_only" (vschemapb.Params sourceVindex))]>
       (vschemapb.Vindexes vschema)).

(** The table settings whose target table is not among [present]. *)
Definition absent_settings (present : list string)
    (settings : list TableMaterializeSettings) : list TableMaterializeSettings :=
  filter (λ ts, TargetTable ts ∉ present) settings.

(** [ddl] is the CREATE statement the deployer resolves for table setting
    [ts] (from its literal DDL or from the source table's DDL). *)
Definition resolved_for `{Env} (ts : TableMaterializeSettings) (ddl : string) : Prop :=
  ∃ sourceDDLs, resolveDDL sourceDDLs ts = Ok ddl.

Definition is_apply_schema (e : Event) : Prop :=
  match e with
  | EvApplySchema _ _ => True
  | _ => False
  end.

(** What one run of the schema deployer on shard [target] may do between
    the worlds [w] and [w']: either nothing at all, or one schema change on
    the shard's primary, made of one statement for each table setting whose
    target table the primary did not list, in the order of the settings;
    every other tablet stays as it was. *)
Definition deploys_only_absent `{Env} (mz : materializer) (target : topo.ShardInfo)
    (w w' : World) : Prop :=
  (trace w' = trace w ∧ tablet_states w' = tablet_states w)
  ∨ ∃ alias primary t applyDDLs,
      topo.PrimaryAlias target = Some alias
      ∧ tablet_records (ts w) !! alias = Some primary
      ∧ tablet_states w !! topo.AliasString primary = Some t
      ∧ applyDDLs ≠ []
      ∧ Forall2 resolved_for
          (absent_settings (map tabletmanagerdatapb.td_Name (tables t))
                           (TableSettings (ms mz))) applyDDLs
      ∧ trace w' = trace w ++
          [EvApplySchema (topo.AliasString primary)
             {| tmutils.SQL := Go.Join applyDDLs (";" +:+ Go.newline);
                tmutils.Force := false; tmutils.AllowReplication := true;
                tmutils.SQLMode := vreplication_SQLMode |}]
      ∧ ∀ a, a ≠ topo.AliasString primary →
             tablet_states w' !! a = tablet_states w !! a.

(** The primary of source shard [si] is the tablet [tablet], and its
    resharding journal holds an entry for [migrationID]. *)
Definition journal_reported (w : World) (migrationID : Z) (si : topo.ShardInfo)
    (tablet : string) : Prop :=
  ∃ alias ti t,
    topo.PrimaryAlias si = Some alias
    ∧ tablet_records (ts w) !! alias = Some ti
    ∧ topo.AliasString ti = tablet
    ∧ tablet_states w !! tablet = Some t
    ∧ migrationID ∈ resharding_journal t.

(** A call that starts, stops or deletes no stream: if it touches the
    replication-control table at all, it reads it or inserts rows that are
    Stopped. *)
Definition creates_stopped (e : Event) : Prop :=
  match e with
  | EvVReplicationExec _ (InsertStreams rows) =>
      Forall (λ r, state r = binlogplayer.BlpStopped) rows
  | EvVReplicationExec _ q => is_select q
  | _ => True
  end.

(** ** Vocabulary of the further properties *)

(** The byte [c] occurs in [s]. *)
Fixpoint has_char (c : ascii) (s : string) : bool :=
  match s with
  | EmptyString => false
  | String a s' => bool_decide (a = c) || has_char c s'
  end.

(** A name without a dot and without an at sign: it cannot be mistaken for
    a qualified name or for a name with a tablet-type suffix. *)
Definition plain_name (s : string) : Prop :=
  has_char "." s = false ∧ has_char "@" s = false.

(** The keys of the routing rules [MoveTables] writes for one table: the
    bare name and the name qualified by the target keyspace, each also with
    the [@replica] and [@rdonly] suffixes, and the name qualified by the
    source keyspace with the two suffixes. *)
Definition MoveTables_rule_keys (sourceKeyspace targetKeyspace table : string)
    : list string :=
  [table; table +:+ "@replica"; table +:+ "@rdonly";
   targetKeyspace +:+ "." +:+ table;
   targetKeyspace +:+ "." +:+ table +:+ "@replica";
   targetKeyspace +:+ "." +:+ table +:+ "@rdonly";
   sourceKeyspace +:+ "." +:+ table +:+ "@replica";
   sourceKeyspace +:+ "." +:+ table +:+ "@rdonly"].

(** The topology is untouched: no routing rule, vschema, shard or tablet
    record has changed, here or in a mounted cluster. *)
Definition same_topo : relation World :=
  λ w w', ts w' = ts w ∧ external_clusters w' = external_clusters w.

(** ** A lookup vindex to create

    Keyspace [main] has one shard and a table [users]; the unsharded keyspace
    [lookupks] is to hold the lookup table [email_lookup] of a unique lookup
    vindex on [users.email]. *)
Module LookupDemo.

(** A parser that takes every [select] statement for a select. *)
Definition parse (sql : string) : result sqlparser.Statement :=
  if Go.HasPrefix sql "select " then
    Ok (sqlparser.StmtSelect
          {| sqlparser.SelectExprs := [sqlparser.StarExpr]; sqlparser.From := EmptyString;
             sqlparser.Where := None; sqlparser.Rest := sql |})
  else Ok (sqlparser.StmtOther sql).

Definition env : Env :=
  {| sqlparser_Parse := parse;
     sqlparser_String := sqlparser_String (Env := Demo.env);
     sqlparser_ParseTable := sqlparser_ParseTable (Env := Demo.env);
     sqlparser_TableFromStatement := sqlparser_TableFromStatement (Env := Demo.env);
     sqlparser_ParseStrictDDL := sqlparser_ParseStrictDDL (Env := Demo.env);
     sqlparser_String_DDL := sqlparser_String_DDL (Env := Demo.env);
     sqlparser_FormatID := sqlparser_FormatID (Env := Demo.env);
     schema_IsInternalOperationTableName :=
       schema_IsInternalOperationTableName (Env := Demo.env);
     vindexes_CreateVindex := vindexes_CreateVindex (Env := Demo.env);
     vindexes_ChooseVindexForType := vindexes_ChooseVindexForType (Env := Demo.env);
     vindexes_BuildKeyspaceSchema := vindexes_BuildKeyspaceSchema (Env := Demo.env);
     vindexes_FindBestColVindex := vindexes_FindBestColVindex (Env := Demo.env);
     key_KeyRangeString := key_KeyRangeString (Env := Demo.env);
     json2_Unmarshal_tables := json2_Unmarshal_tables (Env := Demo.env);
     mysql_ApplySchema := mysql_ApplySchema (Env := Demo.env);
     vreplication_SQLMode := vreplication_SQLMode (Env := Demo.env) |}.

Definition users_table : tabletmanagerdatapb.TableDefinition :=
  {| tabletmanagerdatapb.td_Name := "users";
     tabletmanagerdatapb.Schema :=
       Go.Join ["CREATE TABLE `users` (";
                "  `id` bigint NOT NULL AUTO_INCREMENT,";
                "  `email` varchar(64) DEFAULT NULL,";
                "  PRIMARY KEY (`id`)";
                ")"] Go.newline;
     tabletmanagerdatapb.Fields :=
       [{| tabletmanagerdatapb.fld_Name := "id"; tabletmanagerdatapb.fld_Type := "INT64" |};
        {| tabletmanagerdatapb.fld_Name := "email";
           tabletmanagerdatapb.fld_Type := "VARCHAR" |}] |}.

(** The specs: the vindex [email_vdx], owned by [users], on column [email]. *)
Definition specs : vschemapb.Keyspace :=
  {| vschemapb.Sharded := false;
     vschemapb.Vindexes := {[ "email_vdx" := Demo.email_vindex ]};
     vschemapb.Tables :=
       {[ "users" :=
            vschemapb.set_ColumnVindexes vschemapb.empty_Table
              [{| vschemapb.cv_Column := "email"; vschemapb.cv_Name := "email_vdx";
                  vschemapb.cv_Columns := [] |}] ]} |}.

Definition main_0 : topo.ShardInfo :=
  {| topo.Keyspace := "main"; topo.ShardName := "0"; topo.KeyRange := None;
     topo.PrimaryAlias := Some "zone1-700" |}.

Definition ready : World :=
  {| ts :=
       {| vschemas :=
            {[ "main" := {| vschemapb.Sharded := false; vschemapb.Vindexes := ∅;
                            vschemapb.Tables := {[ "users" := vschemapb.empty_Table ]} |};
               "lookupks" := {| vschemapb.Sharded := false; vschemapb.Vindexes := ∅;
                                vschemapb.Tables := ∅ |} ]};
          serving_shards := {[ "main" := [main_0]; "lookupks" := [Demo.lookup_shard] ]};
          tablet_records :=
            {[ "zone1-700" := {| topo.AliasString := "zone1-700"; topo.DbName := "vt_main" |};
               "zone1-600" := {| topo.AliasString := "zone1-600";
                                 topo.DbName := "vt_lookupks" |} ]};
          routing_rules := ∅ |};
     external_clusters := ∅; sourceTs := None;
     tablet_states :=
       {[ "zone1-700" := set_tables Demo.empty_tablet [users_table];
          "zone1-600" := Demo.empty_tablet ]};
     trace := [] |}.

(** A custom materialization of the two shards of [sales] into the one
    shard of [lookupks]. *)
Definition rollup_mz : materializer :=
  {| ms := {| Workflow := "rollup"; SourceKeyspace := "sales";
              TargetKeyspace := "lookupks"; StopAfterCopy := false;
              TableSettings :=
                [{| TargetTable := "customer_count";
                    SourceExpression := "select count(*) as n from customer";
                    CreateDdl := "create table customer_count (n bigint)" |}];
              Cell := "zone1"; TabletTypes := "primary"; ExternalCluster := EmptyString;
              MaterializationIntent_ := CUSTOM; SourceTimeZone := EmptyString;
              TargetTimeZone := EmptyString; SourceShards := [] |};
     targetVSchema := {| vindexes.Keyspace_Sharded := false; vindexes.Tables := ∅ |};
     sourceShards := [Demo.sales_lo; Demo.sales_hi];
     targetShards := [Demo.lookup_shard];
     isPartial := false |}.

(** Settings for a materialization of [main] into [lookupks]. *)
Definition users_count : MaterializeSettings :=
  {| Workflow := "users_count"; SourceKeyspace := "main";
     TargetKeyspace := "lookupks"; StopAfterCopy := false;
     TableSettings :=
       [{| TargetTable := "users_count";
           SourceExpression := "select count(*) as n from users";
           CreateDdl := "create table users_count (n bigint)" |}];
     Cell := "zone1"; TabletTypes := "primary"; ExternalCluster := EmptyString;
     MaterializationIntent_ := CUSTOM; SourceTimeZone := EmptyString;
     TargetTimeZone := EmptyString; SourceShards := [] |}.

End LookupDemo.

(** The primary of shard [target] can be reached and has time zone [tz]
    loaded. *)
Definition time_zone_loaded (w : World) (tz : string) (target : topo.ShardInfo) : Prop :=
  ∃ alias primary t,
    topo.PrimaryAlias target = Some alias
    ∧ tablet_records (ts w) !! alias = Some primary
    ∧ tablet_states w !! topo.AliasString primary = Some t
    ∧ tz ∈ time_zones t.

(** A call that inserts no StreamRecord. *)
Definition not_insert (e : Event) : Prop :=
  match e with
  | EvVReplicationExec _ (InsertStreams _) => False
  | _ => True
  end.

(** Every stream of workflow [wf] in database [db] among [rows] is Running. *)
Definition all_running (db wf : string) (rows : list VRow) : Prop :=
  Forall (λ r, stream_of db wf r → state r = binlogplayer.BlpRunning) rows.

(** Between [w] and [w'] the topology is untouched, every tablet is still
    there, and on every tablet the streams of a workflow that were all
    Running still are. *)
Definition keeps_running : relation World :=
  λ w w', ts w' = ts w
          ∧ ∀ a t, tablet_states w !! a = Some t →
                   ∃ t', tablet_states w' !! a = Some t'
                         ∧ ∀ db wf, all_running db wf (vreplication t) →
                                    all_running db wf (vreplication t').

(** The primary of source shard [si], if it can be reached and its
    resharding journal holds an entry for [migrationID]. *)
Definition journal_holder (w : World) (migrationID : Z) (si : topo.ShardInfo)
    : option string :=
  alias ← topo.PrimaryAlias si;
  ti ← tablet_records (ts w) !! alias;
  t ← tablet_states w !! topo.AliasString ti;
  if bool_decide (migrationID ∈ resharding_journal t) then Some (topo.AliasString ti)
  else None.

(** The identifiers [shard:id] of the streams of workflow [wf] on the
    primary of shard [target]. *)
Definition target_stream_ids (w : World) (wf : string) (target : topo.ShardInfo)
    : list string :=
  default []
    (alias ← topo.PrimaryAlias target;
     ti ← tablet_records (ts w) !! alias;
     t ← tablet_states w !! topo.AliasString ti;
     Some (map (λ row, topo.ShardName target +:+ ":" +:+ pretty (id row))
               (filter (stream_of (topo.DbName ti) wf) (vreplication t)))).

(** * Properties *)

(** ** Reasoning about the two monads *)

Lemma result_bind_Ok {A B} (r : result A) (f : A → result B) (b : B) :
  r ≫= f = Ok b → ∃ a, r = Ok a ∧ f a = Ok b.
Proof. destruct r as [a|e]; simpl; [eauto | discriminate]. Qed.

Lemma forEach_Ok {A B} (f : A → result B) (l : list A) (bs : list B) :
  forEach f l = Ok bs → Forall2 (λ a b, f a = Ok b) l bs.
Proof.
  revert bs. induction l as [|a l IH]; simpl; intros bs Hl.
  - inversion Hl. constructor.
  - apply result_bind_Ok in Hl as (b & Hb & Hl).
    apply result_bind_Ok in Hl as (bs' & Hbs & Hl).
    inversion Hl; subst. constructor; auto.
Qed.

Lemma forEach_Err {A B} (f : A → result B) (l : list A) (a : A) (e : Error) :
  a ∈ l → f a = Err e → ∃ e', forEach f l = Err e'.
Proof.
  induction 1 as [a l|a b l Hin IH]; simpl; intros Hf.
  - rewrite Hf. simpl. eauto.
  - destruct (f b); simpl; [|eauto].
    destruct (IH Hf) as [e' ->]. simpl. eauto.
Qed.

Ltac result_inv H :=
  repeat lazymatch type of H with
  | (_ ≫= _) = Ok _ =>
      let a := fresh "a" in let Ha := fresh "Ha" in
      apply result_bind_Ok in H as (a & Ha & H)
  | Ok _ = Ok _ => injection H as H
  | Err _ = Ok _ => discriminate H
  end.

Lemma M_bind_run {A B} (m : M A) (k : A → M B) (w : World) :
  (m ≫= k) w = match m w with
               | (Ok a, w') => k a w'
               | (Err e, w') => (Err e, w')
               end.
Proof. reflexivity. Qed.

Lemma M_bind_Ok {A B} (m : M A) (k : A → M B) w b w' :
  (m ≫= k) w = (Ok b, w') → ∃ a w1, m w = (Ok a, w1) ∧ k a w1 = (Ok b, w').
Proof.
  rewrite M_bind_run. destruct (m w) as [[a|e] w1]; [eauto|discriminate].
Qed.

Lemma M_bind_Ok_run {A B} (m : M A) (k : A → M B) w a w1 :
  m w = (Ok a, w1) → (m ≫= k) w = k a w1.
Proof. intros Hm. by rewrite M_bind_run, Hm. Qed.

Lemma M_bind_Err_run {A B} (m : M A) (k : A → M B) w e w1 :
  m w = (Err e, w1) → (m ≫= k) w = (Err e, w1).
Proof. intros Hm. by rewrite M_bind_run, Hm. Qed.

(** Decompose a successful run into the runs of its parts. *)
Ltac monad_inv H :=
  repeat lazymatch type of H with
  | (_ ≫= _) _ = (Ok _, _) =>
      let a := fresh "a" in let w := fresh "w" in let Ha := fresh "Hrun" in
      apply M_bind_Ok in H as (a & w & Ha & H)
  | (let '(_, _) := ?p in _) _ = _ => destruct p
  end.

Section Steps.
Context (R : relation World) `{!PreOrder R}.

Lemma steps_ret {A} (a : A) : steps R (mret a).
Proof. intros w r w' Hrun. injection Hrun as <- <-. reflexivity. Qed.

Lemma steps_fail {A} (e : Error) : steps R (fail (A := A) e).
Proof. intros w r w' Hrun. injection Hrun as <- <-. reflexivity. Qed.

Lemma steps_lift {A} (x : result A) : steps R (lift x).
Proof. intros w r w' Hrun. injection Hrun as <- <-. reflexivity. Qed.

Lemma steps_bind {A B} (m : M A) (k : A → M B) :
  steps R m → (∀ a, steps R (k a)) → steps R (m ≫= k).
Proof.
  intros Hm Hk w r w'. rewrite M_bind_run.
  destruct (m w) as [[a|e] w1] eqn:Hrun; intros Hrun2.
  - etrans; [by eapply Hm | by eapply Hk].
  - injection Hrun2 as <- <-. by eapply Hm.
Qed.

Lemma steps_attempt {A} (m : M A) : steps R m → steps R (attempt m).
Proof.
  intros Hm w r w'. unfold attempt. destruct (m w) as [r1 w1] eqn:Hrun.
  intros [= <- <-]. by eapply Hm.
Qed.

Lemma steps_wrapf {A} (m : M A) format args : steps R m → steps R (wrapf m format args).
Proof.
  intros Hm w r w'. unfold wrapf. destruct (m w) as [[a|e] w1] eqn:Hrun;
    intros [= <- <-]; by eapply Hm.
Qed.

Lemma steps_AggrError errs : steps R (AggrError errs).
Proof. destruct errs; [apply steps_ret | apply steps_fail]. Qed.

Lemma steps_fanOutErrors {A} (f : A → M unit) (l : list A) :
  (∀ a, a ∈ l → steps R (f a)) → steps R (fanOutErrors f l).
Proof.
  induction l as [|a l IH]; simpl; intros Hf; [apply steps_ret|].
  apply steps_bind; [apply steps_attempt, Hf; left|]. intros r.
  apply steps_bind; [apply IH; intros; apply Hf; by right|]. intros es.
  apply steps_ret.
Qed.

Lemma steps_fanOut {A} (f : A → M unit) (l : list A) :
  (∀ a, a ∈ l → steps R (f a)) → steps R (fanOut f l).
Proof.
  intros Hf. apply steps_bind; [by apply steps_fanOutErrors|].
  intros. apply steps_AggrError.
Qed.

Lemma steps_fanOutShared {A S} (f : A → S → M (S * option Error)) (l : list A) (s : S) :
  (∀ a s, a ∈ l → steps R (f a s)) → steps R (fanOutShared f l s).
Proof.
  revert s. induction l as [|a l IH]; simpl; intros s Hf; [apply steps_ret|].
  apply steps_bind; [apply Hf; left|]. intros [s1 e].
  apply steps_bind; [apply IH; intros; apply Hf; by right|]. intros [s2 es].
  apply steps_ret.
Qed.

(** Reads. *)
Lemma steps_GetVSchema k : steps R (GetVSchema k).
Proof. intros w r w'. unfold GetVSchema. destruct (_ !! _); intros [= <- <-]; reflexivity. Qed.

Lemma steps_GetRoutingRules : steps R GetRoutingRules.
Proof. intros w r w' [= <- <-]. reflexivity. Qed.

Lemma steps_OpenExternalVitessClusterServer c :
  steps R (OpenExternalVitessClusterServer c).
Proof.
  intros w r w'. unfold OpenExternalVitessClusterServer.
  destruct (_ !! _); intros [= <- <-]; reflexivity.
Qed.

Lemma steps_GetServingShards b k : steps R (GetServingShards b k).
Proof.
  intros w r w'. unfold GetServingShards.
  destruct (the_topo b w); [destruct (_ !! _)|]; intros [= <- <-]; reflexivity.
Qed.

Lemma steps_GetTablet b a : steps R (GetTablet b a).
Proof.
  intros w r w'. unfold GetTablet.
  destruct (the_topo b w); [destruct (_ ≫= _)|]; intros [= <- <-]; reflexivity.
Qed.

Lemma steps_reach ti : steps R (reach ti).
Proof. intros w r w'. unfold reach. destruct (_ !! _); intros [= <- <-]; reflexivity. Qed.

Lemma steps_tmc_GetSchema ti only : steps R (tmc_GetSchema ti only).
Proof. apply steps_bind; [apply steps_reach|]. intros. apply steps_ret. Qed.

Lemma steps_schematools_GetSchema a only : steps R (schematools_GetSchema a only).
Proof. apply steps_bind; [apply steps_GetTablet|]. intros. apply steps_tmc_GetSchema. Qed.

Lemma steps_convert_tz ti d tz : steps R (tmc_ExecuteFetchAsApp_convert_tz ti d tz).
Proof. apply steps_bind; [apply steps_reach|]. intros. apply steps_ret. Qed.

Lemma steps_CheckReshardingJournalExistsOnTablet ti mid :
  steps R (CheckReshardingJournalExistsOnTablet ti mid).
Proof. apply steps_bind; [apply steps_reach|]. intros. apply steps_ret. Qed.

(** Writes: what [R] has to allow. *)
Lemma steps_record ev : (∀ w, R w (log w ev)) → steps R (record ev).
Proof. intros HR w r w' [= <- <-]. apply HR. Qed.

Lemma steps_SaveVSchema k v :
  (∀ w, R w (log (set_ts w (set_vschemas (ts w) (<[k := v]> (vschemas (ts w)))))
                 (EvSaveVSchema k v))) →
  steps R (SaveVSchema k v).
Proof. intros HR w r w' [= <- <-]. apply HR. Qed.

Lemma steps_SaveRoutingRules rules :
  (∀ w, R w (log (set_ts w (set_routing_rules (ts w) rules)) (EvSaveRoutingRules rules))) →
  steps R (SaveRoutingRules rules).
Proof. intros HR w r w' [= <- <-]. apply HR. Qed.

Lemma steps_RebuildSrvVSchema : (∀ w, R w (log w EvRebuildSrvVSchema)) → steps R RebuildSrvVSchema.
Proof. intros HR w r w' [= <- <-]. apply HR. Qed.

Lemma steps_assign_sourceTs c : (∀ w, R w (set_sourceTs w c)) → steps R (assign_sourceTs c).
Proof. intros HR w r w' [= <- <-]. apply HR. Qed.

Lemma steps_tmc_VReplicationExec ti q :
  (∀ w, R w (log w (EvVReplicationExec (topo.AliasString ti) q))) →
  (∀ w t, tablet_states w !! topo.AliasString ti = Some t →
          R w (set_tablet_states w
                 (<[topo.AliasString ti := (exec_query q t).2]> (tablet_states w)))) →
  steps R (tmc_VReplicationExec ti q).
Proof.
  intros Hlog Hstore w r w'. unfold tmc_VReplicationExec.
  rewrite M_bind_run. simpl. rewrite M_bind_run. unfold reach. simpl.
  destruct (tablet_states w !! topo.AliasString ti) as [t|] eqn:Ht.
  - destruct (exec_query q t) as [rows t'] eqn:Hq.
    rewrite M_bind_run. simpl. intros [= <- <-].
    etrans; [apply Hlog|].
    specialize (Hstore (log w (EvVReplicationExec (topo.AliasString ti) q)) t Ht).
    by rewrite Hq in Hstore.
  - intros [= <- <-]. apply Hlog.
Qed.

Lemma steps_tmc_ApplySchema `{Env} ti change :
  (∀ w, R w (log w (EvApplySchema (topo.AliasString ti) change))) →
  (∀ w t tbls, tablet_states w !! topo.AliasString ti = Some t →
               mysql_ApplySchema change (tables t) = Ok tbls →
               R w (set_tablet_states w
                      (<[topo.AliasString ti := set_tables t tbls]> (tablet_states w)))) →
  steps R (tmc_ApplySchema ti change).
Proof.
  intros Hlog Hstore w r w'. unfold tmc_ApplySchema.
  rewrite M_bind_run. simpl. rewrite M_bind_run. unfold reach. simpl.
  destruct (tablet_states w !! topo.AliasString ti) as [t|] eqn:Ht.
  - rewrite M_bind_run. unfold lift.
    destruct (mysql_ApplySchema change (tables t)) as [tbls|e] eqn:Hddl.
    + intros [= <- <-]. etrans; [apply Hlog|].
      by apply (Hstore (log w (EvApplySchema (topo.AliasString ti) change)) t tbls).
    + intros [= <- <-]. apply Hlog.
  - intros [= <- <-]. apply Hlog.
Qed.

End Steps.

Global Instance adds_only_preorder P : PreOrder (adds_only P).
Proof.
  split.
  - intros w. exists []. by rewrite app_nil_r.
  - intros w1 w2 w3 (e1 & H1 & HP1) (e2 & H2 & HP2). exists (e1 ++ e2).
    rewrite H2, H1, app_assoc. split; [done|]. by apply Forall_app.
Qed.

Global Instance same_state_preorder : PreOrder same_state.
Proof.
  split.
  - by intros w.
  - intros w1 w2 w3 (?&?&?&?) (?&?&?&?). repeat split; congruence.
Qed.

Global Instance same_tablets_preorder : PreOrder same_tablets.
Proof.
  split.
  - by intros w.
  - intros w1 w2 w3 (?&?&?) (?&?&?). repeat split; congruence.
Qed.

Global Instance both_preorder (R1 R2 : relation World) :
  PreOrder R1 → PreOrder R2 → PreOrder (both R1 R2).
Proof.
  intros H1 H2. unfold both. split.
  - intros w. split; reflexivity.
  - intros w1 w2 w3 [? ?] [? ?]. split; etrans; eauto.
Qed.

Create HintDb steps discriminated.
Global Hint Resolve steps_ret steps_fail steps_lift steps_GetVSchema steps_GetRoutingRules
  steps_OpenExternalVitessClusterServer steps_GetServingShards steps_GetTablet
  steps_reach steps_tmc_GetSchema steps_schematools_GetSchema steps_convert_tz
  steps_CheckReshardingJournalExistsOnTablet steps_AggrError : steps.
Global Hint Extern 1 (PreOrder _) => apply _ : steps.

(** Follow the structure of a monadic program; what is left are its
    writes. *)
Ltac steps_tac :=
  repeat first
    [ solve [eauto with steps]
    | match goal with
      | |- steps _ (fanOut _ _) => apply steps_fanOut; [apply _|intros ? ?]
      | |- steps _ (forAllTargets _ _) => apply steps_fanOut; [apply _|intros ? ?]
      | |- steps _ (fanOutShared _ _ _) => apply steps_fanOutShared; [apply _|intros ? ? ?]
      | |- steps _ (attempt _) => apply steps_attempt
      | |- steps _ (wrapf _ _ _) => apply steps_wrapf
      | |- steps _ (mbind _ _) => apply steps_bind; [apply _| |intros ?]
      | |- steps _ (match ?x with _ => _ end) => destruct x
      | |- steps _ (if ?x then _ else _) => destruct x
      | |- steps _ (let '(_, _) := ?x in _) => destruct x
      end ].

(** A bind whose continuation is only followed from the results the first
    part can produce. *)
Lemma steps_bind_strong (R : relation World) `{!PreOrder R} {A B}
    (m : M A) (k : A → M B) :
  steps R m → (∀ w a w1, m w = (Ok a, w1) → steps R (k a)) → steps R (m ≫= k).
Proof.
  intros Hm Hk w r w'. rewrite M_bind_run.
  destruct (m w) as [[a|e] w1] eqn:Hrun; intros Hrun2.
  - etrans; [by eapply Hm | by eapply Hk].
  - injection Hrun2 as <- <-. by eapply Hm.
Qed.

(** Writes under [adds_only]: the event has to be allowed. *)
Section AddsOnly.
Context (P : Event → Prop).

Lemma adds_only_log ev w : P ev → adds_only P w (log w ev).
Proof. intros HP. exists [ev]. split; [done|]. by constructor. Qed.

Lemma adds_only_same_trace w w' : trace w' = trace w → adds_only P w w'.
Proof. intros Htr. exists []. split; [by rewrite app_nil_r|done]. Qed.

Lemma steps_adds_VReplicationExec ti q :
  P (EvVReplicationExec (topo.AliasString ti) q) →
  steps (adds_only P) (tmc_VReplicationExec ti q).
Proof.
  intros HP. apply steps_tmc_VReplicationExec; [apply _|..].
  - intros w. by apply adds_only_log.
  - intros w t Ht. by apply adds_only_same_trace.
Qed.

Lemma steps_adds_ApplySchema `{Env} ti change :
  P (EvApplySchema (topo.AliasString ti) change) →
  steps (adds_only P) (tmc_ApplySchema ti change).
Proof.
  intros HP. apply steps_tmc_ApplySchema; [apply _|..].
  - intros w. by apply adds_only_log.
  - intros w t tbls Ht Hddl. by apply adds_only_same_trace.
Qed.

Lemma steps_adds_SaveVSchema k v :
  P (EvSaveVSchema k v) → steps (adds_only P) (SaveVSchema k v).
Proof. intros HP. apply steps_SaveVSchema. intros w. by eexists [_]; split; [|repeat constructor]. Qed.

Lemma steps_adds_SaveRoutingRules rules :
  P (EvSaveRoutingRules rules) → steps (adds_only P) (SaveRoutingRules rules).
Proof. intros HP. apply steps_SaveRoutingRules. intros w. by eexists [_]; split; [|repeat constructor]. Qed.

Lemma steps_adds_RebuildSrvVSchema :
  P EvRebuildSrvVSchema → steps (adds_only P) RebuildSrvVSchema.
Proof. intros HP. apply steps_RebuildSrvVSchema. intros w. by apply adds_only_log. Qed.

Lemma steps_adds_assign_sourceTs c : steps (adds_only P) (assign_sourceTs c).
Proof. apply steps_assign_sourceTs. intros w. by apply adds_only_same_trace. Qed.

End AddsOnly.

Section ReadOnlyLoops.
Context `{Env} (R : relation World) `{!PreOrder R}.

Lemma steps_getSourceTableDDLs mz : steps R (getSourceTableDDLs mz).
Proof. unfold getSourceTableDDLs. steps_tac. Qed.

Lemma steps_deploySchema_tables mz hasTargetTable settings sourceDDLs applyDDLs :
  steps R (deploySchema_tables mz hasTargetTable settings sourceDDLs applyDDLs).
Proof.
  revert sourceDDLs applyDDLs.
  induction settings as [|ts settings IH]; intros sourceDDLs applyDDLs; simpl.
  - steps_tac.
  - destruct (decide _); [apply IH|].
    destruct (str_eqb _ _); [steps_tac|].
    apply steps_bind; [apply _| |].
    + destruct (decide _); [apply steps_attempt, steps_getSourceTableDDLs|steps_tac].
    + intros [ddls|e]; [|steps_tac].
      destruct (resolveDDL ddls ts); [apply IH|steps_tac].
Qed.

End ReadOnlyLoops.

Global Hint Resolve steps_getSourceTableDDLs steps_deploySchema_tables : steps.

(** Follow the program, then justify each event it sends with [tac]. *)
Ltac steps_events tac :=
  steps_tac;
  lazymatch goal with
  | |- steps (adds_only _) (tmc_VReplicationExec _ _) =>
      apply steps_adds_VReplicationExec; tac
  | |- steps (adds_only _) (tmc_ApplySchema _ _) => apply steps_adds_ApplySchema; tac
  | |- steps (adds_only _) (SaveVSchema _ _) => apply steps_adds_SaveVSchema; tac
  | |- steps (adds_only _) (SaveRoutingRules _) => apply steps_adds_SaveRoutingRules; tac
  | |- steps (adds_only _) RebuildSrvVSchema => apply steps_adds_RebuildSrvVSchema; tac
  | |- steps (adds_only _) (assign_sourceTs _) => apply steps_adds_assign_sourceTs
  end.

Lemma fanOutErrors_total {A} (f : A → M unit) l w :
  ∃ es w', fanOutErrors f l w = (Ok es, w').
Proof.
  revert w. induction l as [|a l IH]; intros w; simpl; [by eexists _, _|].
  rewrite M_bind_run. unfold attempt. destruct (f a w) as [r w1].
  destruct (IH w1) as (es & w2 & Hes). rewrite M_bind_run, Hes. by eexists _, _.
Qed.

(** A fan-out fails when one of its tasks fails in every world the phase
    can reach. *)
Lemma fanOutErrors_some_fails {A} (R : relation World) `{!PreOrder R}
    (f : A → M unit) (l : list A) (a : A) (w0 : World) :
  a ∈ l →
  (∀ b, b ∈ l → steps R (f b)) →
  (∀ w, R w0 w → ∃ e w', f a w = (Err e, w')) →
  ∀ w, R w0 w → ∃ e es w', fanOutErrors f l w = (Ok (e :: es), w').
Proof.
  intros Hin. induction Hin as [a l|a b l Hin IH]; intros Hsteps Hfail w Hw; simpl.
  - rewrite M_bind_run. unfold attempt.
    destruct (Hfail w Hw) as (e & w1 & ->).
    destruct (fanOutErrors_total f l w1) as (es & w2 & Hes).
    rewrite M_bind_run, Hes. by eexists _, _, _.
  - rewrite M_bind_run. unfold attempt. destruct (f b w) as [r w1] eqn:Hb.
    assert (R w0 w1) as Hw1.
    { etrans; [done|]. eapply Hsteps; [left|done]. }
    destruct (IH ltac:(intros; apply Hsteps; by right) Hfail w1 Hw1)
      as (e & es & w2 & Hes).
    rewrite M_bind_run, Hes. destruct r; by eexists _, _, _.
Qed.

Lemma fanOut_some_fails {A} (R : relation World) `{!PreOrder R}
    (f : A → M unit) (l : list A) (a : A) (w0 : World) :
  a ∈ l →
  (∀ b, b ∈ l → steps R (f b)) →
  (∀ w, R w0 w → ∃ e w', f a w = (Err e, w')) →
  ∀ w, R w0 w → ∃ e w', fanOut f l w = (Err e, w').
Proof.
  intros Hin Hsteps Hfail w Hw. unfold fanOut. rewrite M_bind_run.
  destruct (fanOutErrors_some_fails R f l a w0 Hin Hsteps Hfail w Hw)
    as (e & es & w' & ->).
  by eexists _, _.
Qed.

Lemma select_keeps_tablet q t : is_select q → (exec_query q t).2 = t.
Proof. by destruct q. Qed.

Lemma steps_select (P : Event → Prop) ti q :
  is_select q → P (EvVReplicationExec (topo.AliasString ti) q) →
  steps (both same_state (adds_only P)) (tmc_VReplicationExec ti q).
Proof.
  intros Hq HP. apply steps_tmc_VReplicationExec; [apply _|..].
  - intros w. split; [done|]. exists [EvVReplicationExec (topo.AliasString ti) q].
    split; [done|]. by constructor.
  - intros w t Ht. rewrite select_keeps_tablet, insert_id by done.
    split; [by destruct w|]. exists []. split; [|done]. simpl. by rewrite app_nil_r.
Qed.

(** ** Key ranges *)

Lemma ltb_lt (a b : string) : String.ltb a b = true ↔ ¬ String.le b a.
Proof.
  unfold String.le, String.leb, String.ltb.
  rewrite (String.compare_antisym a b).
  destruct (String.compare b a); simpl; intuition (try discriminate; auto).
Qed.

Lemma leb_le (a b : string) : String.leb a b = true ↔ String.le a b.
Proof.
  unfold String.le. destruct (String.leb a b); simpl; intuition (try discriminate; auto).
Qed.

(** Two well-formed ranges intersect, in the sense of [KeyRangesIntersect],
    exactly when some key lies in both. *)
Lemma KeyRangesIntersect_common_key (a b : option key.KeyRange) :
  key.valid a → key.valid b →
  key.KeyRangesIntersect a b = true
  ↔ ∃ id, key.KeyRangeContains a id = true ∧ key.KeyRangeContains b id = true.
Proof.
  destruct a as [[s1 e1]|], b as [[s2 e2]|]; simpl; intros Ha Hb.
  - rewrite andb_true_iff, !orb_true_iff, !bool_decide_eq_true, !ltb_lt.
    split.
    + intros [H1 H2].
      destruct (total String.le s1 s2) as [Hle|Hle].
      * exists s2. rewrite !andb_true_iff, !orb_true_iff, !bool_decide_eq_true,
          !leb_le, !ltb_lt.
        repeat split; auto. rewrite ltb_lt in Hb. tauto.
      * exists s1. rewrite !andb_true_iff, !orb_true_iff, !bool_decide_eq_true,
          !leb_le, !ltb_lt.
        repeat split; auto. rewrite ltb_lt in Ha. tauto.
    + intros (k & Hk1 & Hk2).
      rewrite !andb_true_iff, !orb_true_iff, !bool_decide_eq_true, !leb_le, !ltb_lt
        in Hk1, Hk2.
      destruct Hk1 as [Hk1 Hk1'], Hk2 as [Hk2 Hk2']. split.
      * destruct Hk1' as [|Hk1']; [auto|]. right. intros Hc. apply Hk1'.
        by etrans.
      * destruct Hk2' as [|Hk2']; [auto|]. right. intros Hc. apply Hk2'.
        by etrans.
  - split; [|done]. intros _. exists s1.
    rewrite andb_true_iff, orb_true_iff, bool_decide_eq_true, leb_le.
    repeat split; auto.
  - split; [|done]. intros _. exists s2.
    rewrite andb_true_iff, orb_true_iff, bool_decide_eq_true, leb_le.
    repeat split; auto.
  - split; [|done]. intros _. by exists EmptyString.
Qed.

(** ** generateInserts *)

Section GenerateInserts.
Context `{Env}.

Lemma generateInserts_sources_shards mz targetShard sources ig ig' :
  MaterializationIntent_ (ms mz) = MOVETABLES →
  generateInserts_sources mz targetShard sources ig = Ok ig' →
  map (λ r, binlogdatapb.Shard (source r)) (ig_rows ig')
  = map (λ r, binlogdatapb.Shard (source r)) (ig_rows ig)
    ++ map topo.ShardName (filter (intersects targetShard) sources).
Proof.
  intros Hintent. revert ig.
  induction sources as [|s sources IH]; simpl; intros ig Hgen.
  - inversion Hgen. by rewrite app_nil_r.
  - rewrite Hintent, bool_decide_eq_true_2 in Hgen by done. simpl in Hgen.
    rewrite filter_cons.
    destruct (decide (intersects targetShard s)) as [Hi|Hi]; unfold intersects in Hi.
    + rewrite Hi in Hgen. simpl in Hgen.
      result_inv Hgen. apply IH in Hgen. rewrite Hgen. simpl.
      rewrite map_app. simpl. by rewrite <- app_assoc.
    + apply not_true_is_false in Hi. rewrite Hi in Hgen. by apply IH.
Qed.

Lemma generateInserts_sources_rows mz targetShard sources ig ig' :
  ig_state ig = binlogplayer.BlpStopped →
  Forall (row_of_settings mz) (ig_rows ig) →
  generateInserts_sources mz targetShard sources ig = Ok ig' →
  Forall (row_of_settings mz) (ig_rows ig').
Proof.
  revert ig. induction sources as [|s sources IH]; simpl; intros ig Hst Hig Hgen.
  - by inversion Hgen; subst.
  - destruct (_ && _) in Hgen; [by eapply IH|].
    result_inv Hgen. eapply IH in Hgen; [done|done|].
    simpl. apply Forall_app. split; [done|].
    constructor; [|constructor]. by repeat split.
Qed.

Lemma generateInserts_rows mz targetShard rows :
  generateInserts mz targetShard = Ok rows → Forall (row_of_settings mz) rows.
Proof.
  unfold generateInserts. intros Hgen. result_inv Hgen. subst.
  eapply generateInserts_sources_rows; [| |done]; [done|constructor].
Qed.

End GenerateInserts.

Lemma sort_Strings_perm (l1 l2 : list string) :
  l1 ≡ₚ l2 → Go.sort_Strings l1 = Go.sort_Strings l2.
Proof.
  intros Hp. unfold Go.sort_Strings.
  apply (Sorted_unique String.le).
  - apply Sorted_merge_sort; apply _.
  - apply Sorted_merge_sort; apply _.
  - by rewrite !merge_sort_Permutation.
Qed.

Lemma NoDup_same_elements_perm (l1 l2 : list string) :
  NoDup l1 → NoDup l2 → (∀ x, x ∈ l1 ↔ x ∈ l2) → l1 ≡ₚ l2.
Proof. intros H1 H2 Hx. by apply NoDup_Permutation. Qed.

(** C4: the migration id does not depend on the order of the shard-stream
    identifiers: every permutation of the list gives the same id; for
    duplicate-free lists (stream identifiers are distinct) it depends only
    on the set of identifiers; and it is a non-negative 63-bit number. *)
Theorem getMigrationID_permutation_invariant :
  (∀ (ks : string) (S P : list string),
      P ≡ₚ S → getMigrationID ks P = getMigrationID ks S)
  ∧ (∀ (ks : string) (S S' : list string),
      NoDup S → NoDup S' → (∀ x, x ∈ S ↔ x ∈ S') →
      getMigrationID ks S = getMigrationID ks S')
  ∧ (∀ (ks : string) (S : list string),
      0 ≤ getMigrationID ks S < 2 ^ 63).
Proof.
  split; [|split].
  - intros ks S P Hp. unfold getMigrationID.
    by rewrite (sort_Strings_perm P S Hp).
  - intros ks S S' H1 H2 Hx. unfold getMigrationID.
    by rewrite (sort_Strings_perm S S' (NoDup_same_elements_perm _ _ H1 H2 Hx)).
  - intros ks S. unfold getMigrationID, Go.MaxInt64.
    change (2 ^ 63 - 1) with (Z.ones 63).
    rewrite Z.land_ones by lia.
    apply Z.mod_pos_bound. lia.
Qed.

(** C2: for MoveTables intent, the rows generated for a target shard are,
    in order, one per source shard whose key range intersects the target's;
    a source shard whose range is disjoint from the target's contributes no
    row. *)
Theorem generateInserts_only_intersecting `{Env} (mz : materializer)
    (targetShard : topo.ShardInfo) (rows : list VRow) :
  MaterializationIntent_ (ms mz) = MOVETABLES →
  generateInserts mz targetShard = Ok rows →
  map (λ r, binlogdatapb.Shard (source r)) rows
  = map topo.ShardName (filter (intersects targetShard) (sourceShards mz)).
Proof.
  intros Hintent Hgen. unfold generateInserts in Hgen. result_inv Hgen. subst.
  by rewrite (generateInserts_sources_shards _ _ _ _ _ Hintent Ha).
Qed.

Lemma generateInserts_only_intersecting_witness :
  ∃ rows,
    MaterializationIntent_ (ms Demo.split_mz) = MOVETABLES
    ∧ generateInserts (H := Demo.env) Demo.split_mz Demo.sales_hi = Ok rows
    ∧ map (λ r, binlogdatapb.Shard (source r)) rows
      = map topo.ShardName
          (filter (intersects Demo.sales_hi) (sourceShards Demo.split_mz)).
Proof.
  eexists. split; [reflexivity|]. split; [vm_compute; reflexivity|].
  apply (generateInserts_only_intersecting (H := Demo.env) Demo.split_mz Demo.sales_hi);
    [reflexivity | vm_compute; reflexivity].
Defined.

(** The spec's example: source range [-80) against target range [80-)
    yields no row; the one row for target [80-] comes from source [80-]. *)
Example generateInserts_disjoint_pair :
  key.KeyRangesIntersect (Some {| key.Start := EmptyString; key.End := Demo.x80 |})
                         (Some {| key.Start := Demo.x80; key.End := EmptyString |})
  = false
  ∧ match generateInserts (H := Demo.env) Demo.split_mz Demo.sales_hi with
    | Ok rows => map (λ r, binlogdatapb.Shard (source r)) rows
    | Err _ => []
    end = ["80-"].
Proof. split; vm_compute; reflexivity. Qed.



(** ** CreateLookupVindex: validation *)

Section Validation.
Context `{Env}.

Lemma prepareCreateLookup_validate_rejects specs :
  invalid_lookup_spec specs → ∃ e, prepareCreateLookup_validate specs = Err e.
Proof.
  unfold invalid_lookup_spec, prepareCreateLookup_validate.
  intros Hbad.
  destruct (map_to_list (vschemapb.Vindexes specs)) as [|[name vindex] [|]] eqn:Hv;
    [eauto| |eauto].
  assert (Hsz : size (vschemapb.Vindexes specs) = 1%nat)
    by (by rewrite <- length_map_to_list, Hv).
  assert (Hbad' :
    size (vschemapb.Tables specs) ≠ 1%nat
    ∨ (let type := vschemapb.vx_Type vindex in
        let from := Go.Split (vschemapb.param (vschemapb.Params vindex) "from") "," in
        Go.Contains type "lookup" = false
        ∨ (Go.Contains type "unique" = true ∧ length from ≠ 1%nat)
        ∨ (Go.Contains type "unique" = false ∧ (length from < 2)%nat)
        ∨ ∃ tableName table cv,
            vschemapb.Tables specs = {[tableName := table]}
            ∧ vschemapb.ColumnVindexes table = [cv]
            ∧ vschemapb.cv_Name cv ≠ name)).
  { destruct Hbad as [?|[?|(n & v & Hs & Hbad)]]; [done|by left|right].
    rewrite Hs, map_to_list_singleton in Hv. by injection Hv as -> ->. }
  clear Hbad. simpl in Hbad'.
  destruct (Go.Contains (vschemapb.vx_Type vindex) "lookup") eqn:Hlookup; simpl; [|eauto].
  destruct (sqlparser_ParseTable _) as [[tk tt]|]; [|eauto].
  destruct (str_eqb tk EmptyString) eqn:Htk; [eauto|].
  (* walk through the remaining checks; only the accepting leaves remain *)
  repeat match goal with
  | |- ∃ e, Err _ = Err e => eauto
  | |- ∃ e, (Err _ ≫= _) = Err e => simpl; eauto
  | |- ∃ e, (Ok _ ≫= _) = Err e => simpl
  | |- ∃ e, (match ?x with _ => _ end ≫= _) = Err e => destruct x eqn:?; simpl
  | |- ∃ e, match ?x with _ => _ end = Err e => destruct x eqn:?; simpl
  | |- ∃ e, (?x ≫= _) = Err e => destruct x eqn:?; simpl
  end.
  all: exfalso.
  all: match goal with
       | Ht : map_to_list (vschemapb.Tables ?sp) = [(?s, ?t)] |- _ =>
           assert (size (vschemapb.Tables sp) = 1%nat)
             by (by rewrite <- length_map_to_list, Ht);
           destruct Hbad' as [?|[?|[[? ?]|[[? ?]|(tn & tb & cv & Htb & Hcv & Hne)]]]];
           try done; try lia;
           rewrite Htb, map_to_list_singleton in Ht; simplify_eq
       end.
  all: match goal with
       | Hn : negb (str_eqb _ _) = false |- _ =>
           apply negb_false_iff, bool_decide_eq_true in Hn; congruence
       end.
Qed.

End Validation.

(** C7: a spec that names other than exactly one vindex or exactly one
    table, or whose vindex is not of the lookup family, or whose [from]
    column count does not fit its uniqueness, or whose table binding names
    another vindex, is refused by the validation of [prepareCreateLookup];
    [prepareCreateLookup] and [CreateLookupVindex] fail with that
    validation error in an unchanged world: no VSchema has been saved and
    no call has left the process. *)
Theorem prepareCreateLookup_rejects_invalid_spec `{Env} (keyspace : string)
    (specs : vschemapb.Keyspace) (cell tabletTypes : string)
    (continueAfterCopyWithOwner : bool) (w : World) :
  invalid_lookup_spec specs →
  ∃ e,
    prepareCreateLookup_validate specs = Err e
    ∧ prepareCreateLookup keyspace specs continueAfterCopyWithOwner w = (Err e, w)
    ∧ CreateLookupVindex keyspace specs cell tabletTypes continueAfterCopyWithOwner w
      = (Err e, w).
Proof.
  intros Hbad. destruct (prepareCreateLookup_validate_rejects specs Hbad) as [e He].
  exists e. split; [done|].
  assert (prepareCreateLookup keyspace specs continueAfterCopyWithOwner w = (Err e, w)) as Hp.
  { unfold prepareCreateLookup. by rewrite He. }
  split; [done|]. unfold CreateLookupVindex.
  unfold mbind at 1. unfold M_bind. by rewrite Hp.
Qed.

Lemma prepareCreateLookup_rejects_invalid_spec_witness :
  invalid_lookup_spec Demo.two_vindexes
  ∧ ∃ e,
      prepareCreateLookup_validate (H := Demo.env) Demo.two_vindexes = Err e
      ∧ prepareCreateLookup (H := Demo.env) "main" Demo.two_vindexes false Demo.fresh
        = (Err e, Demo.fresh)
      ∧ CreateLookupVindex (H := Demo.env) "main" Demo.two_vindexes "zone1" "primary"
          false Demo.fresh
        = (Err e, Demo.fresh).
Proof.
  assert (invalid_lookup_spec Demo.two_vindexes) as Hbad
    by (left; vm_compute; discriminate).
  split; [exact Hbad|].
  exact (prepareCreateLookup_rejects_invalid_spec (H := Demo.env) "main"
           Demo.two_vindexes "zone1" "primary" false Demo.fresh Hbad).
Defined.

(** ** Workflow name uniqueness *)

Section Uniqueness.
Context `{Env}.

Lemma steps_validateNewWorkflow ks wf :
  steps (both same_state (adds_only is_read)) (validateNewWorkflow ks wf).
Proof. unfold validateNewWorkflow. steps_tac. by apply steps_select. Qed.

Lemma validateNewWorkflow_rejects ks wf w :
  workflow_exists ks wf w →
  ∃ e w', validateNewWorkflow ks wf w = (Err e, w')
          ∧ both same_state (adds_only is_read) w w'.
Proof.
  intros (shards & si & alias & primary & t & r
          & Hshards & Hsi & Halias & Hprimary & Ht & Hr & Hrow).
  assert (∃ e w', validateNewWorkflow ks wf w = (Err e, w')) as (e & w' & Hrun).
  { unfold validateNewWorkflow. rewrite M_bind_run.
    unfold GetServingShards. simpl. rewrite Hshards.
    eapply (fanOut_some_fails (both same_state (adds_only is_read)))
      with (a := si) (w0 := w); [done| | |reflexivity].
    - intros b Hb. steps_tac. by apply steps_select.
    - intros w1 [(Hts & _ & _ & Htab) _].
      rewrite M_bind_run. unfold GetTablet. simpl. rewrite Halias. simpl.
      rewrite Hts, Hprimary.
      rewrite M_bind_run. unfold tmc_VReplicationExec. rewrite M_bind_run. simpl.
      rewrite M_bind_run. unfold reach. simpl. rewrite Htab, Ht. simpl.
      destruct (filter _ _) eqn:Hf; [|by eexists _, _].
      assert (r ∈ filter (stream_of (topo.DbName primary) wf) (vreplication t)) as Hin
        by (by apply list_elem_of_filter).
      rewrite Hf in Hin. by apply elem_of_nil in Hin. }
  exists e, w'. split; [done|]. by eapply steps_validateNewWorkflow.
Qed.

Lemma prepareMaterializerStreams_rejects ms w :
  workflow_exists (TargetKeyspace ms) (Workflow ms) w →
  ∃ e w', prepareMaterializerStreams ms w = (Err e, w')
          ∧ both same_state (adds_only is_read) w w'.
Proof.
  intros Hex. destruct (validateNewWorkflow_rejects _ _ _ Hex) as (e & w' & Hrun & HR).
  exists e, w'. split; [|done].
  unfold prepareMaterializerStreams. by rewrite (M_bind_Err_run _ _ _ _ _ Hrun).
Qed.

Lemma workflow_exists_same_tablets ks wf w w' :
  same_tablets w w' → workflow_exists ks wf w → workflow_exists ks wf w'.
Proof.
  intros (Htab & Hshards & Hrec) (shards & si & alias & primary & t & r & Hex).
  exists shards, si, alias, primary, t, r. by rewrite Htab, Hshards, Hrec.
Qed.

End Uniqueness.

Section UniquenessOperations.
Context `{Env}.

Lemma steps_MoveTables_plan workflow sourceKeyspace targetKeyspace tableSpecs cell
    tabletTypes allTables excludeTables stopAfterCopy externalCluster
    dropForeignKeys sourceTimeZone sourceShards :
  steps (both same_tablets (adds_only is_topo_write_or_read))
    (MoveTables_plan workflow sourceKeyspace targetKeyspace tableSpecs cell
       tabletTypes allTables excludeTables stopAfterCopy externalCluster
       dropForeignKeys sourceTimeZone sourceShards).
Proof.
  unfold MoveTables_plan, MoveTables_tables, getKeyspaceTables, addTablesToVSchema.
  steps_tac.
  - apply steps_assign_sourceTs. intros w. split; [done|].
    exists []. split; [|done]. simpl. by rewrite app_nil_r.
  - apply steps_SaveRoutingRules. intros w.
    split; [done|by eexists [_]; split; [|repeat constructor]].
  - apply steps_SaveVSchema. intros w.
    split; [done|by eexists [_]; split; [|repeat constructor]].
  - apply steps_RebuildSrvVSchema. intros w.
    split; [done|by eexists [_]; split; [|repeat constructor]].
Qed.

Lemma MoveTables_plan_settings workflow sourceKeyspace targetKeyspace tableSpecs cell
    tabletTypes allTables excludeTables stopAfterCopy externalCluster
    dropForeignKeys sourceTimeZone sourceShards w ms w' :
  MoveTables_plan workflow sourceKeyspace targetKeyspace tableSpecs cell
     tabletTypes allTables excludeTables stopAfterCopy externalCluster
     dropForeignKeys sourceTimeZone sourceShards w = (Ok ms, w') →
  ∃ tables,
    ms = MoveTables_settings workflow sourceKeyspace targetKeyspace cell tabletTypes
           stopAfterCopy externalCluster dropForeignKeys sourceTimeZone sourceShards
           tables.
Proof.
  unfold MoveTables_plan. intros Hrun. monad_inv Hrun.
  injection Hrun as <- _. eauto.
Qed.

Lemma MoveTables_settings_names workflow sourceKeyspace targetKeyspace cell tabletTypes
    stopAfterCopy externalCluster dropForeignKeys sourceTimeZone sourceShards tables :
  let ms := MoveTables_settings workflow sourceKeyspace targetKeyspace cell tabletTypes
              stopAfterCopy externalCluster dropForeignKeys sourceTimeZone sourceShards
              tables in
  Workflow ms = workflow ∧ TargetKeyspace ms = targetKeyspace
  ∧ ExternalCluster ms = externalCluster ∧ MaterializationIntent_ ms = MOVETABLES.
Proof. unfold MoveTables_settings. by destruct (str_eqb sourceTimeZone _). Qed.

Lemma steps_prepareCreateLookup ks specs c : steps eq (prepareCreateLookup ks specs c).
Proof. unfold prepareCreateLookup. steps_tac. Qed.

Lemma prepareCreateLookup_Ok ks specs c w ms sv tv w' :
  prepareCreateLookup ks specs c w = (Ok (ms, sv, tv), w') →
  ∃ i, prepareCreateLookup_validate specs = Ok i
       ∧ Workflow ms = targetTableName i +:+ "_vdx"
       ∧ TargetKeyspace ms = targetKeyspace i
       ∧ w' = w.
Proof.
  intros Hrun. assert (w' = w) as -> by (symmetry; by eapply steps_prepareCreateLookup).
  unfold prepareCreateLookup in Hrun.
  apply M_bind_Ok in Hrun as (i & w1 & Hi & Hrun).
  exists i. unfold lift in Hi. injection Hi as Hi _. split; [done|].
  monad_inv Hrun. injection Hrun as <- _ _ _. done.
Qed.

Lemma read_is_topo_write_or_read w w' :
  both same_state (adds_only is_read) w w' →
  both same_tablets (adds_only is_topo_write_or_read) w w'.
Proof.
  intros [(Hts & _ & _ & Htab) (evs & Htr & Hevs)]. split.
  - unfold same_tablets. by rewrite Htab, Hts.
  - exists evs. split; [done|]. eapply Forall_impl; [done|]. by intros [].
Qed.

End UniquenessOperations.

(** C5 (as the code has it): an operation that creates a workflow fails
    when a workflow of that name already has a stream in the target
    keyspace, and the check comes before any schema is deployed and any
    stream is created or changed: the tablets are left as they were.
    [Materialize] has then changed nothing at all.  [MoveTables] and
    [CreateLookupVindex] reach the check only after their own writes to the
    topology store (routing rules and target vschema), which remain. *)
Theorem workflow_name_checked_before_streams `{Env} :
  (∀ ms w,
      workflow_exists (TargetKeyspace ms) (Workflow ms) w →
      ∃ e w', Materialize ms w = (Err e, w')
              ∧ same_state w w' ∧ adds_only is_read w w')
  ∧ (∀ workflow sourceKeyspace targetKeyspace tableSpecs cell tabletTypes allTables
       excludeTables autoStart stopAfterCopy externalCluster dropForeignKeys
       sourceTimeZone sourceShards w,
      workflow_exists targetKeyspace workflow w →
      ∃ e w', MoveTables workflow sourceKeyspace targetKeyspace tableSpecs cell
                tabletTypes allTables excludeTables autoStart stopAfterCopy
                externalCluster dropForeignKeys sourceTimeZone sourceShards w
              = (Err e, w')
              ∧ same_tablets w w' ∧ adds_only is_topo_write_or_read w w')
  ∧ (∀ keyspace specs cell tabletTypes continueAfterCopyWithOwner i w,
      prepareCreateLookup_validate specs = Ok i →
      workflow_exists (targetKeyspace i) (targetTableName i +:+ "_vdx") w →
      ∃ e w', CreateLookupVindex keyspace specs cell tabletTypes
                continueAfterCopyWithOwner w = (Err e, w')
              ∧ same_tablets w w' ∧ adds_only is_topo_write_or_read w w').
Proof.
  split; [|split].
  - intros ms w Hex.
    destruct (prepareMaterializerStreams_rejects ms w Hex) as (e & w' & Hrun & HR1 & HR2).
    exists e, w'. split; [|done]. unfold Materialize.
    by rewrite (M_bind_Err_run _ _ _ _ _ Hrun).
  - intros workflow sourceKeyspace targetKeyspace tableSpecs cell tabletTypes allTables
      excludeTables autoStart stopAfterCopy externalCluster dropForeignKeys
      sourceTimeZone sourceShards w Hex.
    unfold MoveTables. rewrite M_bind_run.
    destruct (MoveTables_plan _ _ _ _ _ _ _ _ _ _ _ _ _ w) as [[ms|e] w1] eqn:Hplan.
    + pose proof (steps_MoveTables_plan _ _ _ _ _ _ _ _ _ _ _ _ _ _ _ _ Hplan) as HR.
      apply MoveTables_plan_settings in Hplan as [tables ->].
      destruct (prepareMaterializerStreams_rejects
                  (MoveTables_settings workflow sourceKeyspace targetKeyspace cell
                     tabletTypes stopAfterCopy externalCluster dropForeignKeys
                     sourceTimeZone sourceShards tables) w1)
        as (e & w' & Hrun & HR').
      { eapply workflow_exists_same_tablets; [apply HR|].
        by destruct (MoveTables_settings_names workflow sourceKeyspace targetKeyspace
                       cell tabletTypes stopAfterCopy externalCluster dropForeignKeys
                       sourceTimeZone sourceShards tables) as (-> & -> & _). }
      exists e, w'. unfold MoveTables_streams.
      rewrite (M_bind_Err_run _ _ _ _ _ Hrun). split; [done|].
      apply read_is_topo_write_or_read in HR'.
      change (both same_tablets (adds_only is_topo_write_or_read) w w').
      by etrans.
    + exists e, w1. split; [done|]. by eapply steps_MoveTables_plan.
  - intros keyspace specs cell tabletTypes c i w Hi Hex.
    unfold CreateLookupVindex. rewrite M_bind_run.
    destruct (prepareCreateLookup keyspace specs c w) as [[[[ms sv] tv]|e] w1] eqn:Hprep.
    + apply prepareCreateLookup_Ok in Hprep as (i' & Hi' & Hwf & Hks & ->).
      assert (i' = i) as -> by congruence.
      rewrite M_bind_run. simpl.
      set (w1 := log _ _).
      assert (both same_tablets (adds_only is_topo_write_or_read) w w1) as HR.
      { split; [done|]. by eexists [_]; split; [|repeat constructor]. }
      destruct (prepareMaterializerStreams_rejects
                  (set_Cell_TabletTypes ms cell tabletTypes) w1)
        as (e & w' & Hrun & HR').
      { eapply workflow_exists_same_tablets; [apply HR|]. simpl. by rewrite Hwf, Hks. }
      exists e, w'. unfold Materialize.
      rewrite M_bind_run, (M_bind_Err_run _ _ _ _ _ Hrun). split; [done|].
      apply read_is_topo_write_or_read in HR'.
      change (both same_tablets (adds_only is_topo_write_or_read) w w').
      by etrans.
    + exists e, w1. split; [done|].
      apply steps_prepareCreateLookup in Hprep as <-.
      change (both same_tablets (adds_only is_topo_write_or_read) w w). reflexivity.
Qed.

Lemma workflow_exists_occupied : workflow_exists "sales" "movecust" Demo.occupied.
Proof.
  exists [Demo.sales_lo; Demo.sales_hi], Demo.sales_lo, "zone1-200",
    {| topo.AliasString := "zone1-200"; topo.DbName := "vt_sales" |}.
  eexists _, _.
  split; [vm_compute; reflexivity|]. split; [left|]. split; [reflexivity|].
  split; [vm_compute; reflexivity|]. split; [vm_compute; reflexivity|].
  split; [left|]. split; reflexivity.
Defined.

Lemma workflow_name_checked_before_streams_witness :
  workflow_exists "sales" "movecust" Demo.occupied
  ∧ ∃ e w',
      Materialize (H := Demo.env)
        (MoveTables_settings (H := Demo.env) "movecust" "legacy" "sales" "zone1"
           "primary" false EmptyString false EmptyString [] ["customer"])
        Demo.occupied = (Err e, w')
      ∧ same_state Demo.occupied w' ∧ adds_only is_read Demo.occupied w'.
Proof.
  split; [exact workflow_exists_occupied|].
  exact (proj1 (workflow_name_checked_before_streams (H := Demo.env))
           (MoveTables_settings (H := Demo.env) "movecust" "legacy" "sales" "zone1"
              "primary" false EmptyString false EmptyString [] ["customer"])
           Demo.occupied workflow_exists_occupied).
Defined.

(** The claim as stated fails for [MoveTables]: the workflow [movecust]
    already exists, the operation fails on the uniqueness check, and yet the
    routing rules, empty before, have been saved. *)
Lemma MoveTables_saves_rules_before_uniqueness_check :
  workflow_exists "sales" "movecust" Demo.occupied
  ∧ (Demo.movecust true Demo.occupied).1
    = Err (Aggregate
             [Errorf "workflow %s already exists in keyspace %s on tablet %d"
                [AStr "movecust"; AStr "sales"; AStr "zone1-200"]])
  ∧ routing_rules (ts Demo.occupied) !! "customer" = None
  ∧ routing_rules (ts (Demo.movecust true Demo.occupied).2) !! "customer"
    = Some ["legacy.customer"].
Proof.
  split; [exact workflow_exists_occupied|].
  repeat split; vm_compute; reflexivity.
Qed.

(** ** What the operations send to the tablets *)

Lemma steps_impl {A} (R R' : relation World) (m : M A) :
  (∀ w w', R w w' → R' w w') → steps R m → steps R' m.
Proof. intros HR Hm w r w' Hrun. by eapply HR, Hm. Qed.

Lemma adds_only_impl (P P' : Event → Prop) w w' :
  (∀ e, P e → P' e) → adds_only P w w' → adds_only P' w w'.
Proof.
  intros HP (evs & Htr & Hevs). exists evs. split; [done|]. by eapply Forall_impl.
Qed.

Section Events.
Context `{Env}.
Context (W : string) (Q : VRow → Prop).

Local Ltac about := simpl; first [done | congruence].

Lemma steps_sends_validateNewWorkflow ks :
  steps (adds_only (sends W Q)) (validateNewWorkflow ks W).
Proof. unfold validateNewWorkflow. steps_events about. Qed.

Lemma steps_sends_buildMaterializer ms : steps (adds_only (sends W Q)) (buildMaterializer ms).
Proof. unfold buildMaterializer. steps_events about. Qed.

Lemma steps_sends_deploySchema mz : steps (adds_only (sends W Q)) (deploySchema mz).
Proof. unfold deploySchema, deploySchema_target. steps_events about. Qed.

Lemma steps_sends_startStreams mz :
  Workflow (ms mz) = W → steps (adds_only (sends W Q)) (startStreams mz).
Proof. intros Hwf. unfold startStreams. steps_events about. Qed.

Lemma steps_sends_checkTZConversion mz tz :
  steps (adds_only (sends W Q)) (checkTZConversion mz tz).
Proof. unfold checkTZConversion. steps_events about. Qed.

Lemma steps_sends_collectTargetStreams mz :
  Workflow (ms mz) = W → steps (adds_only (sends W Q)) (collectTargetStreams mz).
Proof. intros Hwf. unfold collectTargetStreams. steps_events about. Qed.

Lemma steps_sends_checkIfPreviousJournalExists mz mid :
  steps (adds_only (sends W Q)) (checkIfPreviousJournalExists mz mid).
Proof. unfold checkIfPreviousJournalExists. steps_events about. Qed.

Lemma steps_sends_MoveTables_plan workflow sourceKeyspace targetKeyspace tableSpecs cell
    tabletTypes allTables excludeTables stopAfterCopy externalCluster
    dropForeignKeys sourceTimeZone sourceShards :
  steps (adds_only (sends W Q))
    (MoveTables_plan workflow sourceKeyspace targetKeyspace tableSpecs cell
       tabletTypes allTables excludeTables stopAfterCopy externalCluster
       dropForeignKeys sourceTimeZone sourceShards).
Proof.
  unfold MoveTables_plan, MoveTables_tables, getKeyspaceTables, addTablesToVSchema.
  steps_events about.
Qed.

Lemma buildMaterializer_ms ms0 w mz w' :
  buildMaterializer ms0 w = (Ok mz, w') → ms mz = ms0 ∧ sourceShards mz ≠ [].
Proof.
  unfold buildMaterializer. intros Hrun. monad_inv Hrun.
  destruct (SourceShards ms0); monad_inv Hrun; injection Hrun as <- _; simpl.
  all: split; [done|]; intros Hnil.
  all: match goal with
       | Hm : match ?l with [] => fail _ | _ :: _ => mret _ end _ = (Ok _, _) |- _ =>
           rewrite Hnil in Hm; discriminate Hm
       end.
Qed.

Lemma generateInsertMap_rows mz targets insertMap insertMap' :
  map_Forall (λ _, Forall (row_of_settings mz)) insertMap →
  generateInsertMap mz targets insertMap = Ok insertMap' →
  map_Forall (λ _, Forall (row_of_settings mz)) insertMap'.
Proof.
  revert insertMap. induction targets as [|t targets IH]; simpl; intros insertMap Hm Hgen.
  - by injection Hgen as <-.
  - result_inv Hgen. eapply IH; [|done].
    apply map_Forall_insert_2; [|done]. by eapply generateInserts_rows.
Qed.

Lemma steps_sends_createStreams mz insertMap :
  (∀ r k d, row_of_settings mz r → Q (execute_template k d r)) →
  map_Forall (λ _, Forall (row_of_settings mz)) insertMap →
  steps (adds_only (sends W Q)) (createStreams mz insertMap).
Proof.
  intros HQ Hmap. unfold createStreams. steps_tac.
  apply steps_adds_VReplicationExec. simpl.
  apply Forall_map.
  destruct (insertMap !! _) as [rows|] eqn:Hrows; simpl; [|constructor].
  apply Hmap in Hrows. eapply Forall_impl; [done|]. intros r Hr. by eapply HQ.
Qed.

(** The rows [prepareMaterializerStreams] inserts are the rows
    [generateInserts] built from the settings, after template execution. *)
Lemma steps_sends_prepareMaterializerStreams ms0 :
  Workflow ms0 = W →
  (∀ mz r k d, ms mz = ms0 → row_of_settings mz r → Q (execute_template k d r)) →
  steps (adds_only (sends W Q)) (prepareMaterializerStreams ms0).
Proof.
  intros Hwf HQ. unfold prepareMaterializerStreams. rewrite Hwf.
  apply steps_bind; [apply _|by apply steps_sends_validateNewWorkflow|]. intros _.
  apply steps_bind_strong; [apply _|by apply steps_sends_buildMaterializer|].
  intros w mz w1 [Hms _]%buildMaterializer_ms.
  apply steps_bind; [apply _|by apply steps_sends_deploySchema|]. intros _.
  apply steps_bind_strong; [apply _|apply steps_lift; apply _|].
  intros w2 insertMap w3 Hmap. unfold lift in Hmap. injection Hmap as Hmap _.
  apply generateInsertMap_rows in Hmap; [|apply map_Forall_empty].
  apply steps_bind; [apply _| |intros; apply steps_ret; apply _].
  apply steps_sends_createStreams; [|done]. intros. by eapply HQ.
Qed.

Lemma prepareMaterializerStreams_ms ms0 w mz w' :
  prepareMaterializerStreams ms0 w = (Ok mz, w') → ms mz = ms0 ∧ sourceShards mz ≠ [].
Proof.
  unfold prepareMaterializerStreams. intros Hrun. monad_inv Hrun.
  injection Hrun as <- _. by eapply buildMaterializer_ms.
Qed.

Lemma steps_sends_Materialize ms0 :
  Workflow ms0 = W →
  (∀ mz r k d, ms mz = ms0 → row_of_settings mz r → Q (execute_template k d r)) →
  steps (adds_only (sends W Q)) (Materialize ms0).
Proof.
  intros Hwf HQ. unfold Materialize.
  apply steps_bind_strong; [apply _|by apply steps_sends_prepareMaterializerStreams|].
  intros w mz w1 [Hms _]%prepareMaterializerStreams_ms.
  apply steps_sends_startStreams. by rewrite Hms.
Qed.

Lemma steps_sends_MoveTables_streams ms0 autoStart :
  Workflow ms0 = W →
  (∀ mz r k d, ms mz = ms0 → row_of_settings mz r → Q (execute_template k d r)) →
  steps (adds_only (sends W Q)) (MoveTables_streams ms0 autoStart).
Proof.
  intros Hwf HQ. unfold MoveTables_streams.
  apply steps_bind_strong; [apply _|by apply steps_sends_prepareMaterializerStreams|].
  intros w mz w1 [Hms _]%prepareMaterializerStreams_ms.
  assert (Workflow (ms mz) = W) as Hwf' by (by rewrite Hms).
  apply steps_bind; [apply _| |intros _].
  { destruct (str_eqb _ _); [steps_tac|by apply steps_sends_checkTZConversion]. }
  apply steps_bind; [apply _|by apply steps_sends_collectTargetStreams|]. intros tabletShards.
  apply steps_bind; [apply _| |intros _].
  { destruct (str_eqb _ _); [|steps_tac].
    apply steps_bind; [apply _|by apply steps_sends_checkIfPreviousJournalExists|].
    intros [[] ?]; steps_tac. }
  destruct autoStart; [by apply steps_sends_startStreams|steps_tac].
Qed.

End Events.


(** ** The workflow of a lookup vindex *)

Section LookupWorkflow.
Context `{Env}.

Lemma prepareCreateLookup_validate_Ok specs name vindex_ i :
  vschemapb.Vindexes specs = {[ name := vindex_ ]} →
  prepareCreateLookup_validate specs = Ok i →
  sqlparser_ParseTable (vschemapb.param (vschemapb.Params vindex_) "table")
    = Ok (targetKeyspace i, targetTableName i)
  ∧ vindexName i = name
  ∧ vindex i = vschemapb.set_Params vindex_
                 (<["write_only" := "true"]> (vschemapb.Params vindex_)).
Proof.
  intros Hv. unfold prepareCreateLookup_validate.
  rewrite Hv, map_to_list_singleton.
  destruct (negb _); [discriminate|].
  destruct (sqlparser_ParseTable _) as [[tk tt]|]; [|discriminate].
  destruct (str_eqb tk _); [discriminate|].
  intros Hi. result_inv Hi.
  repeat match type of Hi with
  | match ?x with _ => _ end = Ok _ => destruct x; try discriminate Hi
  | (if ?x then _ else _) = Ok _ => destruct x; try discriminate Hi
  | (_ ≫= _) = Ok _ => result_inv Hi
  | Ok _ = Ok _ => injection Hi as <-
  end; done.
Qed.

Lemma prepareCreateLookup_source_vindex ks specs c w ms0 sv tv w' i :
  prepareCreateLookup_validate specs = Ok i →
  prepareCreateLookup ks specs c w = (Ok (ms0, sv, tv), w') →
  vschemapb.Vindexes sv !! vindexName i = Some (vindex i).
Proof.
  intros Hi Hrun. unfold prepareCreateLookup in Hrun. rewrite Hi in Hrun.
  apply M_bind_Ok in Hrun as (i' & w1 & Hi' & Hrun). injection Hi' as <- <-.
  monad_inv Hrun. injection Hrun as _ <- _ _.
  unfold editSource. destruct (str_eqb ks _); simpl; apply lookup_insert_eq.
Qed.

End LookupWorkflow.



(** ** ExternalizeVindex *)

Lemma fanOutErrors_nil_inv {A} (f : A → M unit) a l w w' :
  fanOutErrors f (a :: l) w = (Ok [], w') →
  ∃ w1, f a w = (Ok (), w1) ∧ fanOutErrors f l w1 = (Ok [], w').
Proof.
  simpl. rewrite M_bind_run. unfold attempt. destruct (f a w) as [r w1].
  rewrite M_bind_run.
  destruct (fanOutErrors f l w1) as [[es|e] w2] eqn:Hrest; [|discriminate].
  destruct r as [[]|e]; intros [= -> ->]. by eexists.
Qed.

Lemma fanOut_Ok_inv {A} (f : A → M unit) l w w' :
  fanOut f l w = (Ok (), w') → fanOutErrors f l w = (Ok [], w').
Proof.
  unfold fanOut. rewrite M_bind_run.
  destruct (fanOutErrors_total f l w) as (es & w1 & ->).
  destruct es; [by intros [= ->]|discriminate].
Qed.

Global Instance streams_shrink_preorder : PreOrder streams_shrink.
Proof.
  split.
  - intros w. split; [done|]. intros a t Ht. by exists t.
  - intros w1 w2 w3 [Hts1 H1] [Hts2 H2]. split; [congruence|].
    intros a t Ht. destruct (H1 a t Ht) as (t' & Ht' & Hsub).
    destruct (H2 a t' Ht') as (t'' & Ht'' & Hsub'). exists t''. split; [done|].
    by etrans.
Qed.

Section ExternalizeTasks.
Context `{Env}.

Lemma externalize_check_expected v si r :
  (expected_state v r → externalize_check v si r = Ok ())
  ∧ (¬ expected_state v r → ∃ e, externalize_check v si r = Err e).
Proof.
  unfold expected_state, externalize_check, str_eqb.
  destruct (decide (vschemapb.Owner v = EmptyString
                    ∨ binlogdatapb.StopAfterCopy (source r) = false)) as [Hd|Hd].
  - assert (bool_decide (vschemapb.Owner v = EmptyString)
            || negb (binlogdatapb.StopAfterCopy (source r)) = true) as ->.
    { destruct Hd as [->| ->]; [done|]. by rewrite orb_true_r. }
    split; intros Hs.
    + by rewrite bool_decide_eq_true_2.
    + rewrite bool_decide_eq_false_2 by done. simpl. eauto.
  - assert (bool_decide (vschemapb.Owner v = EmptyString)
            || negb (binlogdatapb.StopAfterCopy (source r)) = false) as ->.
    { apply orb_false_iff. split.
      - apply bool_decide_eq_false_2. tauto.
      - destruct (binlogdatapb.StopAfterCopy (source r)); [done|tauto]. }
    split.
    + intros [Hs Hm]. by rewrite bool_decide_eq_true_2, Hm.
    + intros Hn. destruct (negb _ || negb _) eqn:Hb; [eauto|].
      apply orb_false_iff in Hb as [Hb1 Hb2]. exfalso. apply Hn.
      apply negb_false_iff in Hb1, Hb2. by apply bool_decide_eq_true in Hb1.
Qed.

Lemma ExternalizeVindex_delete_Ok wf si w w' :
  ExternalizeVindex_delete wf si w = (Ok (), w') →
  streams_shrink w w'
  ∧ ∀ alias primary,
      topo.PrimaryAlias si = Some alias →
      tablet_records (ts w) !! alias = Some primary →
      ∃ t', tablet_states w' !! topo.AliasString primary = Some t'
            ∧ filter (stream_of (topo.DbName primary) wf) (vreplication t') = [].
Proof.
  unfold ExternalizeVindex_delete. intros Hrun.
  apply M_bind_Ok in Hrun as (primary & w1 & Hget & Hrun).
  unfold GetTablet in Hget. simpl in Hget.
  destruct (topo.PrimaryAlias si) as [alias|]; simpl in Hget; [|discriminate].
  destruct (tablet_records (ts w) !! alias) as [p|] eqn:Hrec; [|discriminate].
  injection Hget as -> <-.
  apply M_bind_Ok in Hrun as (rows & w2 & Hexec & Hrun). injection Hrun as <-.
  unfold tmc_VReplicationExec in Hexec.
  rewrite M_bind_run in Hexec. simpl in Hexec. rewrite M_bind_run in Hexec.
  unfold reach in Hexec. simpl in Hexec.
  destruct (tablet_states w !! topo.AliasString primary) as [t|] eqn:Ht; [|discriminate].
  simpl in Hexec. injection Hexec as _ <-.
  split.
  - split; [done|]. intros a t0 Ht0. simpl.
    destruct (decide (a = topo.AliasString primary)) as [->|Hne].
    + rewrite lookup_insert_eq. eexists. split; [done|]. simpl.
      rewrite Ht in Ht0. injection Ht0 as <-.
      intros r Hr. by apply list_elem_of_filter in Hr as [_ ?].
    + rewrite lookup_insert_ne by done. by exists t0.
  - intros alias' primary' [= <-] Hrec'. rewrite Hrec in Hrec'. injection Hrec' as <-.
    simpl. rewrite lookup_insert_eq.
    eexists. split; [done|]. simpl.
    apply elem_of_nil_inv. intros r Hr.
    apply list_elem_of_filter in Hr as [Hr1 Hr].
    by apply list_elem_of_filter in Hr as [Hr2 _].
Qed.

Lemma delete_fanOut wf l w w' :
  fanOutErrors (ExternalizeVindex_delete wf) l w = (Ok [], w') →
  streams_shrink w w'
  ∧ ∀ si alias primary,
      si ∈ l →
      topo.PrimaryAlias si = Some alias →
      tablet_records (ts w) !! alias = Some primary →
      ∃ t', tablet_states w' !! topo.AliasString primary = Some t'
            ∧ filter (stream_of (topo.DbName primary) wf) (vreplication t') = [].
Proof.
  revert w. induction l as [|si l IH]; intros w Hrun.
  - injection Hrun as <-. split; [reflexivity|]. intros ??? Hin. by apply elem_of_nil in Hin.
  - apply fanOutErrors_nil_inv in Hrun as (w1 & Htask & Hrest).
    apply ExternalizeVindex_delete_Ok in Htask as [Hshrink Hdel].
    apply IH in Hrest as [Hshrink' Hrest].
    split; [by etrans|].
    intros si' alias primary Hin Halias Hrec.
    apply elem_of_cons in Hin as [->|Hin].
    + destruct (Hdel _ _ Halias Hrec) as (t1 & Ht1 & Hnone).
      destruct Hshrink' as [_ Hsub]. destruct (Hsub _ _ Ht1) as (t' & Ht' & Hsubset).
      exists t'. split; [done|].
      apply elem_of_nil_inv. intros r Hr. apply list_elem_of_filter in Hr as [HP Hr].
      apply Hsubset in Hr. by destruct (filter_nil_not_elem_of _ _ _ Hnone HP).
    + eapply Hrest; [done..|]. destruct Hshrink as [-> _]. done.
Qed.
End ExternalizeTasks.

Lemma fanOutErrors_nil_each {A} (R : relation World) `{!PreOrder R}
    (f : A → M unit) l w w' :
  (∀ a, a ∈ l → steps R (f a)) →
  fanOutErrors f l w = (Ok [], w') →
  ∀ a, a ∈ l → ∃ wa wa', R w wa ∧ f a wa = (Ok (), wa').
Proof.
  revert w. induction l as [|b l IH]; intros w Hsteps Hrun a Hin.
  - by apply elem_of_nil in Hin.
  - apply fanOutErrors_nil_inv in Hrun as (w1 & Hb & Hrest).
    apply elem_of_cons in Hin as [->|Hin].
    + exists w, w1. split; [reflexivity|done].
    + destruct (IH w1 ltac:(intros; apply Hsteps; by right) Hrest a Hin)
        as (wa & wa' & HR & Ha).
      exists wa, wa'. split; [|done]. etrans; [|done].
      eapply Hsteps; [left|done].
Qed.

Section Externalize.
Context `{Env}.
Variables (qualified keyspace name K T : string).
Variables (vschema : vschemapb.Keyspace) (sourceVindex : vschemapb.Vindex).
Variables (targets : list topo.ShardInfo) (w : World).
Hypothesis Hsplit : Go.Split qualified "." = [keyspace; name].
Hypothesis Hvschema : vschemas (ts w) !! keyspace = Some vschema.
Hypothesis Hvindex : vschemapb.Vindexes vschema !! name = Some sourceVindex.
Hypothesis Hparse :
  sqlparser_ParseTable (vschemapb.param (vschemapb.Params sourceVindex) "table") = Ok (K, T).
Hypothesis HK : K ≠ EmptyString.
Hypothesis Htargets : serving_shards (ts w) !! K = Some targets.

Lemma ExternalizeVindex_unfold :
  ExternalizeVindex qualified w
  = (fanOut (ExternalizeVindex_verify sourceVindex (T +:+ "_vdx")) targets;;
     (if str_eqb (vschemapb.Owner sourceVindex) EmptyString then mret ()
      else fanOut (ExternalizeVindex_delete (T +:+ "_vdx")) targets);;
     SaveVSchema keyspace (externalized vschema name sourceVindex);;
     RebuildSrvVSchema) w.
Proof.
  unfold ExternalizeVindex. rewrite Hsplit, M_bind_run.
  unfold GetVSchema at 1. rewrite Hvschema, Hvindex, Hparse.
  unfold str_eqb at 1. rewrite bool_decide_eq_false_2 by done.
  rewrite M_bind_run. unfold GetServingShards at 1. simpl. rewrite Htargets.
  reflexivity.
Qed.

Lemma steps_ExternalizeVindex_verify wf si :
  steps (both same_state (adds_only is_read)) (ExternalizeVindex_verify sourceVindex wf si).
Proof. unfold ExternalizeVindex_verify. steps_tac. by apply steps_select. Qed.

Lemma ExternalizeVindex_verify_rejects wf si primary rows r w1 :
  same_state w w1 →
  primary_streams w si wf primary rows → r ∈ rows → ¬ expected_state sourceVindex r →
  ∃ e w', ExternalizeVindex_verify sourceVindex wf si w1 = (Err e, w').
Proof.
  intros (Hts & _ & _ & Htab) (alias & t & Halias & Hrec & Ht & ->) Hr Hbad.
  unfold ExternalizeVindex_verify.
  rewrite M_bind_run. unfold GetTablet. simpl. rewrite Halias. simpl. rewrite Hts, Hrec.
  rewrite M_bind_run. unfold tmc_VReplicationExec. rewrite M_bind_run. simpl.
  rewrite M_bind_run. unfold reach. simpl. rewrite Htab, Ht. simpl.
  destruct (proj2 (externalize_check_expected sourceVindex si r) Hbad) as [e He].
  destruct (forEach_Err _ _ _ _ Hr He) as [e' ->]. by eexists _, _.
Qed.

Lemma ExternalizeVindex_verify_Ok wf si primary rows w1 w2 :
  same_state w w1 →
  primary_streams w si wf primary rows →
  ExternalizeVindex_verify sourceVindex wf si w1 = (Ok (), w2) →
  Forall (expected_state sourceVindex) rows.
Proof.
  intros Hsame Hrows Hrun. apply Forall_forall. intros r Hr.
  destruct (decide (expected_state sourceVindex r)) as [|Hbad]; [done|].
  destruct (ExternalizeVindex_verify_rejects _ _ _ _ _ _ Hsame Hrows Hr Hbad) as (e & w' & Hrun').
  congruence.
Qed.

End Externalize.


(** An owned vindex whose backfill stopped after the copy: externalizing
    it succeeds, deletes the stream and removes [write_only]. *)
Example ExternalizeVindex_owned_backfill_done :
  let w := Demo.backfilling "Stopped" "Stopped after copy." in
  let '(r, w') := ExternalizeVindex (H := Demo.env) "main.email_vdx" w in
  r = Ok ()
  ∧ Demo.rows_on "zone1-600" w = [Demo.backfill_row "Stopped" "Stopped after copy."]
  ∧ Demo.rows_on "zone1-600" w' = []
  ∧ (vschemapb.Params <$> (vschemas (ts w') !! "main"
                             ≫= λ v, vschemapb.Vindexes v !! "email_vdx"))
    = Some (vschemapb.Params Demo.email_vindex).
Proof. vm_compute. repeat split; reflexivity. Qed.

(** ** The schema deployer *)

Section DeploySchema.
Context `{Env}.

Lemma deploySchema_tables_run mz (has : gset string) present settings cache acc w r w' :
  (∀ x, x ∈ has ↔ x ∈ present) →
  deploySchema_tables mz has settings cache acc w = (r, w') →
  w' = w
  ∧ ∃ cache' res,
      r = Ok (cache', res)
      ∧ ∀ applied, res = Ok applied →
          ∃ new, applied = acc ++ new
                 ∧ Forall2 resolved_for (absent_settings present settings) new.
Proof.
  intros Hhas Hrun.
  split; [symmetry; by eapply (steps_deploySchema_tables eq)|].
  revert cache acc w r w' Hrun.
  induction settings as [|ts settings IH]; intros cache acc w r w' Hrun; simpl in Hrun.
  - unfold mret, M_ret in Hrun. injection Hrun as <- <-. eexists _, _. split; [done|].
    intros applied [= <-]. exists []. rewrite app_nil_r. split; [done|constructor].
  - unfold absent_settings. rewrite filter_cons.
    destruct (decide (TargetTable ts ∈ has)) as [Hin|Hnin].
    + rewrite decide_False by (rewrite <- Hhas; tauto). by eapply IH.
    + rewrite decide_True by (by rewrite <- Hhas).
      destruct (str_eqb (CreateDdl ts) EmptyString);
        [unfold mret, M_ret in Hrun; injection Hrun as <- <-; by eexists _, _|].
      rewrite M_bind_run in Hrun.
      assert (∃ fetched w1,
                 (if decide (size cache = 0%nat)
                  then attempt (getSourceTableDDLs mz)
                  else mret (Ok cache)) w = (Ok fetched, w1)) as (fetched & w1 & Hfetch).
      { destruct (decide _); [|by eexists _, _].
        unfold attempt. destruct (getSourceTableDDLs mz w). by eexists _, _. }
      rewrite Hfetch in Hrun. destruct fetched as [ddls|e].
      * destruct (resolveDDL ddls ts) as [ddl|e] eqn:Hres.
        -- apply IH in Hrun as (cache' & res & -> & Hres').
           eexists _, _. split; [done|]. intros applied Happ.
           destruct (Hres' _ Happ) as (new & -> & Hnew).
           exists (ddl :: new). rewrite <- app_assoc. split; [done|].
           constructor; [by exists ddls|done].
        -- unfold mret, M_ret in Hrun. injection Hrun as <- <-. by eexists _, _.
      * unfold mret, M_ret in Hrun. injection Hrun as <- <-. by eexists _, _.
Qed.

(** Over all target shards, the deployer sends nothing but schema changes. *)
Lemma steps_deploySchema_apply_only mz :
  steps (adds_only is_apply_schema) (deploySchema mz).
Proof.
  unfold deploySchema. apply steps_bind; [apply _| |intros [? ?]; steps_tac].
  apply steps_fanOutShared; [apply _|]. intros target sourceDDLs _.
  unfold deploySchema_target. steps_events ltac:(done).
Qed.

End DeploySchema.


(** On the fresh cluster the first target primary lacks [customer] and gets
    its CREATE statement; once the table is there a second run sends
    nothing. *)
Example deploySchema_twice :
  let first := (deploySchema_target (H := Demo.env) Demo.movecust_mz Demo.sales_lo ∅ Demo.fresh).2 in
  let second := (deploySchema_target (H := Demo.env) Demo.movecust_mz Demo.sales_lo ∅ first).2 in
  trace first
  = [EvApplySchema "zone1-200"
       {| tmutils.SQL := "create table customer (cid bigint, primary key (cid))";
          tmutils.Force := false; tmutils.AllowReplication := true;
          tmutils.SQLMode := vreplication_SQLMode (Env := Demo.env) |}]
  ∧ trace second = trace first
  ∧ tablet_states second = tablet_states first.
Proof. vm_compute. repeat split. Qed.

(** ** The journal of an earlier run *)

Lemma adds_only_trans (P : Event → Prop) w1 w2 w3 :
  adds_only P w1 w2 → adds_only P w2 w3 → adds_only P w1 w3.
Proof. intros H12 H23. by etrans. Qed.

Section PreviousJournal.
Context `{Env}.

Local Ltac about := simpl; first [done | congruence].

Lemma steps_stopped_createStreams mz insertMap :
  map_Forall (λ _, Forall (row_of_settings mz)) insertMap →
  steps (adds_only creates_stopped) (createStreams mz insertMap).
Proof.
  intros Hmap. unfold createStreams. steps_tac.
  apply steps_adds_VReplicationExec. simpl.
  apply Forall_map.
  destruct (insertMap !! _) as [rows|] eqn:Hrows; simpl; [|constructor].
  apply Hmap in Hrows. eapply Forall_impl; [done|].
  intros r (_ & _ & _ & _ & Hstate). exact Hstate.
Qed.

Lemma steps_stopped_prepareMaterializerStreams ms0 :
  steps (adds_only creates_stopped) (prepareMaterializerStreams ms0).
Proof.
  unfold prepareMaterializerStreams.
  apply steps_bind; [apply _|unfold validateNewWorkflow; steps_events about|]. intros _.
  apply steps_bind_strong; [apply _|unfold buildMaterializer; steps_events about|].
  intros w mz w1 _.
  apply steps_bind;
    [apply _|unfold deploySchema, deploySchema_target; steps_events about|]. intros _.
  apply steps_bind_strong; [apply _|apply steps_lift; apply _|].
  intros w2 insertMap w3 Hmap. unfold lift in Hmap. injection Hmap as Hmap _.
  apply generateInsertMap_rows in Hmap; [|apply map_Forall_empty].
  apply steps_bind; [apply _| |intros; apply steps_ret; apply _].
  by apply steps_stopped_createStreams.
Qed.

Lemma fanOutShared_all_report {A} (rep : A → string → Prop)
    (f : A → bool * list string → M (bool * list string * option Error))
    (l : list A) (tablets : list string) (w : World) :
  (∀ a t e acc, rep a t → f a (e, acc) w = (Ok ((true, acc ++ [t]), None), w)) →
  Forall2 rep l tablets →
  ∀ e acc,
    fanOutShared f l (e, acc) w
    = (Ok ((match l with [] => e | _ => true end, acc ++ tablets), []), w).
Proof.
  intros Hf Hall. induction Hall as [|a t l tablets Hrep Hall IH]; intros e acc; simpl.
  - by rewrite app_nil_r.
  - rewrite M_bind_run, (Hf a t e acc Hrep). rewrite M_bind_run, IH.
    unfold mret, M_ret. simpl. rewrite <- app_assoc. simpl. by destruct l.
Qed.

(** When the primary of every source shard holds the entry, the check says
    so and names them all, in whatever order the tasks run. *)
Lemma checkIfPreviousJournalExists_all mz migrationID tablets w :
  sourceShards mz ≠ [] →
  Forall2 (journal_reported w migrationID) (sourceShards mz) tablets →
  checkIfPreviousJournalExists mz migrationID w = (Ok (true, tablets), w).
Proof.
  intros Hne Hall. unfold checkIfPreviousJournalExists.
  rewrite M_bind_run.
  erewrite (fanOutShared_all_report (journal_reported w migrationID)); [|clear|exact Hall].
  - simpl. destruct (sourceShards mz); [done|]. reflexivity.
  - intros si t e acc (alias & ti & tb & Halias & Hrec & <- & Hstate & Hin).
    rewrite M_bind_run. unfold attempt at 1, GetTablet. simpl.
    rewrite Halias. simpl. rewrite Hrec. rewrite M_bind_run.
    unfold attempt, CheckReshardingJournalExistsOnTablet. rewrite M_bind_run.
    unfold reach. rewrite Hstate. unfold mret, M_ret.
    by rewrite bool_decide_eq_true_2.
Qed.

Lemma steps_stopped_checkTZConversion mz tz :
  steps (adds_only creates_stopped) (checkTZConversion mz tz).
Proof. unfold checkTZConversion. steps_events about. Qed.

Lemma steps_stopped_collectTargetStreams mz :
  steps (adds_only creates_stopped) (collectTargetStreams mz).
Proof. unfold collectTargetStreams. steps_events about. Qed.

Lemma steps_stopped_MoveTables_plan workflow sourceKeyspace targetKeyspace tableSpecs cell
    tabletTypes allTables excludeTables stopAfterCopy externalCluster
    dropForeignKeys sourceTimeZone shards :
  steps (adds_only creates_stopped)
    (MoveTables_plan workflow sourceKeyspace targetKeyspace tableSpecs cell
       tabletTypes allTables excludeTables stopAfterCopy externalCluster
       dropForeignKeys sourceTimeZone shards).
Proof.
  unfold MoveTables_plan, MoveTables_tables, getKeyspaceTables, validateSourceTablesExist,
    addTablesToVSchema.
  steps_events about.
Qed.

(** C1 (as the code has it): take a MoveTables invocation with no external source
    cluster that gets as far as computing its MigrationID: the plan is saved,
    the streams are created, the time-zone check (if any) passes and the ids
    of the target streams are collected.  If in the world reached then the
    primary of every source shard holds a resharding-journal entry for that
    MigrationID, the invocation fails with the error that names these
    primaries, the workflow and the target keyspace; nothing is done after
    the check, so no stream is started; and over the whole invocation every
    call on a replication-control table is a read or an insert of Stopped
    StreamRecords. *)
Theorem MoveTables_previous_journal (workflow sourceKeyspace targetKeyspace
    tableSpecs cell tabletTypes : string) (allTables : bool) (excludeTables : string)
    (autoStart stopAfterCopy dropForeignKeys : bool) (sourceTimeZone : string)
    (shards : list string) (w : World) (ms : MaterializeSettings) (w0 : World)
    (mz : materializer) (w1 w2 : World) (tabletShards : list string) (w3 : World)
    (tablets : list string) :
  MoveTables_plan workflow sourceKeyspace targetKeyspace tableSpecs cell tabletTypes
    allTables excludeTables stopAfterCopy EmptyString dropForeignKeys sourceTimeZone
    shards w = (Ok ms, w0) →
  prepareMaterializerStreams ms w0 = (Ok mz, w1) →
  (if str_eqb (SourceTimeZone ms) EmptyString then mret ()
   else checkTZConversion mz (SourceTimeZone ms)) w1 = (Ok (), w2) →
  collectTargetStreams mz w2 = (Ok tabletShards, w3) →
  Forall2 (journal_reported w3 (getMigrationID (TargetKeyspace ms) tabletShards))
    (sourceShards mz) tablets →
  MoveTables workflow sourceKeyspace targetKeyspace tableSpecs cell tabletTypes
    allTables excludeTables autoStart stopAfterCopy EmptyString dropForeignKeys
    sourceTimeZone shards w
  = (Err (previousJournalError (getMigrationID (TargetKeyspace ms) tabletShards)
            tablets (Workflow ms) (TargetKeyspace ms)), w3)
  ∧ adds_only creates_stopped w w3.
Proof.
  intros Hplan Hprep Htz Hcollect Hjournal. split.
  - unfold MoveTables. rewrite M_bind_run, Hplan.
    unfold MoveTables_streams. rewrite M_bind_run, Hprep.
    rewrite M_bind_run, Htz. rewrite M_bind_run, Hcollect.
    destruct (MoveTables_plan_settings _ _ _ _ _ _ _ _ _ _ _ _ _ _ _ _ Hplan) as [tables Hms].
    assert (ExternalCluster ms = EmptyString) as ->
      by (rewrite Hms; apply MoveTables_settings_names).
    simpl. rewrite M_bind_run, M_bind_run.
    rewrite (checkIfPreviousJournalExists_all mz _ tablets); [done| |done].
    by eapply prepareMaterializerStreams_ms.
  - eapply adds_only_trans; [by eapply steps_stopped_MoveTables_plan|].
    eapply adds_only_trans; [by eapply steps_stopped_prepareMaterializerStreams|].
    eapply adds_only_trans; [|by eapply steps_stopped_collectTargetStreams].
    destruct (str_eqb _ _); [|by eapply steps_stopped_checkTZConversion].
    unfold mret, M_ret in Htz. injection Htz as <-. reflexivity.
Qed.
End PreviousJournal.

Lemma MoveTables_previous_journal_witness :
  let run := Demo.movecust true Demo.journaled in
  Forall2 (journal_reported run.2 Demo.movecust_id) [Demo.legacy_0] ["zone1-100"]
  ∧ run = (Err (previousJournalError Demo.movecust_id ["zone1-100"] "movecust" "sales"),
           run.2)
  ∧ adds_only creates_stopped Demo.journaled run.2.
Proof.
  intros run.
  assert (Forall2 (journal_reported run.2 Demo.movecust_id) [Demo.legacy_0] ["zone1-100"])
    as Hjournal.
  { repeat constructor.
    exists "zone1-100", {| topo.AliasString := "zone1-100"; topo.DbName := "vt_legacy" |},
      {| tables := [Demo.customer_table]; vreplication := []; next_id := 1;
         resharding_journal := [Demo.movecust_id]; time_zones := ["UTC"] |}.
    repeat split; try (vm_compute; reflexivity). vm_compute. left. }
  split; [exact Hjournal|].
  set (w0 := (MoveTables_plan (H := Demo.env) "movecust" "legacy" "sales" "customer"
                "zone1" "primary" false EmptyString false EmptyString false EmptyString []
                Demo.journaled).2).
  set (w1 := (prepareMaterializerStreams (H := Demo.env) (ms Demo.movecust_mz) w0).2).
  apply (MoveTables_previous_journal (H := Demo.env) "movecust" "legacy" "sales"
           "customer" "zone1" "primary" false EmptyString true false false EmptyString []
           Demo.journaled (ms Demo.movecust_mz) w0 Demo.movecust_mz w1 w1
           ["-80:1"; "80-:1"] run.2 ["zone1-100"]);
    [vm_compute; reflexivity | vm_compute; reflexivity | vm_compute; reflexivity
    | vm_compute; reflexivity | exact Hjournal].
Defined.

(** The claim as stated fails: the source primary [zone1-100] holds the
    journal entry of the computed MigrationID and the invocation fails with
    the error that names it, yet the target primary [zone1-200], which held
    no StreamRecord, now holds one (Stopped). *)
Lemma MoveTables_creates_streams_before_journal_check :
  let run := Demo.movecust true Demo.journaled in
  journal_reported Demo.journaled Demo.movecust_id Demo.legacy_0 "zone1-100"
  ∧ run.1 = Err (previousJournalError Demo.movecust_id ["zone1-100"] "movecust" "sales")
  ∧ Demo.rows_on "zone1-200" Demo.journaled = []
  ∧ map (λ r, (id r, workflow r, state r)) (Demo.rows_on "zone1-200" run.2)
    = [(1, "movecust", "Stopped")].
Proof.
  intros run. split.
  - exists "zone1-100", {| topo.AliasString := "zone1-100"; topo.DbName := "vt_legacy" |},
      {| tables := [Demo.customer_table]; vreplication := []; next_id := 1;
         resharding_journal := [Demo.movecust_id]; time_zones := ["UTC"] |}.
    repeat split; try (vm_compute; reflexivity). vm_compute. left.
  - vm_compute. repeat split.
Qed.

(** The tasks of the check share the variable that holds its answer, and
    each task overwrites it: with two source primaries of which only
    [zone1-100] holds the entry, the answer is that of the task that wrote
    last, while the list of tablets names [zone1-100] either way. *)
Example checkIfPreviousJournalExists_last_answer :
  let mz sources :=
    {| ms := ms Demo.movecust_mz; targetVSchema := targetVSchema Demo.movecust_mz;
       sourceShards := sources; targetShards := targetShards Demo.movecust_mz;
       isPartial := false |} in
  (checkIfPreviousJournalExists (mz [Demo.legacy_0; Demo.sales_lo]) Demo.movecust_id
     Demo.journaled).1 = Ok (false, ["zone1-100"])
  ∧ (checkIfPreviousJournalExists (mz [Demo.sales_lo; Demo.legacy_0]) Demo.movecust_id
       Demo.journaled).1 = Ok (true, ["zone1-100"]).
Proof. vm_compute. split; reflexivity. Qed.

(** * Further properties of the engine *)

(** ** The tables MoveTables moves *)

Section TableSelection.
Context `{Env}.

(** X1: [validateSourceTablesExist] accepts a list exactly when each of its
    tables that is not an internal operation table is a table of the source
    keyspace; when it refuses, the error names, in order, exactly the tables
    that are neither internal nor found. *)
Theorem validateSourceTablesExist_missing (sourceKeyspace : string)
    (ksTables tables : list string) :
  (validateSourceTablesExist sourceKeyspace ksTables tables = Ok ()
   ↔ ∀ t, t ∈ tables → schema_IsInternalOperationTableName t = false → t ∈ ksTables)
  ∧ (∀ e, validateSourceTablesExist sourceKeyspace ksTables tables = Err e →
       ∃ missing,
         e = Errorf "table(s) not found in source keyspace %s: %s"
               [AStr sourceKeyspace; AStr (Go.Join missing ",")]
         ∧ missing ≠ []
         ∧ missing `sublist_of` tables
         ∧ ∀ t, t ∈ missing
                ↔ t ∈ tables ∧ schema_IsInternalOperationTableName t = false
                  ∧ t ∉ ksTables).
Proof.
  unfold validateSourceTablesExist.
  set (missing := filter _ tables).
  assert (∀ t, t ∈ missing
               ↔ t ∈ tables ∧ schema_IsInternalOperationTableName t = false
                 ∧ t ∉ ksTables) as Hmissing.
  { intros t. unfold missing. rewrite list_elem_of_filter. tauto. }
  split.
  - split.
    + intros Hok t Ht Hint. destruct (decide (t ∈ ksTables)) as [|Hnin]; [done|].
      assert (t ∈ missing) as Hin by (by apply Hmissing).
      destruct missing; [by apply elem_of_nil in Hin|discriminate].
    + intros Hall. destruct missing as [|t rest] eqn:Hm; [done|].
      assert (t ∈ t :: rest) as Hin by left.
      apply Hmissing in Hin as (Ht & Hint & Hnin). by destruct Hnin; apply Hall.
  - intros e He. exists missing. destruct missing as [|t rest] eqn:Hm; [discriminate|].
    injection He as <-. repeat split; try done.
    + rewrite <- Hm. apply sublist_filter.
    + by apply Hmissing.
    + by apply Hmissing.
    + by apply Hmissing.
    + intros (?&?&?). by apply Hmissing.
Qed.

Lemma steps_getKeyspaceTables (R : relation World) `{!PreOrder R} ks :
  steps R (getKeyspaceTables ks).
Proof. unfold getKeyspaceTables. steps_tac. Qed.

Lemma steps_addTablesToVSchema (R : relation World) `{!PreOrder R} sk tv tables c :
  steps R (addTablesToVSchema sk tv tables c).
Proof. unfold addTablesToVSchema. steps_tac. Qed.

Lemma steps_MoveTables_tables (R : relation World) `{!PreOrder R} sk tk specs allTables
    excludes ext vschema :
  steps R (MoveTables_tables sk tk specs allTables excludes ext vschema).
Proof.
  unfold MoveTables_tables.
  pose proof (steps_getKeyspaceTables R). pose proof (steps_addTablesToVSchema R).
  steps_tac.
Qed.

Lemma shouldInclude_true table excludes :
  shouldInclude table excludes = true
  ↔ schema_IsInternalOperationTableName table = false ∧ table ∉ excludes.
Proof.
  unfold shouldInclude. destruct (schema_IsInternalOperationTableName table).
  - split; [discriminate|]. by intros [? _].
  - rewrite negb_true_iff, bool_decide_eq_false. tauto.
Qed.

Lemma validateSourceTablesExist_Ok sk ksTables tables t :
  validateSourceTablesExist sk ksTables tables = Ok () →
  t ∈ tables → schema_IsInternalOperationTableName t = false → t ∈ ksTables.
Proof.
  unfold validateSourceTablesExist. intros Hok Ht Hint.
  destruct (decide (t ∈ ksTables)) as [|Hnin]; [done|].
  assert (t ∈ filter (λ table, schema_IsInternalOperationTableName table = false
                               ∧ table ∉ ksTables) tables) as Hin
    by (by apply list_elem_of_filter).
  destruct (filter _ tables); [by apply elem_of_nil in Hin|discriminate].
Qed.

(** X2: When the tables are given by name or by [allTables] (not as a JSON
    object), a successful table selection changes nothing, yields at least
    one table, and every table it yields is a table the primary of the source
    keyspace's first shard lists, is not an internal operation table and is
    not among the excluded tables. *)
Theorem MoveTables_tables_exist_in_source (sourceKeyspace targetKeyspace tableSpecs : string)
    (allTables : bool) (excludeTables externalCluster : string)
    (vschema : vschemapb.Keyspace) (w : World) (tables : list string)
    (vschema' : vschemapb.Keyspace) (w' : World) :
  Go.HasPrefix tableSpecs "{" = false →
  MoveTables_tables sourceKeyspace targetKeyspace tableSpecs allTables excludeTables
    externalCluster vschema w = (Ok (tables, vschema'), w') →
  w' = w
  ∧ tables ≠ []
  ∧ ∃ ksTables,
      getKeyspaceTables sourceKeyspace w = (Ok ksTables, w)
      ∧ ∀ t, t ∈ tables →
             t ∈ ksTables
             ∧ schema_IsInternalOperationTableName t = false
             ∧ (Go.TrimSpace excludeTables ≠ EmptyString →
                t ∉ Go.Split (Go.TrimSpace excludeTables) ",").
Proof.
  intros Hjson Hrun.
  assert (w' = w) as -> by (symmetry; by eapply (steps_MoveTables_tables eq)).
  split; [done|].
  unfold MoveTables_tables in Hrun. rewrite Hjson in Hrun.
  apply M_bind_Ok in Hrun as (ksTables & w1 & Hks & Hrun).
  assert (w1 = w) as -> by (symmetry; by eapply (steps_getKeyspaceTables eq)).
  apply M_bind_Ok in Hrun as (tables0 & w1 & Htables0 & Hrun).
  apply M_bind_Ok in Hrun as (excludeList & w2 & Hexcl & Hrun).
  set (selected := filter (λ t, shouldInclude t excludeList = true) tables0) in Hrun.
  assert (tables = selected ∧ selected ≠ []) as [-> Hne].
  { destruct selected as [|t0 rest] eqn:Hsel; [discriminate|].
    destruct (vschemapb.Sharded vschema).
    - injection Hrun as <- _ _. done.
    - apply M_bind_Ok in Hrun as (v & w3 & _ & Hrun). injection Hrun as <- _ _. done. }
  split; [done|]. exists ksTables. split; [done|].
  intros t [Hincl Ht]%list_elem_of_filter.
  apply shouldInclude_true in Hincl as [Hint Hnex].
  repeat split; [|done|].
  - destruct (if str_eqb (Go.TrimSpace tableSpecs) EmptyString then []
              else Go.Split tableSpecs ",") as [|t1 given] eqn:Hgiven.
    + destruct allTables; [|discriminate]. injection Htables0 as <- _. done.
    + apply M_bind_Ok in Htables0 as ([] & w3 & Hvalid & Htables0).
      injection Htables0 as <- _. unfold lift in Hvalid. injection Hvalid as Hvalid _.
      by eapply validateSourceTablesExist_Ok.
  - intros Hex. unfold str_eqb in Hexcl. rewrite bool_decide_eq_false_2 in Hexcl by done.
    apply M_bind_Ok in Hexcl as ([] & w3 & _ & Hexcl). injection Hexcl as <- _. done.
Qed.

End TableSelection.

Lemma MoveTables_tables_exist_in_source_witness :
  let run := MoveTables_tables (H := Demo.env) "legacy" "sales" "customer" false
               EmptyString EmptyString
               {| vschemapb.Sharded := true; vschemapb.Vindexes := ∅;
                  vschemapb.Tables := ∅ |} Demo.fresh in
  run.2 = Demo.fresh
  ∧ ["customer"] ≠ []
  ∧ ∃ ksTables,
      getKeyspaceTables "legacy" Demo.fresh = (Ok ksTables, Demo.fresh)
      ∧ ∀ t, t ∈ ["customer"] →
             t ∈ ksTables
             ∧ schema_IsInternalOperationTableName (Env := Demo.env) t = false
             ∧ (Go.TrimSpace EmptyString ≠ EmptyString →
                t ∉ Go.Split (Go.TrimSpace EmptyString) ",").
Proof.
  intros run.
  apply (MoveTables_tables_exist_in_source (H := Demo.env) "legacy" "sales" "customer"
           false EmptyString EmptyString
           {| vschemapb.Sharded := true; vschemapb.Vindexes := ∅; vschemapb.Tables := ∅ |}
           Demo.fresh ["customer"]
           {| vschemapb.Sharded := true; vschemapb.Vindexes := ∅; vschemapb.Tables := ∅ |}
           run.2);
    [reflexivity | vm_compute; reflexivity].
Defined.

(** ** The vschema MoveTables saves for an unsharded target *)

(** A left fold whose step acts on the key it is given by [F], and [F] is
    idempotent: the keys of the list are acted on once, the others not. *)
Lemma foldl_pointwise {V} (step : gmap string V → string → gmap string V)
    (F : string → option V → option V) :
  (∀ m t k, step m t !! k = if decide (k = t) then F k (m !! k) else m !! k) →
  (∀ k o, F k (F k o) = F k o) →
  ∀ keys m k,
    foldl step m keys !! k = if decide (k ∈ keys) then F k (m !! k) else m !! k.
Proof.
  intros Hstep Hidem keys. induction keys as [|t keys IH]; intros m k.
  - destruct (decide (k ∈ [])) as [Hin|]; [by apply elem_of_nil in Hin|done].
  - change (foldl step m (t :: keys)) with (foldl step (step m t) keys).
    rewrite IH, Hstep.
    destruct (decide (k = t)) as [->|Hne].
    + destruct (decide (t ∈ t :: keys)) as [_|Hn]; [|destruct Hn; left].
      destruct (decide (t ∈ keys)); [apply Hidem|done].
    + destruct (decide (k ∈ keys)) as [Hin|Hnin];
        destruct (decide (k ∈ t :: keys)) as [Hin'|Hnin']; try done.
      * destruct Hnin'. by right.
      * apply elem_of_cons in Hin' as [?|?]; done.
Qed.

Section AddTables.
Context `{Env}.

(** X3: [addTablesToVSchema] changes nothing in the world and keeps the sharded
    flag, the vindexes and every table that is not listed.  Every listed table
    gets a fresh, empty definition (one the target already had is
    overwritten); with [copyAttributes] it carries the AutoIncrement of the
    table of that name in the source keyspace's vschema, if there is one. *)
Theorem addTablesToVSchema_tables (sourceKeyspace : string)
    (targetVSchema : vschemapb.Keyspace) (tables : list string) (copyAttributes : bool)
    (w : World) (targetVSchema' : vschemapb.Keyspace) (w' : World) :
  addTablesToVSchema sourceKeyspace targetVSchema tables copyAttributes w
    = (Ok targetVSchema', w') →
  w' = w
  ∧ vschemapb.Sharded targetVSchema' = vschemapb.Sharded targetVSchema
  ∧ vschemapb.Vindexes targetVSchema' = vschemapb.Vindexes targetVSchema
  ∧ (∀ t, t ∉ tables →
          vschemapb.Tables targetVSchema' !! t = vschemapb.Tables targetVSchema !! t)
  ∧ (∀ t, t ∈ tables →
          vschemapb.Tables targetVSchema' !! t
          = Some (vschemapb.set_AutoIncrement vschemapb.empty_Table
                    (if copyAttributes
                     then (vschemas (ts w) !! sourceKeyspace
                             ≫= λ src, vschemapb.Tables src !! t)
                            ≫= vschemapb.AutoIncrement
                     else None))).
Proof.
  unfold addTablesToVSchema. intros Hrun.
  pose proof (foldl_pointwise
                (λ m table, <[table := vschemapb.empty_Table]> m)
                (λ _ _, Some vschemapb.empty_Table)) as Hadd.
  specialize (Hadd ltac:(intros m t k; destruct (decide (k = t)) as [->|];
                           [apply lookup_insert_eq|by apply lookup_insert_ne])
                   ltac:(done) tables (vschemapb.Tables targetVSchema)).
  destruct copyAttributes.
  - apply M_bind_Ok in Hrun as (src & w1 & Hsrc & Hrun).
    unfold GetVSchema in Hsrc.
    destruct (vschemas (ts w) !! sourceKeyspace) as [src'|] eqn:Hlook; [|discriminate].
    injection Hsrc as -> ->. injection Hrun as <- <-. simpl.
    pose proof (foldl_pointwise
                  (λ m table,
                     match vschemapb.Tables src !! table with
                     | Some srcTable =>
                         alter (λ t, vschemapb.set_AutoIncrement t
                                       (vschemapb.AutoIncrement srcTable)) table m
                     | None => m
                     end)
                  (λ k o,
                     match vschemapb.Tables src !! k with
                     | Some srcTable =>
                         (λ t, vschemapb.set_AutoIncrement t
                                 (vschemapb.AutoIncrement srcTable)) <$> o
                     | None => o
                     end)) as Hcopy.
    assert (∀ keys (m : gmap string vschemapb.Table) k,
              foldl (λ m table,
                       match vschemapb.Tables src !! table with
                       | Some srcTable =>
                           alter (λ t, vschemapb.set_AutoIncrement t
                                         (vschemapb.AutoIncrement srcTable)) table m
                       | None => m
                       end) m keys !! k
              = if decide (k ∈ keys)
                then match vschemapb.Tables src !! k with
                     | Some srcTable =>
                         (λ t, vschemapb.set_AutoIncrement t
                                 (vschemapb.AutoIncrement srcTable)) <$> m !! k
                     | None => m !! k
                     end
                else m !! k) as Hcopy'.
    { apply Hcopy.
      - intros m t k. destruct (decide (k = t)) as [->|Hne].
        + destruct (vschemapb.Tables src !! t); [by rewrite lookup_alter_eq|done].
        + destruct (vschemapb.Tables src !! t); [|done].
          rewrite lookup_alter_ne by congruence. done.
      - intros k o. destruct (vschemapb.Tables src !! k); [by destruct o|done]. }
    clear Hcopy. rename Hcopy' into Hcopy.
    repeat split; try done.
    + intros t Ht. rewrite Hcopy, decide_False by done. simpl.
      by rewrite Hadd, decide_False.
    + intros t Ht. rewrite Hcopy, decide_True by done. simpl.
      rewrite Hadd, decide_True by done.
      by destruct (vschemapb.Tables src !! t).
  - injection Hrun as <- <-. simpl. repeat split; try done.
    + intros t Ht. by rewrite Hadd, decide_False.
    + intros t Ht. by rewrite Hadd, decide_True.
Qed.

End AddTables.

Lemma addTablesToVSchema_tables_witness :
  let legacy := {| vschemapb.Sharded := false; vschemapb.Vindexes := ∅;
                   vschemapb.Tables := {[ "customer" := vschemapb.empty_Table ]} |} in
  let run := addTablesToVSchema "legacy" legacy ["customer"; "orders"] true Demo.fresh in
  ∃ v', run = (Ok v', Demo.fresh)
        ∧ vschemapb.Tables v' !! "orders" = Some vschemapb.empty_Table.
Proof.
  intros legacy run.
  exists (match run.1 with Ok v => v | Err _ => legacy end).
  split; [vm_compute; reflexivity|].
  assert ("orders" ∈ ["customer"; "orders"]) as Hin by (right; left).
  exact (proj2 (proj2 (proj2 (proj2
           (addTablesToVSchema_tables "legacy" legacy ["customer"; "orders"] true
              Demo.fresh (match run.1 with Ok v => v | Err _ => legacy end) run.2
              ltac:(vm_compute; reflexivity))))) "orders" Hin).
Defined.

(** ** The routing rules MoveTables saves *)

Lemma has_char_app c a b : has_char c (a +:+ b) = has_char c a || has_char c b.
Proof. induction a as [|x a IH]; simpl; [done|]. by rewrite IH, orb_assoc. Qed.

Lemma append_inj_r (a b c : string) : a +:+ b = a +:+ c → b = c.
Proof. induction a as [|x a IH]; simpl; [done|]. intros [= Heq]. by apply IH. Qed.

(** One table's step of the fold writes the table's keys and no other. *)
Lemma MoveTables_rules_step (sk tk : string) (rules : gmap string (list string))
    (table k : string) :
  MoveTables_rules sk tk [table] rules !! k
  = if decide (k ∈ MoveTables_rule_keys sk tk table)
    then Some [sk +:+ "." +:+ table] else rules !! k.
Proof.
  unfold MoveTables_rules, MoveTables_rule_keys. simpl.
  destruct (decide (k ∈ _)) as [Hin|Hnin].
  - rewrite !elem_of_cons in Hin.
    repeat match goal with
           | |- <[?i := _]> _ !! ?j = _ =>
               destruct (decide (i = j)) as [<-|?];
               [by rewrite lookup_insert_eq|rewrite lookup_insert_ne by done]
           end.
    rewrite elem_of_nil in Hin.
    repeat destruct Hin as [Hin|Hin]; try done; by subst.
  - rewrite !not_elem_of_cons in Hnin.
    rewrite !lookup_insert_ne; [done|..]; intros Heq; rewrite <- Heq in Hnin; tauto.
Qed.

Lemma MoveTables_rules_cons sk tk table tables rules :
  MoveTables_rules sk tk (table :: tables) rules
  = MoveTables_rules sk tk tables (MoveTables_rules sk tk [table] rules).
Proof. reflexivity. Qed.

(** Every rule after the fold is an old rule or sends to a moved table of
    the source keyspace. *)
Lemma MoveTables_rules_old_or_source sk tk tables rules k :
  MoveTables_rules sk tk tables rules !! k = rules !! k
  ∨ ∃ t, t ∈ tables
         ∧ MoveTables_rules sk tk tables rules !! k = Some [sk +:+ "." +:+ t].
Proof.
  revert rules. induction tables as [|t tables IH]; intros rules; [by left|].
  rewrite MoveTables_rules_cons.
  destruct (IH (MoveTables_rules sk tk [t] rules)) as [Hold|(t' & Ht' & Hnew)].
  - rewrite Hold, MoveTables_rules_step. destruct (decide _); [|by left].
    right. exists t. split; [left|done].
  - right. exists t'. split; [by right|done].
Qed.

Lemma MoveTables_rules_not_written sk tk tables rules k :
  (∀ t, t ∈ tables → k ∉ MoveTables_rule_keys sk tk t) →
  MoveTables_rules sk tk tables rules !! k = rules !! k.
Proof.
  revert rules. induction tables as [|t tables IH]; intros rules Hk; [done|].
  rewrite MoveTables_rules_cons, IH by (intros; apply Hk; by right).
  rewrite MoveTables_rules_step, decide_False; [done|]. apply Hk. left.
Qed.

(** The rule of a key is the rule of the one moved table that writes it. *)
Lemma MoveTables_rules_unique sk tk tables rules t k :
  t ∈ tables →
  k ∈ MoveTables_rule_keys sk tk t →
  (∀ t', t' ∈ tables → k ∈ MoveTables_rule_keys sk tk t' → t' = t) →
  MoveTables_rules sk tk tables rules !! k = Some [sk +:+ "." +:+ t].
Proof.
  intros Hin Hk. revert rules.
  induction tables as [|t0 tables IH]; intros rules Huniq;
    [by apply elem_of_nil in Hin|].
  rewrite MoveTables_rules_cons.
  destruct (decide (t ∈ tables)) as [Hrest|Hrest].
  - apply IH; [done|]. intros t' Ht'. apply Huniq. by right.
  - apply elem_of_cons in Hin as [->|Hin]; [|done].
    rewrite MoveTables_rules_not_written.
    + by rewrite MoveTables_rules_step, decide_True.
    + intros t' Ht' Hk'. apply Hrest. rewrite <- (Huniq t'); [done|by right|done].
Qed.

Lemma has_char_here c s : has_char c (String c s) = true.
Proof. simpl. by rewrite bool_decide_eq_true_2. Qed.

Lemma has_char_app_r c a b : has_char c b = true → has_char c (a +:+ b) = true.
Proof. intros Hb. by rewrite has_char_app, Hb, orb_true_r. Qed.

Lemma has_char_dot_qualified a b : has_char "." (a +:+ "." +:+ b) = true.
Proof. apply has_char_app_r, has_char_here. Qed.

Lemma has_char_at_suffix a b : has_char "@" (a +:+ String "@" b) = true.
Proof. apply has_char_app_r, has_char_here. Qed.

Lemma has_char_at_qualified_suffix a b c :
  has_char "@" (a +:+ "." +:+ b +:+ String "@" c) = true.
Proof. do 2 apply has_char_app_r. apply has_char_at_suffix. Qed.

Lemma plain_name_qualified a b :
  plain_name a → plain_name b → has_char "@" (a +:+ "." +:+ b) = false.
Proof. intros [_ Ha] [_ Hb]. rewrite !has_char_app, Ha, Hb. done. Qed.

(** A plain table name is written as a key by that table only. *)
Lemma MoveTables_rule_keys_bare sk tk t t' :
  plain_name t → t ∈ MoveTables_rule_keys sk tk t' → t' = t.
Proof.
  intros [Hdot Hat]. unfold MoveTables_rule_keys. rewrite !elem_of_cons, elem_of_nil.
  intros [->|[->|[->|[->|[->|[->|[->|[->|[]]]]]]]]]; try done.
  all: first [ by rewrite has_char_at_suffix in Hat
             | by rewrite has_char_dot_qualified in Hdot ].
Qed.

(** So is a plain name qualified by a plain target keyspace, among plain
    table names. *)
Lemma MoveTables_rule_keys_qualified sk tk t t' :
  plain_name tk → plain_name t → plain_name t' →
  tk +:+ "." +:+ t ∈ MoveTables_rule_keys sk tk t' → t' = t.
Proof.
  intros Htk Ht [Hdot' Hat'].
  pose proof (plain_name_qualified tk t Htk Ht) as Hnoat.
  unfold MoveTables_rule_keys. rewrite !elem_of_cons, elem_of_nil.
  intros [Heq|[Heq|[Heq|[Heq|[Heq|[Heq|[Heq|[Heq|[]]]]]]]]].
  - by rewrite <- Heq, has_char_dot_qualified in Hdot'.
  - by rewrite Heq, has_char_at_suffix in Hnoat.
  - by rewrite Heq, has_char_at_suffix in Hnoat.
  - symmetry. by do 2 apply append_inj_r in Heq.
  - do 2 apply append_inj_r in Heq. destruct Ht as [_ Hat].
    by rewrite Heq, has_char_at_suffix in Hat.
  - do 2 apply append_inj_r in Heq. destruct Ht as [_ Hat].
    by rewrite Heq, has_char_at_suffix in Hat.
  - by rewrite Heq, has_char_at_qualified_suffix in Hnoat.
  - by rewrite Heq, has_char_at_qualified_suffix in Hnoat.
Qed.

Section RoutingRules.
Context `{Env}.

Lemma MoveTables_settings_tables workflow sourceKeyspace targetKeyspace cell tabletTypes
    stopAfterCopy externalCluster dropForeignKeys sourceTimeZone sourceShards tables :
  map TargetTable
    (TableSettings (MoveTables_settings workflow sourceKeyspace targetKeyspace cell
                      tabletTypes stopAfterCopy externalCluster dropForeignKeys
                      sourceTimeZone sourceShards tables))
  = tables.
Proof.
  unfold MoveTables_settings. destruct (str_eqb sourceTimeZone _); simpl;
    rewrite map_map; simpl; apply map_id.
Qed.

(** Without an external cluster, a successful plan leaves in the topology
    the old routing rules with the rules of the moved tables written over
    them. *)
Lemma MoveTables_plan_routing_rules workflow sourceKeyspace targetKeyspace tableSpecs cell
    tabletTypes allTables excludeTables stopAfterCopy dropForeignKeys sourceTimeZone
    shards w ms w' :
  MoveTables_plan workflow sourceKeyspace targetKeyspace tableSpecs cell tabletTypes
    allTables excludeTables stopAfterCopy EmptyString dropForeignKeys sourceTimeZone
    shards w = (Ok ms, w') →
  routing_rules (ts w')
  = MoveTables_rules sourceKeyspace targetKeyspace (map TargetTable (TableSettings ms))
      (routing_rules (ts w)).
Proof.
  unfold MoveTables_plan. simpl. intros Hrun.
  apply M_bind_Ok in Hrun as ([] & w1 & [= <-] & Hrun).
  apply M_bind_Ok in Hrun as (vschema & w1 & Hvs & Hrun).
  assert (w1 = w) as -> by (symmetry; by eapply (steps_GetVSchema eq)).
  apply M_bind_Ok in Hrun as ([tables vschema'] & w1 & Htables & Hrun).
  assert (w1 = w) as -> by (symmetry; by eapply (steps_MoveTables_tables eq)).
  apply M_bind_Ok in Hrun as ([] & w1 & Hsave & Hrun).
  apply M_bind_Ok in Hrun as ([] & w2 & [= <-] & Hrun).
  injection Hrun as <- <-. rewrite MoveTables_settings_tables.
  apply M_bind_Ok in Hsave as (rules & w3 & [= <- <-] & Hsave).
  apply M_bind_Ok in Hsave as ([] & w3 & [= <-] & [= <-]). done.
Qed.

(** X4: after the plan of a MoveTables without external cluster, every
    moved table is routed to the source keyspace, whether it is addressed by
    its bare name or through the target keyspace (for a target keyspace and
    table names without dot and at sign); and every routing rule in the
    topology is an old rule, unchanged, or sends to a moved table in the
    source keyspace: no rule is removed and none points at the target. *)
Theorem MoveTables_routes_to_source (workflow sourceKeyspace targetKeyspace tableSpecs
    cell tabletTypes : string) (allTables : bool) (excludeTables : string)
    (stopAfterCopy dropForeignKeys : bool) (sourceTimeZone : string)
    (shards : list string) (w : World) (ms : MaterializeSettings) (w' : World) :
  MoveTables_plan workflow sourceKeyspace targetKeyspace tableSpecs cell tabletTypes
    allTables excludeTables stopAfterCopy EmptyString dropForeignKeys sourceTimeZone
    shards w = (Ok ms, w') →
  plain_name targetKeyspace →
  Forall plain_name (map TargetTable (TableSettings ms)) →
  (∀ t, t ∈ map TargetTable (TableSettings ms) →
        routing_rules (ts w') !! t = Some [sourceKeyspace +:+ "." +:+ t]
        ∧ routing_rules (ts w') !! (targetKeyspace +:+ "." +:+ t)
          = Some [sourceKeyspace +:+ "." +:+ t])
  ∧ (∀ k, routing_rules (ts w') !! k = routing_rules (ts w) !! k
          ∨ ∃ t, t ∈ map TargetTable (TableSettings ms)
                 ∧ routing_rules (ts w') !! k = Some [sourceKeyspace +:+ "." +:+ t]).
Proof.
  intros Hplan Htk Hplain. rewrite (MoveTables_plan_routing_rules _ _ _ _ _ _ _ _ _ _ _ _ _ _ _ Hplan).
  rewrite Forall_forall in Hplain.
  split; [|intros k; apply MoveTables_rules_old_or_source].
  intros t Ht. split.
  - apply MoveTables_rules_unique; [done| |].
    + unfold MoveTables_rule_keys. left.
    + intros t' _ Hk. eapply MoveTables_rule_keys_bare; [|done]. by apply Hplain.
  - apply MoveTables_rules_unique; [done| |].
    + unfold MoveTables_rule_keys. do 3 right. left.
    + intros t' Ht' Hk. eapply MoveTables_rule_keys_qualified; [done| | |done]; by apply Hplain.
Qed.

End RoutingRules.

Lemma MoveTables_routes_to_source_witness :
  let plan := MoveTables_plan (H := Demo.env) "movecust" "legacy" "sales" "customer"
                "zone1" "primary" false EmptyString false EmptyString false EmptyString []
                Demo.fresh in
  routing_rules (ts plan.2) !! "customer" = Some ["legacy.customer"]
  ∧ routing_rules (ts plan.2) !! "sales.customer" = Some ["legacy.customer"].
Proof.
  intros plan.
  assert ("customer" ∈ map TargetTable (TableSettings (ms Demo.movecust_mz))) as Hin
    by (vm_compute; left).
  exact (proj1 (MoveTables_routes_to_source (H := Demo.env) "movecust" "legacy" "sales"
                  "customer" "zone1" "primary" false EmptyString false false EmptyString []
                  Demo.fresh (ms Demo.movecust_mz) plan.2
                  ltac:(vm_compute; reflexivity)
                  ltac:(split; reflexivity)
                  ltac:(repeat constructor))
           "customer" Hin).
Defined.

(** ** What the engine leaves in the topology *)

Global Instance same_topo_preorder : PreOrder same_topo.
Proof.
  split.
  - by intros w.
  - intros w1 w2 w3 [? ?] [? ?]. split; congruence.
Qed.

Section Topology.
Context `{Env}.

Lemma steps_topo_VReplicationExec ti q : steps same_topo (tmc_VReplicationExec ti q).
Proof. apply steps_tmc_VReplicationExec; [apply _|done|done]. Qed.

Lemma steps_topo_ApplySchema ti change : steps same_topo (tmc_ApplySchema ti change).
Proof. apply steps_tmc_ApplySchema; [apply _|done|done]. Qed.

Lemma steps_topo_assign_sourceTs c : steps same_topo (assign_sourceTs c).
Proof. by apply steps_assign_sourceTs. Qed.

Lemma steps_topo_RebuildSrvVSchema : steps same_topo RebuildSrvVSchema.
Proof. by apply steps_RebuildSrvVSchema. Qed.

Local Hint Resolve steps_topo_VReplicationExec steps_topo_ApplySchema
  steps_topo_assign_sourceTs steps_topo_RebuildSrvVSchema : steps.

Lemma steps_topo_prepareMaterializerStreams ms0 :
  steps same_topo (prepareMaterializerStreams ms0).
Proof.
  unfold prepareMaterializerStreams, validateNewWorkflow, buildMaterializer,
    deploySchema, deploySchema_target, createStreams.
  steps_tac.
Qed.

Lemma steps_topo_startStreams mz : steps same_topo (startStreams mz).
Proof. unfold startStreams. steps_tac. Qed.

(** X5: [Materialize] never writes to the topology: whatever
    the settings and however it ends, the routing rules, the vschemas and the
    shard and tablet records are what they were. *)
Theorem Materialize_keeps_topology (ms0 : MaterializeSettings) :
  steps same_topo (Materialize ms0).
Proof.
  unfold Materialize.
  apply steps_bind; [apply _|apply steps_topo_prepareMaterializerStreams|].
  intros mz. apply steps_topo_startStreams.
Qed.

Lemma Materialize_topo_run ms0 w r w' :
  Materialize ms0 w = (r, w') → same_topo w w'.
Proof.
  unfold Materialize.
  apply (steps_bind same_topo); [apply steps_topo_prepareMaterializerStreams|].
  intros mz. apply steps_topo_startStreams.
Qed.

Lemma steps_topo_MoveTables_streams ms0 autoStart :
  steps same_topo (MoveTables_streams ms0 autoStart).
Proof.
  unfold MoveTables_streams.
  apply steps_bind; [apply _|apply steps_topo_prepareMaterializerStreams|]. intros mz.
  unfold checkTZConversion, collectTargetStreams, checkIfPreviousJournalExists,
    startStreams.
  steps_tac.
Qed.

(** X6: a [MoveTables] whose source is an external cluster
    saves no routing rule and no vschema, however it ends: the routing rules,
    the vschemas and the shard and tablet records are what they were (it
    only has the serving vschema rebuilt). *)
Theorem MoveTables_external_keeps_topology (workflow sourceKeyspace targetKeyspace
    tableSpecs cell tabletTypes : string) (allTables : bool) (excludeTables : string)
    (autoStart stopAfterCopy : bool) (externalCluster : string)
    (dropForeignKeys : bool) (sourceTimeZone : string) (shards : list string) :
  externalCluster ≠ EmptyString →
  steps same_topo
    (MoveTables workflow sourceKeyspace targetKeyspace tableSpecs cell tabletTypes
       allTables excludeTables autoStart stopAfterCopy externalCluster dropForeignKeys
       sourceTimeZone shards).
Proof.
  intros Hext. unfold MoveTables.
  apply steps_bind; [apply _| |intros ms0; apply steps_topo_MoveTables_streams].
  unfold MoveTables_plan. unfold str_eqb at 1 2.
  rewrite !bool_decide_eq_false_2 by done.
  pose proof (steps_MoveTables_tables same_topo).
  steps_tac.
Qed.

End Topology.

Lemma MoveTables_external_keeps_topology_witness :
  steps same_topo
    (MoveTables (H := Demo.env) "import" "legacy" "sales" "customer" "zone1" "primary"
       false EmptyString true false "ext1" false EmptyString []).
Proof.
  apply (MoveTables_external_keeps_topology (H := Demo.env) "import" "legacy" "sales"
           "customer" "zone1" "primary" false EmptyString true false "ext1" false
           EmptyString []).
  discriminate.
Defined.

(** ** Failures of ExternalizeVindex and CreateLookupVindex *)

Lemma M_bind_Err {A B} (m : M A) (k : A → M B) w e w' :
  (m ≫= k) w = (Err e, w') →
  m w = (Err e, w') ∨ ∃ a w1, m w = (Ok a, w1) ∧ k a w1 = (Err e, w').
Proof.
  rewrite M_bind_run. destruct (m w) as [[a|e0] w1].
  - intros Hk. right. by exists a, w1.
  - intros [= -> ->]. by left.
Qed.

Section Failures.
Context `{Env}.

Lemma steps_topo_ExternalizeVindex_verify v wf si :
  steps same_topo (ExternalizeVindex_verify v wf si).
Proof. unfold ExternalizeVindex_verify. steps_tac. apply steps_topo_VReplicationExec. Qed.

Lemma steps_topo_ExternalizeVindex_delete wf si :
  steps same_topo (ExternalizeVindex_delete wf si).
Proof. unfold ExternalizeVindex_delete. steps_tac. apply steps_topo_VReplicationExec. Qed.

(** X7: whenever [ExternalizeVindex] fails, for whatever
    reason (a malformed name, an unknown vindex, an unreadable backing table
    parameter, a stream in the wrong state, an unreachable tablet), the
    topology is what it was: the vindex keeps its [write_only] parameter. *)
Theorem ExternalizeVindex_failure_keeps_topology (qualifiedVindexName : string)
    (w : World) (e : Error) (w' : World) :
  ExternalizeVindex qualifiedVindexName w = (Err e, w') → same_topo w w'.
Proof.
  unfold ExternalizeVindex.
  destruct (Go.Split qualifiedVindexName ".") as [|sk [|name [|? ?]]];
    try (intros [= _ <-]; reflexivity).
  intros Hrun.
  apply M_bind_Err in Hrun as [Hrun|(vschema & w1 & Hvs & Hrun)];
    [by eapply (steps_GetVSchema same_topo)|].
  apply (steps_GetVSchema same_topo) in Hvs. etrans; [exact Hvs|]. clear Hvs.
  destruct (vschemapb.Vindexes vschema !! name) as [sourceVindex|];
    [|injection Hrun as _ <-; reflexivity].
  destruct (sqlparser_ParseTable _) as [[tk tt]|];
    [|injection Hrun as _ <-; reflexivity].
  destruct (str_eqb tk _); [injection Hrun as _ <-; reflexivity|].
  apply M_bind_Err in Hrun as [Hrun|(targets & w2 & Hshards & Hrun)];
    [by eapply (steps_GetServingShards same_topo)|].
  apply (steps_GetServingShards same_topo) in Hshards. etrans; [exact Hshards|].
  clear Hshards.
  apply M_bind_Err in Hrun as [Hrun|([] & w3 & Hverify & Hrun)].
  { eapply (steps_fanOut same_topo); [|exact Hrun].
    intros. apply steps_topo_ExternalizeVindex_verify. }
  eapply (steps_fanOut same_topo) in Hverify;
    [|intros; apply steps_topo_ExternalizeVindex_verify].
  etrans; [exact Hverify|]. clear Hverify.
  apply M_bind_Err in Hrun as [Hrun|([] & w4 & Hdelete & Hrun)].
  { destruct (str_eqb _ _); [discriminate|].
    eapply (steps_fanOut same_topo); [|exact Hrun].
    intros. apply steps_topo_ExternalizeVindex_delete. }
  apply M_bind_Err in Hrun as [Hrun|([] & w5 & Hsave & Hrun)]; discriminate.
Qed.

Lemma prepareCreateLookup_validate_write_only specs i :
  prepareCreateLookup_validate specs = Ok i →
  vschemapb.Params (vindex i) !! "write_only" = Some "true".
Proof.
  unfold prepareCreateLookup_validate.
  destruct (map_to_list _) as [|[name v] [|]]; try discriminate.
  destruct (negb _); [discriminate|].
  destruct (sqlparser_ParseTable _) as [[tk tt]|]; [|discriminate].
  destruct (str_eqb tk _); [discriminate|].
  intros Hi. result_inv Hi.
  repeat match type of Hi with
  | match ?x with _ => _ end = Ok _ => destruct x; try discriminate Hi
  | (if ?x then _ else _) = Ok _ => destruct x; try discriminate Hi
  | (_ ≫= _) = Ok _ => result_inv Hi
  | Ok _ = Ok _ => injection Hi as <-
  end; simpl; apply lookup_insert_eq.
Qed.



End Failures.

Lemma ExternalizeVindex_failure_keeps_topology_witness :
  let w := Demo.backfilling "Running" EmptyString in
  ∃ e, (ExternalizeVindex (H := Demo.env) "main.email_vdx" w).1 = Err e
       ∧ same_topo w (ExternalizeVindex (H := Demo.env) "main.email_vdx" w).2.
Proof.
  intros w.
  destruct (ExternalizeVindex (H := Demo.env) "main.email_vdx" w) as [[[]|e] w'] eqn:Hrun;
    [vm_compute in Hrun; discriminate|].
  exists e. split; [reflexivity|].
  exact (ExternalizeVindex_failure_keeps_topology (H := Demo.env) "main.email_vdx" w e w' Hrun).
Defined.



(** On the demo cluster, with a parser that does not take the backfill
    query, the run fails after the vschema of [lookupks] has been saved with
    the lookup table, and the vschema of [main] is as before. *)
Example CreateLookupVindex_fails_after_target_save :
  let run := CreateLookupVindex (H := Demo.env) "main" LookupDemo.specs "zone1" "primary"
               false LookupDemo.ready in
  run.1 = Err (Errorf "syntax error" [])
  ∧ vschemas (ts run.2) !! "main" = vschemas (ts LookupDemo.ready) !! "main"
  ∧ (vschemas (ts run.2) !! "lookupks" ≫= λ v, vschemapb.Tables v !! "email_lookup")
    = Some vschemapb.empty_Table.
Proof. vm_compute. repeat split. Qed.

(** ** Further properties of generateInserts *)

Section MoreInserts.
Context `{Env}.

Lemma generateInserts_sources_all mz targetShard sources ig ig' :
  MaterializationIntent_ (ms mz) ≠ MOVETABLES →
  generateInserts_sources mz targetShard sources ig = Ok ig' →
  map (λ r, binlogdatapb.Shard (source r)) (ig_rows ig')
  = map (λ r, binlogdatapb.Shard (source r)) (ig_rows ig) ++ map topo.ShardName sources.
Proof.
  intros Hintent. revert ig.
  induction sources as [|s sources IH]; simpl; intros ig Hgen.
  - inversion Hgen. by rewrite app_nil_r.
  - rewrite bool_decide_eq_false_2 in Hgen by done. simpl in Hgen.
    result_inv Hgen. apply IH in Hgen. rewrite Hgen. simpl.
    rewrite map_app. simpl. by rewrite <- app_assoc.
Qed.

(** X10: for a workflow that is not a MoveTables (a Materialize or
    a lookup-vindex backfill), the rows generated for a target shard are, in
    order, one per source shard, whatever the key ranges: no source shard is
    skipped. *)
Theorem generateInserts_every_source_shard (mz : materializer)
    (targetShard : topo.ShardInfo) (rows : list VRow) :
  MaterializationIntent_ (ms mz) ≠ MOVETABLES →
  generateInserts mz targetShard = Ok rows →
  map (λ r, binlogdatapb.Shard (source r)) rows = map topo.ShardName (sourceShards mz).
Proof.
  intros Hintent Hgen. unfold generateInserts in Hgen. result_inv Hgen. subst.
  by rewrite (generateInserts_sources_all _ _ _ _ _ Hintent Ha).
Qed.

(** X11: the filter rule of a table setting always matches the
    target table; and when the source query is empty, or the target keyspace
    is not sharded, or the target table is a reference table, the rule's
    filter is the source query as given: no range predicate is added. *)
Theorem generateInserts_rule_unfiltered (mz : materializer)
    (ts : TableMaterializeSettings) (rule : binlogdatapb.Rule) :
  generateInserts_rule mz ts = Ok rule →
  binlogdatapb.Match rule = TargetTable ts
  ∧ (SourceExpression ts = EmptyString
     ∨ vindexes.Keyspace_Sharded (targetVSchema mz) = false
     ∨ (∃ table, vindexes.Tables (targetVSchema mz) !! TargetTable ts = Some table
                 ∧ vindexes.Type_ table = vindexes.TypeReference) →
     binlogdatapb.Filter rule = SourceExpression ts).
Proof.
  unfold generateInserts_rule, str_eqb. intros Hrule.
  destruct (decide (SourceExpression ts = EmptyString)) as [Hempty|Hne].
  { rewrite bool_decide_eq_true_2 in Hrule by done. injection Hrule as <-.
    simpl. by rewrite Hempty. }
  rewrite bool_decide_eq_false_2 in Hrule by done.
  result_inv Hrule. destruct a as [sel|other]; try discriminate.
  result_inv Hrule. subst. simpl. split; [done|].
  intros [?|[Hunsharded|(table & Htable & Href)]]; [done| |].
  - rewrite Hunsharded in Ha0. by injection Ha0 as <-.
  - destruct (vindexes.Keyspace_Sharded _); [|by injection Ha0 as <-].
    rewrite Htable, Href in Ha0. rewrite bool_decide_eq_true_2 in Ha0 by done.
    by injection Ha0 as <-.
Qed.

End MoreInserts.

Lemma generateInserts_every_source_shard_witness :
  ∃ rows,
    generateInserts (H := LookupDemo.env) LookupDemo.rollup_mz Demo.lookup_shard = Ok rows
    ∧ map (λ r, binlogdatapb.Shard (source r)) rows = ["-80"; "80-"].
Proof.
  eexists. split; [vm_compute; reflexivity|].
  apply (generateInserts_every_source_shard (H := LookupDemo.env) LookupDemo.rollup_mz
           Demo.lookup_shard); [discriminate | vm_compute; reflexivity].
Defined.

Lemma generateInserts_rule_unfiltered_witness :
  ∃ rule,
    generateInserts_rule (H := LookupDemo.env) LookupDemo.rollup_mz
      {| TargetTable := "customer_count";
         SourceExpression := "select count(*) as n from customer";
         CreateDdl := EmptyString |} = Ok rule
    ∧ binlogdatapb.Match rule = "customer_count"
    ∧ binlogdatapb.Filter rule = "select count(*) as n from customer".
Proof.
  eexists. split; [vm_compute; reflexivity|].
  pose proof (generateInserts_rule_unfiltered (H := LookupDemo.env) LookupDemo.rollup_mz
                {| TargetTable := "customer_count";
                   SourceExpression := "select count(*) as n from customer";
                   CreateDdl := EmptyString |} _ eq_refl) as [Hmatch Hfilter].
  split; [exact Hmatch|]. apply Hfilter. right. left. reflexivity.
Defined.

(** ** The materializer buildMaterializer builds *)

Lemma forEach_Ok_each {A B} (f : A → result B) (l : list A) (bs : list B) :
  forEach f l = Ok bs → ∀ a, a ∈ l → ∃ b, f a = Ok b.
Proof.
  intros Hall%forEach_Ok a Ha. induction Hall as [|a0 b0 l bs Hab Hall IH].
  - by apply elem_of_nil in Ha.
  - apply elem_of_cons in Ha as [->|Ha]; [by exists b0|by apply IH].
Qed.

Section BuildMaterializer.
Context `{Env}.

Lemma steps_buildMaterializer (R : relation World) `{!PreOrder R} ms0 :
  steps R (buildMaterializer ms0).
Proof. unfold buildMaterializer. steps_tac. Qed.

Lemma shards_named_filter names (shards : list topo.ShardInfo) :
  (match names with [] => shards | _ => shards_named names shards end)
  = filter (λ s, names = [] ∨ topo.ShardName s ∈ names) shards.
Proof.
  destruct names as [|n names].
  - symmetry. induction shards as [|s shards IH]; [done|].
    rewrite filter_cons_True by (by left). by rewrite IH.
  - unfold shards_named. apply list_filter_iff. intros s. split; [by right|].
    by intros [?|?].
Qed.

(** X12: a materializer is built without any change to the world,
    for the settings given, from the serving shards of the source keyspace
    (as the source topology has them) and of the target keyspace.  When the
    settings name source shards, both lists are narrowed to the shards with
    one of these names, in the topology's order, and the workflow is partial;
    otherwise all serving shards are taken.  Neither list is empty. *)
Theorem buildMaterializer_shards (ms0 : MaterializeSettings) (w : World)
    (mz : materializer) (w' : World) :
  buildMaterializer ms0 w = (Ok mz, w') →
  w' = w
  ∧ ms mz = ms0
  ∧ isPartial mz = bool_decide (SourceShards ms0 ≠ [])
  ∧ sourceShards mz ≠ [] ∧ targetShards mz ≠ []
  ∧ ∃ allSources allTargets,
      GetServingShards true (SourceKeyspace ms0) w = (Ok allSources, w)
      ∧ GetServingShards false (TargetKeyspace ms0) w = (Ok allTargets, w)
      ∧ sourceShards mz
        = filter (λ s, SourceShards ms0 = [] ∨ topo.ShardName s ∈ SourceShards ms0)
                 allSources
      ∧ targetShards mz
        = filter (λ s, SourceShards ms0 = [] ∨ topo.ShardName s ∈ SourceShards ms0)
                 allTargets.
Proof.
  intros Hrun.
  assert (w' = w) as -> by (symmetry; by eapply (steps_buildMaterializer eq)).
  split; [done|].
  unfold buildMaterializer in Hrun.
  apply M_bind_Ok in Hrun as (vschema & w1 & Hvs & Hrun).
  assert (w1 = w) as -> by (symmetry; by eapply (steps_GetVSchema eq)).
  apply M_bind_Ok in Hrun as (tvs & w1 & [= _ <-] & Hrun).
  apply M_bind_Ok in Hrun as ([] & w1 & Htables & Hrun).
  assert (w1 = w) as ->.
  { destruct (vindexes.Keyspace_Sharded tvs); [|by injection Htables as <-].
    apply M_bind_Ok in Htables as (? & ? & [= _ <-] & [= <-]). done. }
  apply M_bind_Ok in Hrun as (allSources & w1 & Hsources & Hrun).
  assert (w1 = w) as -> by (symmetry; by eapply (steps_GetServingShards eq)).
  destruct (SourceShards ms0) as [|n names] eqn:Hnames.
  - apply M_bind_Ok in Hrun as ([] & w1 & Hne & Hrun).
    destruct allSources as [|s0 rest]; [discriminate|]. injection Hne as <-.
    apply M_bind_Ok in Hrun as (allTargets & w1 & Htargets & Hrun).
    assert (w1 = w) as -> by (symmetry; by eapply (steps_GetServingShards eq)).
    apply M_bind_Ok in Hrun as ([] & w1 & Hne & Hrun).
    destruct allTargets as [|t0 rest']; [discriminate|].
    injection Hrun as <- _. simpl.
    repeat split; try done.
    exists (s0 :: rest), (t0 :: rest'). repeat split; try done.
    + exact (shards_named_filter [] (s0 :: rest)).
    + exact (shards_named_filter [] (t0 :: rest')).
  - apply M_bind_Ok in Hrun as ([] & w1 & Hne & Hrun).
    destruct (shards_named (n :: names) allSources) as [|s0 rest] eqn:Hsel;
      [discriminate|]. injection Hne as <-.
    apply M_bind_Ok in Hrun as (allTargets & w1 & Htargets & Hrun).
    assert (w1 = w) as -> by (symmetry; by eapply (steps_GetServingShards eq)).
    apply M_bind_Ok in Hrun as ([] & w1 & Hne & Hrun).
    destruct (shards_named (n :: names) allTargets) as [|t0 rest'] eqn:Hsel';
      [discriminate|].
    injection Hrun as <- _. simpl.
    repeat split; try done.
    exists allSources, allTargets. repeat split; try done.
    + rewrite <- Hsel. exact (shards_named_filter (n :: names) allSources).
    + rewrite <- Hsel'. exact (shards_named_filter (n :: names) allTargets).
Qed.

(** X13: when the target keyspace is sharded, every target table
    of the settings of a built materializer is a table of the target
    vschema, so that the lookup of the table in [generateInserts] always
    finds one. *)
Theorem buildMaterializer_target_tables_known (ms0 : MaterializeSettings) (w : World)
    (mz : materializer) (w' : World) :
  buildMaterializer ms0 w = (Ok mz, w') →
  vindexes.Keyspace_Sharded (targetVSchema mz) = true →
  ∀ ts, ts ∈ TableSettings (ms mz) →
        is_Some (vindexes.Tables (targetVSchema mz) !! TargetTable ts).
Proof.
  intros Hrun. unfold buildMaterializer in Hrun.
  apply M_bind_Ok in Hrun as (vschema & w1 & Hvs & Hrun).
  apply M_bind_Ok in Hrun as (tvs & w2 & Htvs & Hrun).
  apply M_bind_Ok in Hrun as ([] & w3 & Htables & Hrun).
  assert (targetVSchema mz = tvs ∧ ms mz = ms0) as [-> ->].
  { monad_inv Hrun. destruct (SourceShards ms0); monad_inv Hrun;
      by injection Hrun as <- _. }
  intros Hsharded ts Hts. rewrite Hsharded in Htables.
  apply M_bind_Ok in Htables as (units & w4 & Hall & _).
  unfold lift in Hall. injection Hall as Hall _.
  destruct (forEach_Ok_each _ _ _ Hall ts Hts) as [[] Hfound].
  by destruct (vindexes.Tables tvs !! TargetTable ts).
Qed.

End BuildMaterializer.

Lemma buildMaterializer_shards_witness :
  buildMaterializer (H := Demo.env) (ms Demo.movecust_mz) Demo.fresh
    = (Ok Demo.movecust_mz, Demo.fresh)
  ∧ isPartial Demo.movecust_mz = bool_decide (SourceShards (ms Demo.movecust_mz) ≠ [])
  ∧ sourceShards Demo.movecust_mz ≠ [] ∧ targetShards Demo.movecust_mz ≠ [].
Proof.
  assert (buildMaterializer (H := Demo.env) (ms Demo.movecust_mz) Demo.fresh
          = (Ok Demo.movecust_mz, Demo.fresh)) as Hrun by (vm_compute; reflexivity).
  split; [exact Hrun|].
  destruct (buildMaterializer_shards (H := Demo.env) (ms Demo.movecust_mz) Demo.fresh
              Demo.movecust_mz Demo.fresh Hrun) as (_ & _ & Hpartial & Hs & Ht & _).
  exact (conj Hpartial (conj Hs Ht)).
Defined.

Lemma buildMaterializer_target_tables_known_witness :
  is_Some (vindexes.Tables (targetVSchema Demo.movecust_mz) !! "customer").
Proof.
  assert ({| TargetTable := "customer"; SourceExpression := "select * from customer";
             CreateDdl := "copy" |} ∈ TableSettings (ms Demo.movecust_mz)) as Hin
    by (vm_compute; left).
  exact (buildMaterializer_target_tables_known (H := Demo.env) (ms Demo.movecust_mz)
           Demo.fresh Demo.movecust_mz Demo.fresh
           ltac:(vm_compute; reflexivity) eq_refl _ Hin).
Defined.

(** ** matchColInSelect *)

(** X14: when [matchColInSelect] finds a column for [col], either the
    select list has a star and the answer is the unqualified column [col]
    itself, or the answer is a column of the select list that is named [col]
    and has no alias, or that is aliased [col] (names compared as identifiers,
    case-insensitively).  It never answers with a column that the select list
    does not provide; for an empty select list it fails. *)
Theorem matchColInSelect_sound (col : sqlparser.IdentifierCI) (sel : sqlparser.Select)
    (c : sqlparser.ColName) :
  matchColInSelect col sel = Ok c →
  (sqlparser.StarExpr ∈ sqlparser.SelectExprs sel
   ∧ c = {| sqlparser.Qualifier := EmptyString; sqlparser.Name := col |})
  ∨ ∃ As,
      sqlparser.AliasedExpr (sqlparser.ColExpr c) As ∈ sqlparser.SelectExprs sel
      ∧ sqlparser.IdentifierCI_Equal
          (if sqlparser.IdentifierCI_IsEmpty As then sqlparser.Name c else As) col = true.
Proof.
  unfold matchColInSelect. generalize (sqlparser.SelectExprs sel) as exprs.
  induction exprs as [|e exprs IH]; [discriminate|].
  destruct e as [|e As|]; [| |discriminate].
  - intros [= <-]. left. split; [left|done].
  - destruct (sqlparser.IdentifierCI_IsEmpty As) eqn:Hempty.
    + destruct e as [colExpr| | | |];
        try (intros Hrest; destruct (IH Hrest) as [[? ?]|(As' & ? & ?)];
             [left; split; [by right|done]|right; exists As'; split; [by right|done]]).
      destruct (sqlparser.IdentifierCI_Equal (sqlparser.Name colExpr) col) eqn:Heq.
      * intros [= <-]. right. exists As. split; [left|]. by rewrite Hempty.
      * intros Hrest; destruct (IH Hrest) as [[? ?]|(As' & ? & ?)];
          [left; split; [by right|done]|right; exists As'; split; [by right|done]].
    + destruct (sqlparser.IdentifierCI_Equal As col) eqn:Heq.
      * destruct e as [colExpr| | | |]; try discriminate.
        intros [= <-]. right. exists As. split; [left|]. by rewrite Hempty.
      * intros Hrest; destruct (IH Hrest) as [[? ?]|(As' & ? & ?)];
          [left; split; [by right|done]|right; exists As'; split; [by right|done]].
Qed.

Lemma matchColInSelect_sound_witness :
  let sel := {| sqlparser.SelectExprs :=
                  [sqlparser.AliasedExpr (sqlparser.Literal "1") "one";
                   sqlparser.AliasedExpr
                     (sqlparser.ColExpr {| sqlparser.Qualifier := "u";
                                           sqlparser.Name := "Email" |}) EmptyString];
                sqlparser.From := "users u"; sqlparser.Where := None;
                sqlparser.Rest := EmptyString |} in
  matchColInSelect "email" sel
    = Ok {| sqlparser.Qualifier := "u"; sqlparser.Name := "Email" |}
  ∧ ((sqlparser.StarExpr ∈ sqlparser.SelectExprs sel
      ∧ {| sqlparser.Qualifier := "u"; sqlparser.Name := "Email" |}
        = {| sqlparser.Qualifier := EmptyString; sqlparser.Name := "email" |})
     ∨ ∃ As,
         sqlparser.AliasedExpr
           (sqlparser.ColExpr {| sqlparser.Qualifier := "u"; sqlparser.Name := "Email" |})
           As ∈ sqlparser.SelectExprs sel
         ∧ sqlparser.IdentifierCI_Equal
             (if sqlparser.IdentifierCI_IsEmpty As then "Email" else As) "email" = true).
Proof.
  intros sel. split; [vm_compute; reflexivity|].
  apply (matchColInSelect_sound "email" sel). vm_compute. reflexivity.
Defined.

(** ** Further properties of the schema deployer *)

Section MoreDeploySchema.
Context `{Env}.

Lemma deploySchema_tables_all_present mz (has : gset string) settings cache acc :
  (∀ ts, ts ∈ settings → TargetTable ts ∈ has) →
  deploySchema_tables mz has settings cache acc = mret (cache, Ok acc).
Proof.
  induction settings as [|ts settings IH]; intros Hall; simpl; [done|].
  rewrite decide_True by (apply Hall; left).
  apply IH. intros; apply Hall; by right.
Qed.

Lemma deploySchema_tables_missing_ddl mz (has : gset string) settings ts0 :
  ts0 ∈ settings → TargetTable ts0 ∉ has → CreateDdl ts0 = EmptyString →
  ∀ cache acc w, ∃ cache' e,
    deploySchema_tables mz has settings cache acc w = (Ok (cache', Err e), w).
Proof.
  intros Hin Habsent Hddl.
  induction settings as [|ts settings IH]; [by apply elem_of_nil in Hin|].
  intros cache acc w. simpl.
  destruct (decide (TargetTable ts ∈ has)) as [Hhas|Hnhas].
  { apply IH. apply elem_of_cons in Hin as [->|Hin]; done. }
  destruct (str_eqb (CreateDdl ts) EmptyString) eqn:Hempty; [by eexists _, _|].
  assert (ts0 ∈ settings) as Hin'.
  { apply elem_of_cons in Hin as [->|Hin]; [|done].
    unfold str_eqb in Hempty. by rewrite bool_decide_eq_true_2 in Hempty. }
  rewrite M_bind_run.
  assert (∃ fetched,
             (if decide (size cache = 0%nat)
              then attempt (getSourceTableDDLs mz)
              else mret (Ok cache)) w = (Ok fetched, w)) as (fetched & ->).
  { destruct (decide _); [|by eexists].
    unfold attempt. destruct (getSourceTableDDLs mz w) as [r w1] eqn:Hget.
    apply (steps_getSourceTableDDLs eq) in Hget as <-. by eexists. }
  destruct fetched as [ddls|e]; [|by eexists _, _].
  destruct (resolveDDL ddls ts); [by apply IH|by eexists _, _].
Qed.

Lemma deploySchema_target_reached mz target sourceDDLs w alias primary t :
  topo.PrimaryAlias target = Some alias →
  tablet_records (ts w) !! alias = Some primary →
  tablet_states w !! topo.AliasString primary = Some t →
  deploySchema_target mz target sourceDDLs w
  = ('(sourceDDLs, r) ←
       deploySchema_tables mz (list_to_set (map tabletmanagerdatapb.td_Name (tables t)))
         (TableSettings (ms mz)) sourceDDLs [];
     match r with
     | Err err => mret (sourceDDLs, Some err)
     | Ok [] => mret (sourceDDLs, None)
     | Ok applyDDLs =>
         let sql := Go.Join applyDDLs (";" +:+ Go.newline) in
         r ← attempt (tmc_ApplySchema primary
                        {| tmutils.SQL := sql;
                           tmutils.Force := false;
                           tmutils.AllowReplication := true;
                           tmutils.SQLMode := vreplication_SQLMode |});
         mret (sourceDDLs, match r with Err err => Some err | Ok _ => None end)
     end) w.
Proof.
  intros Halias Hrec Ht. unfold deploySchema_target.
  rewrite M_bind_run. unfold attempt at 1, schematools_GetSchema.
  rewrite M_bind_run. unfold GetTablet at 1. simpl. rewrite Halias. simpl. rewrite Hrec.
  unfold tmc_GetSchema. rewrite M_bind_run. unfold reach. rewrite Ht. simpl.
  rewrite M_bind_run. unfold attempt at 1, GetTablet. simpl.
  rewrite Hrec. reflexivity.
Qed.

(** X15: on a shard whose primary already lists every target table
    of the settings, the deployer succeeds without doing anything: it sends
    no schema change, does not consult the source, and leaves the world and
    the cache of source DDLs as they are.  Deploying is thus idempotent. *)
Theorem deploySchema_target_nothing_to_create (mz : materializer)
    (target : topo.ShardInfo) (sourceDDLs : gmap string string) (w : World)
    (alias : string) (primary : topo.TabletInfo) (t : Tablet) :
  topo.PrimaryAlias target = Some alias →
  tablet_records (ts w) !! alias = Some primary →
  tablet_states w !! topo.AliasString primary = Some t →
  (∀ ts, ts ∈ TableSettings (ms mz) →
         TargetTable ts ∈ map tabletmanagerdatapb.td_Name (tables t)) →
  deploySchema_target mz target sourceDDLs w = (Ok (sourceDDLs, None), w).
Proof.
  intros Halias Hrec Ht Hall.
  rewrite (deploySchema_target_reached _ _ _ _ _ _ _ Halias Hrec Ht).
  rewrite M_bind_run, deploySchema_tables_all_present; [done|].
  intros ts Hts. apply elem_of_list_to_set. by apply Hall.
Qed.

(** X16: on a shard whose primary lacks a target table for
    which the settings give no CreateDdl, the deployer fails for that shard
    and applies nothing there, not even the DDL of the other tables the shard
    lacks: the world is unchanged. *)
Theorem deploySchema_target_missing_ddl (mz : materializer)
    (target : topo.ShardInfo) (sourceDDLs : gmap string string) (w : World)
    (alias : string) (primary : topo.TabletInfo) (t : Tablet)
    (ts0 : TableMaterializeSettings) :
  topo.PrimaryAlias target = Some alias →
  tablet_records (ts w) !! alias = Some primary →
  tablet_states w !! topo.AliasString primary = Some t →
  ts0 ∈ TableSettings (ms mz) →
  TargetTable ts0 ∉ map tabletmanagerdatapb.td_Name (tables t) →
  CreateDdl ts0 = EmptyString →
  ∃ cache e, deploySchema_target mz target sourceDDLs w = (Ok (cache, Some e), w).
Proof.
  intros Halias Hrec Ht Hin Habsent Hddl.
  rewrite (deploySchema_target_reached _ _ _ _ _ _ _ Halias Hrec Ht).
  rewrite M_bind_run.
  edestruct (deploySchema_tables_missing_ddl mz
               (list_to_set (map tabletmanagerdatapb.td_Name (tables t)))
               (TableSettings (ms mz)) ts0 Hin) as (cache & e & ->); [|done|].
  - by rewrite elem_of_list_to_set.
  - by exists cache, e.
Qed.

End MoreDeploySchema.

Lemma deploySchema_target_nothing_to_create_witness :
  let w := (deploySchema_target (H := Demo.env) Demo.movecust_mz Demo.sales_lo ∅
              Demo.fresh).2 in
  deploySchema_target (H := Demo.env) Demo.movecust_mz Demo.sales_lo ∅ w = (Ok (∅, None), w).
Proof.
  intros w.
  apply (deploySchema_target_nothing_to_create (H := Demo.env) Demo.movecust_mz
           Demo.sales_lo ∅ w "zone1-200"
           {| topo.AliasString := "zone1-200"; topo.DbName := "vt_sales" |}
           (set_tables Demo.empty_tablet
              [{| tabletmanagerdatapb.td_Name := "customer";
                  tabletmanagerdatapb.Schema :=
                    "create table customer (cid bigint, primary key (cid))";
                  tabletmanagerdatapb.Fields := [] |}]));
    [reflexivity | vm_compute; reflexivity | vm_compute; reflexivity |].
  intros ts Hts. vm_compute in Hts. apply list_elem_of_singleton in Hts as ->.
  vm_compute. left.
Defined.

Lemma deploySchema_target_missing_ddl_witness :
  let mz := {| ms := {| Workflow := "active"; SourceKeyspace := "legacy";
                        TargetKeyspace := "sales"; StopAfterCopy := false;
                        TableSettings := [Demo.customer_active];
                        Cell := "zone1"; TabletTypes := "primary";
                        ExternalCluster := EmptyString; MaterializationIntent_ := CUSTOM;
                        SourceTimeZone := EmptyString; TargetTimeZone := EmptyString;
                        SourceShards := [] |};
               targetVSchema := Demo.sales_schema;
               sourceShards := [Demo.legacy_0];
               targetShards := [Demo.sales_lo; Demo.sales_hi];
               isPartial := false |} in
  ∃ cache e,
    deploySchema_target (H := Demo.env) mz Demo.sales_lo ∅ Demo.fresh
    = (Ok (cache, Some e), Demo.fresh).
Proof.
  intros mz.
  apply (deploySchema_target_missing_ddl (H := Demo.env) mz Demo.sales_lo ∅ Demo.fresh
           "zone1-200" {| topo.AliasString := "zone1-200"; topo.DbName := "vt_sales" |}
           Demo.empty_tablet Demo.customer_active);
    [reflexivity | vm_compute; reflexivity | vm_compute; reflexivity | left
    | vm_compute; apply not_elem_of_nil | reflexivity].
Defined.

(** ** The checks between the creation and the start of the streams *)

Lemma fanOutErrors_all_Ok {A} (f : A → M unit) (l : list A) (w : World) :
  (∀ a, a ∈ l → f a w = (Ok (), w)) → fanOutErrors f l w = (Ok [], w).
Proof.
  induction l as [|a l IH]; intros Hall; simpl; [done|].
  rewrite M_bind_run. unfold attempt. rewrite (Hall a) by left.
  rewrite M_bind_run, IH; [done|]. intros; apply Hall; by right.
Qed.

Section Checks.
Context `{Env}.

Lemma steps_checkTZConversion (R : relation World) `{!PreOrder R} mz tz :
  steps R (checkTZConversion mz tz).
Proof. unfold checkTZConversion. steps_tac. Qed.

Lemma steps_checkIfPreviousJournalExists (R : relation World) `{!PreOrder R} mz mid :
  steps R (checkIfPreviousJournalExists mz mid).
Proof. unfold checkIfPreviousJournalExists. steps_tac. Qed.

Lemma steps_read_collectTargetStreams mz :
  steps (both same_state (adds_only is_read)) (collectTargetStreams mz).
Proof. unfold collectTargetStreams. steps_tac. by apply steps_select. Qed.

Lemma checkTZConversion_task (tz : string) (target : topo.ShardInfo) (w : World) :
  let task := λ target,
    targetPrimary ← wrapf (GetTablet false (topo.PrimaryAlias target))
                          "GetTablet(%v) failed" [AOpaque];
    r ← wrapf (tmc_ExecuteFetchAsApp_convert_tz targetPrimary "2006-01-02 15:04:05" tz)
              "ExecuteFetchAsApp(%v, %s)" [AOpaque; AOpaque];
    match r with
    | Some _ => mret ()
    | None =>
        fail (Errorf "unable to perform time_zone conversions from %s to UTC — result of the attempt was: %s. Either the specified source time zone is invalid or the time zone tables have not been loaded on the %s tablet"
                [AStr tz; AOpaque; AStr (topo.AliasString targetPrimary)])
    end in
  task target w = (Ok (), w) ↔ time_zone_loaded w tz target.
Proof.
  intros task. unfold task, time_zone_loaded.
  rewrite M_bind_run. unfold wrapf at 1, GetTablet. simpl.
  destruct (topo.PrimaryAlias target) as [alias|]; simpl;
    [|split; [discriminate|by intros (?&?&?&?&_)]].
  destruct (tablet_records (ts w) !! alias) as [primary|] eqn:Hrec;
    [|split; [discriminate|intros (?&?&?&[= <-]&Hr&_); congruence]].
  rewrite M_bind_run. unfold wrapf, tmc_ExecuteFetchAsApp_convert_tz.
  rewrite M_bind_run. unfold reach.
  destruct (tablet_states w !! topo.AliasString primary) as [t|] eqn:Ht;
    [|split; [discriminate|intros (?&?&?&[= <-]&Hr&Hs&_); congruence]].
  simpl. destruct (decide (tz ∈ time_zones t)) as [Hin|Hnin].
  - split; [|done]. intros _. by exists alias, primary, t.
  - split; [discriminate|].
    intros (?&?&?&[= <-]&Hrec'&Ht'&Hin). rewrite Hrec in Hrec'. injection Hrec' as <-.
    rewrite Ht in Ht'. injection Ht' as <-. done.
Qed.

(** X17: the time-zone check changes nothing, whatever it finds; and
    it passes exactly when the primary of every target shard can be reached
    and has the time zone loaded. *)
Theorem checkTZConversion_passes_iff (mz : materializer) (tz : string) :
  steps eq (checkTZConversion mz tz)
  ∧ ∀ w, checkTZConversion mz tz w = (Ok (), w)
         ↔ Forall (time_zone_loaded w tz) (targetShards mz).
Proof.
  split; [apply steps_checkTZConversion; apply _|].
  intros w. rewrite Forall_forall. unfold checkTZConversion, forAllTargets.
  match goal with |- fanOut ?f _ _ = _ ↔ _ => set (task := f) end.
  assert (∀ a, steps eq (task a)) as Hsteps by (intros a; unfold task; steps_tac).
  split.
  - intros Hrun target Htarget. apply fanOut_Ok_inv in Hrun.
    destruct (fanOutErrors_nil_each eq task _ _ _ (λ a _, Hsteps a) Hrun target Htarget)
      as (wa & wa' & <- & Htask).
    pose proof (Hsteps _ _ _ _ Htask) as <-.
    by apply (checkTZConversion_task tz target w).
  - intros Hall. unfold fanOut. rewrite M_bind_run, fanOutErrors_all_Ok; [done|].
    intros target Htarget. by apply (checkTZConversion_task tz target w), Hall.
Qed.

(** X18: the two checks [MoveTables] makes on the streams
    between creating and starting them write nothing: collecting the target
    streams only adds reads of the replication-control table to the trace, and
    the journal check leaves the world as it is, whatever its answer. *)
Theorem MoveTables_stream_checks_read_only (mz : materializer) (migrationID : Z) :
  steps (both same_state (adds_only is_read)) (collectTargetStreams mz)
  ∧ steps eq (checkIfPreviousJournalExists mz migrationID).
Proof.
  split; [apply steps_read_collectTargetStreams|].
  apply steps_checkIfPreviousJournalExists; apply _.
Qed.

End Checks.

(** ** Starting the streams *)

Lemma M_bind_cases {A B} (m : M A) (k : A → M B) w r w' :
  (m ≫= k) w = (r, w') →
  (∃ e, m w = (Err e, w') ∧ r = Err e)
  ∨ ∃ a w1, m w = (Ok a, w1) ∧ k a w1 = (r, w').
Proof.
  rewrite M_bind_run. destruct (m w) as [[a|e] w1].
  - intros Hk. right. by exists a, w1.
  - intros [= <- <-]. left. by exists e.
Qed.

Global Instance keeps_running_preorder : PreOrder keeps_running.
Proof.
  split.
  - intros w. split; [done|]. intros a t Ht. by exists t.
  - intros w1 w2 w3 [Hts1 H1] [Hts2 H2]. split; [congruence|].
    intros a t Ht. destruct (H1 a t Ht) as (t' & Ht' & Hkeep).
    destruct (H2 a t' Ht') as (t'' & Ht'' & Hkeep'). exists t''. split; [done|].
    intros db wf Hall. by apply Hkeep', Hkeep.
Qed.

(** The inversion of a fan-out without errors, with the worlds before and
    after each task related to the ends. *)
Lemma fanOutErrors_nil_between {A} (R : relation World) `{!PreOrder R}
    (f : A → M unit) l w w' :
  (∀ a, a ∈ l → steps R (f a)) →
  fanOutErrors f l w = (Ok [], w') →
  ∀ a, a ∈ l → ∃ wa wa', R w wa ∧ f a wa = (Ok (), wa') ∧ R wa' w'.
Proof.
  revert w. induction l as [|b l IH]; intros w Hsteps Hrun a Hin.
  - by apply elem_of_nil in Hin.
  - apply fanOutErrors_nil_inv in Hrun as (w1 & Hb & Hrest).
    apply elem_of_cons in Hin as [->|Hin].
    + exists w, w1. split; [reflexivity|]. split; [done|].
      eapply (steps_fanOutErrors R); [|exact Hrest]. intros; apply Hsteps; by right.
    + destruct (IH w1 ltac:(intros; apply Hsteps; by right) Hrest a Hin)
        as (wa & wa' & HR & Ha & HR').
      exists wa, wa'. split; [|done]. etrans; [|done].
      eapply Hsteps; [left|done].
Qed.

Lemma all_running_started db wf db' wf' rows :
  all_running db' wf' rows →
  all_running db' wf'
    (map (λ r, if decide (stream_of db wf r)
               then set_state r binlogplayer.BlpRunning else r) rows).
Proof.
  unfold all_running. intros Hall. apply Forall_map. eapply Forall_impl; [exact Hall|].
  intros r Hr. simpl. destruct (decide (stream_of db wf r)); [done|exact Hr].
Qed.

Lemma all_running_after_start db wf rows :
  all_running db wf
    (map (λ r, if decide (stream_of db wf r)
               then set_state r binlogplayer.BlpRunning else r) rows).
Proof.
  unfold all_running. apply Forall_map, Forall_forall. intros r _. simpl.
  destruct (decide (stream_of db wf r)); [done|]. by intros ?.
Qed.

Lemma steps_running_StartStreams ti db wf :
  steps keeps_running (tmc_VReplicationExec ti (StartStreams db wf)).
Proof.
  apply steps_tmc_VReplicationExec; [apply _|..].
  - intros w. split; [done|]. intros a t Ht. by exists t.
  - intros w t Ht. split; [done|]. intros a t0 Ht0. simpl.
    destruct (decide (a = topo.AliasString ti)) as [->|Hne].
    + rewrite lookup_insert_eq. eexists. split; [done|]. simpl.
      rewrite Ht in Ht0. injection Ht0 as <-.
      intros db' wf'. apply all_running_started.
    + rewrite lookup_insert_ne by done. by exists t0.
Qed.

Section Starting.
Context `{Env}.

Local Ltac about := simpl; first [done | congruence].

(** X19: a [MoveTables] without auto-start never starts a stream:
    every statement it sends to a replication-control table is a read or an
    insert of Stopped StreamRecords. *)
Theorem MoveTables_without_auto_start (workflow sourceKeyspace targetKeyspace tableSpecs
    cell tabletTypes : string) (allTables : bool) (excludeTables : string)
    (stopAfterCopy : bool) (externalCluster : string) (dropForeignKeys : bool)
    (sourceTimeZone : string) (shards : list string) :
  steps (adds_only creates_stopped)
    (MoveTables workflow sourceKeyspace targetKeyspace tableSpecs cell tabletTypes
       allTables excludeTables false stopAfterCopy externalCluster dropForeignKeys
       sourceTimeZone shards).
Proof.
  unfold MoveTables.
  apply steps_bind; [apply _|apply steps_stopped_MoveTables_plan|]. intros ms0.
  unfold MoveTables_streams.
  apply steps_bind; [apply _|apply steps_stopped_prepareMaterializerStreams|]. intros mz.
  apply steps_bind; [apply _| |intros _].
  { destruct (str_eqb _ _); [steps_tac|apply steps_stopped_checkTZConversion]. }
  apply steps_bind; [apply _|apply steps_stopped_collectTargetStreams|]. intros tabletShards.
  apply steps_bind; [apply _| |intros _; steps_tac].
  destruct (str_eqb _ _); [|steps_tac].
  apply steps_bind; [apply _|apply steps_checkIfPreviousJournalExists; apply _|].
  intros [[] ?]; steps_tac.
Qed.

Lemma steps_running_startStreams mz : steps keeps_running (startStreams mz).
Proof. unfold startStreams. steps_tac. apply steps_running_StartStreams. Qed.

(** X20: when [startStreams] succeeds, the primary of every target
    shard holds no stream of the workflow that is not Running; the topology
    is untouched. *)
Theorem startStreams_all_running (mz : materializer) (w w' : World) :
  startStreams mz w = (Ok (), w') →
  ts w' = ts w
  ∧ ∀ target, target ∈ targetShards mz →
      ∃ alias primary t',
        topo.PrimaryAlias target = Some alias
        ∧ tablet_records (ts w) !! alias = Some primary
        ∧ tablet_states w' !! topo.AliasString primary = Some t'
        ∧ all_running (topo.DbName primary) (Workflow (ms mz)) (vreplication t').
Proof.
  intros Hrun.
  split; [by eapply (steps_running_startStreams mz)|].
  intros target Htarget. unfold startStreams, forAllTargets in Hrun.
  apply fanOut_Ok_inv in Hrun.
  match type of Hrun with fanOutErrors ?f _ _ = _ => set (task := f) in Hrun end.
  assert (∀ a, steps keeps_running (task a)) as Hsteps.
  { intros a. unfold task. steps_tac. apply steps_running_StartStreams. }
  destruct (fanOutErrors_nil_between keeps_running task _ _ _ (λ a _, Hsteps a) Hrun
              target Htarget) as (wa & wa' & [Hts _] & Htask & [_ Hafter]).
  unfold task in Htask.
  apply M_bind_Ok in Htask as (primary & w1 & Hget & Htask).
  unfold wrapf, GetTablet in Hget. simpl in Hget.
  destruct (topo.PrimaryAlias target) as [alias|]; simpl in Hget; [|discriminate].
  rewrite Hts in Hget.
  destruct (tablet_records (ts w) !! alias) as [primary'|] eqn:Hrec; [|discriminate].
  injection Hget as -> ->.
  apply M_bind_Ok in Htask as (rows & w2 & Hexec & [= <-]).
  unfold wrapf in Hexec.
  destruct (tmc_VReplicationExec _ _ _) as [[rows'|e] w3] eqn:Hq; [|discriminate].
  injection Hexec as -> ->.
  unfold tmc_VReplicationExec in Hq.
  apply M_bind_Ok in Hq as ([] & w4 & [= <-] & Hq).
  apply M_bind_Ok in Hq as (t & w5 & Hreach & Hq).
  unfold reach in Hreach. simpl in Hreach.
  destruct (tablet_states w1 !! topo.AliasString primary) as [t0|] eqn:Ht; [|discriminate].
  injection Hreach as -> <-. simpl in Hq.
  apply M_bind_Ok in Hq as ([] & w6 & [= <-] & [= _ <-]).
  destruct (Hafter (topo.AliasString primary)
              (set_vreplication t
                 (map (λ r, if decide (stream_of (topo.DbName primary) (Workflow (ms mz)) r)
                            then set_state r binlogplayer.BlpRunning else r)
                      (vreplication t))
                 (next_id t)))
    as (t' & Ht' & Hkeep).
  { simpl. apply lookup_insert_eq. }
  exists alias, primary, t'. repeat split; try done.
  apply Hkeep. simpl. apply all_running_after_start.
Qed.

End Starting.

Lemma startStreams_all_running_witness :
  let w := (prepareMaterializerStreams (H := Demo.env) (ms Demo.movecust_mz) Demo.fresh).2 in
  let w' := (startStreams Demo.movecust_mz w).2 in
  ts w' = ts w
  ∧ ∀ target, target ∈ targetShards Demo.movecust_mz →
      ∃ alias primary t',
        topo.PrimaryAlias target = Some alias
        ∧ tablet_records (ts w) !! alias = Some primary
        ∧ tablet_states w' !! topo.AliasString primary = Some t'
        ∧ all_running (topo.DbName primary) (Workflow (ms Demo.movecust_mz))
            (vreplication t').
Proof.
  intros w w'.
  apply (startStreams_all_running Demo.movecust_mz w w'). vm_compute. reflexivity.
Defined.

(** On the demo cluster the one stream of [movecust] on [zone1-200] is
    Stopped before the start and Running after it. *)
Example startStreams_movecust :
  let w := (prepareMaterializerStreams (H := Demo.env) (ms Demo.movecust_mz) Demo.fresh).2 in
  map state (Demo.rows_on "zone1-200" w) = ["Stopped"]
  ∧ map state (Demo.rows_on "zone1-200" (startStreams Demo.movecust_mz w).2) = ["Running"].
Proof. vm_compute. split; reflexivity. Qed.

(** ** Creating the streams *)

Section Creating.
Context `{Env}.

Local Ltac about := simpl; first [done | congruence].

Lemma generateInsertMap_Ok_each mz targets insertMap insertMap' :
  generateInsertMap mz targets insertMap = Ok insertMap' →
  ∀ target, target ∈ targets → ∃ rows, generateInserts mz target = Ok rows.
Proof.
  revert insertMap. induction targets as [|t targets IH]; simpl; intros insertMap Hgen.
  - intros target Hin. by apply elem_of_nil in Hin.
  - result_inv Hgen. intros target [->|Hin]%elem_of_cons; [by eexists|].
    by eapply IH.
Qed.

Lemma steps_not_insert_validateNewWorkflow ks wf :
  steps (adds_only not_insert) (validateNewWorkflow ks wf).
Proof. unfold validateNewWorkflow. steps_events about. Qed.

Lemma steps_not_insert_deploySchema mz : steps (adds_only not_insert) (deploySchema mz).
Proof. unfold deploySchema, deploySchema_target. steps_events about. Qed.

(** X21: [prepareMaterializerStreams] inserts StreamRecords
    on no shard before the rows for every target shard have been generated:
    however it ends, either it has sent no insert at all, or the materializer
    it built (after the uniqueness check, which changes no state) has rows for
    each of its target shards.  A source query that cannot be turned into a
    filter thus leaves no stream behind on any shard. *)
Theorem prepareMaterializerStreams_generates_before_inserting (ms0 : MaterializeSettings)
    (w : World) (r : result materializer) (w' : World) :
  prepareMaterializerStreams ms0 w = (r, w') →
  adds_only not_insert w w'
  ∨ ∃ mz w1,
      same_state w w1
      ∧ buildMaterializer ms0 w1 = (Ok mz, w1)
      ∧ ∀ target, target ∈ targetShards mz →
                   ∃ rows, generateInserts mz target = Ok rows.
Proof.
  unfold prepareMaterializerStreams. intros Hrun.
  apply M_bind_cases in Hrun as [(e & Hval & ->)|([] & w1 & Hval & Hrun)].
  { left. by eapply steps_not_insert_validateNewWorkflow. }
  pose proof (steps_validateNewWorkflow _ _ _ _ _ Hval) as [Hsame _].
  apply steps_not_insert_validateNewWorkflow in Hval.
  apply M_bind_cases in Hrun as [(e & Hbuild & ->)|(mz & w2 & Hbuild & Hrun)].
  { left. apply (steps_buildMaterializer eq) in Hbuild as <-. done. }
  pose proof (steps_buildMaterializer eq _ _ _ _ Hbuild) as <-.
  apply M_bind_cases in Hrun as [(e & Hdeploy & ->)|([] & w3 & Hdeploy & Hrun)].
  { left. etrans; [exact Hval|]. by eapply steps_not_insert_deploySchema. }
  apply steps_not_insert_deploySchema in Hdeploy.
  apply M_bind_cases in Hrun as [(e & Hgen & ->)|(insertMap & w4 & Hgen & Hrun)].
  { left. unfold lift in Hgen. injection Hgen as _ <-. by etrans. }
  right. exists mz, w1. split; [done|]. split; [done|].
  unfold lift in Hgen. injection Hgen as Hgen _.
  by eapply generateInsertMap_Ok_each.
Qed.

End Creating.

Lemma prepareMaterializerStreams_generates_before_inserting_witness :
  let run := prepareMaterializerStreams (H := Demo.env) LookupDemo.users_count
               LookupDemo.ready in
  adds_only not_insert LookupDemo.ready run.2
  ∨ ∃ mz w1,
      same_state LookupDemo.ready w1
      ∧ buildMaterializer (H := Demo.env) LookupDemo.users_count w1 = (Ok mz, w1)
      ∧ ∀ target, target ∈ targetShards mz →
                   ∃ rows, generateInserts (H := Demo.env) mz target = Ok rows.
Proof.
  intros run.
  apply (prepareMaterializerStreams_generates_before_inserting (H := Demo.env)
           LookupDemo.users_count LookupDemo.ready run.1 run.2).
  vm_compute. reflexivity.
Defined.

(** With a parser that does not take the source query, the table is
    created on the target primary and no stream is. *)
Example prepareMaterializerStreams_bad_query :
  let run := prepareMaterializerStreams (H := Demo.env) LookupDemo.users_count
               LookupDemo.ready in
  (match run.1 with Ok _ => None | Err e => Some e end) = Some (Errorf "syntax error" [])
  ∧ map tabletmanagerdatapb.td_Name
      (from_option tables [] (tablet_states run.2 !! "zone1-600")) = ["users_count"]
  ∧ Demo.rows_on "zone1-600" run.2 = [].
Proof. vm_compute. repeat split. Qed.

(** ** The DDL of a target table *)

Section ResolveDDL.
Context `{Env}.

(** X22: a CreateDdl that is none of the three copy modes is
    taken as it is, whatever the source has.  In a copy mode the DDL comes
    from the source table that has the target table's name: that table must
    exist at the source, and a source query, if there is one, must select
    from a table of that name; in plain [copy] mode the DDL is the source's,
    unchanged. *)
Theorem resolveDDL_copies_same_name (sourceDDLs : gmap string string)
    (ts : TableMaterializeSettings) (ddl : string) :
  resolveDDL sourceDDLs ts = Ok ddl →
  (CreateDdl ts ≠ createDDLAsCopy → CreateDdl ts ≠ createDDLAsCopyDropConstraint →
   CreateDdl ts ≠ createDDLAsCopyDropForeignKeys → ddl = CreateDdl ts)
  ∧ (CreateDdl ts = createDDLAsCopy ∨ CreateDdl ts = createDDLAsCopyDropConstraint
     ∨ CreateDdl ts = createDDLAsCopyDropForeignKeys →
     is_Some (sourceDDLs !! TargetTable ts)
     ∧ (SourceExpression ts ≠ EmptyString →
        ∃ tn, sqlparser_TableFromStatement (SourceExpression ts) = Ok tn
              ∧ sqlparser.tn_Name tn = TargetTable ts))
  ∧ (CreateDdl ts = createDDLAsCopy → sourceDDLs !! TargetTable ts = Some ddl).
Proof.
  unfold resolveDDL, str_eqb. intros Hres.
  destruct (decide (CreateDdl ts = createDDLAsCopy)) as [Hcopy|Hncopy];
    [|destruct (decide (CreateDdl ts = createDDLAsCopyDropConstraint)) as [Hdc|Hndc];
      [|destruct (decide (CreateDdl ts = createDDLAsCopyDropForeignKeys)) as [Hdf|Hndf]]].
  4: { rewrite !bool_decide_eq_false_2 in Hres by done. simpl in Hres.
       injection Hres as <-. split; [done|]. split; [|done]. by intros [?|[?|?]]. }
  all: assert (bool_decide (CreateDdl ts = createDDLAsCopy)
               || bool_decide (CreateDdl ts = createDDLAsCopyDropConstraint)
               || bool_decide (CreateDdl ts = createDDLAsCopyDropForeignKeys) = true) as Hmode
         by (rewrite !orb_true_iff, !bool_decide_eq_true; tauto).
  all: rewrite Hmode in Hres; clear Hmode.
  all: apply result_bind_Ok in Hres as ([] & Hname & Hres).
  all: destruct (sourceDDLs !! TargetTable ts) as [src|] eqn:Hsrc; [|discriminate].
  all: assert (SourceExpression ts ≠ EmptyString →
               ∃ tn, sqlparser_TableFromStatement (SourceExpression ts) = Ok tn
                     ∧ sqlparser.tn_Name tn = TargetTable ts) as Hexpr
         by (intros Hne; rewrite bool_decide_eq_false_2 in Hname by done;
             apply result_bind_Ok in Hname as (tn & Htn & Hname); exists tn;
             split; [done|];
             destruct (decide (sqlparser.tn_Name tn = TargetTable ts)) as [|Hd];
               [done|by rewrite bool_decide_eq_false_2 in Hname]).
  - split; [done|]. split; [done|]. intros _.
    rewrite Hcopy in Hres.
    rewrite (bool_decide_eq_false_2 (createDDLAsCopy = createDDLAsCopyDropConstraint)),
      (bool_decide_eq_false_2 (createDDLAsCopy = createDDLAsCopyDropForeignKeys))
      in Hres by done.
    simpl in Hres. by injection Hres as <-.
  - split; [done|]. split; [done|]. done.
  - split; [done|]. split; [done|]. done.
Qed.

End ResolveDDL.

Lemma resolveDDL_copies_same_name_witness :
  let ddls : gmap string string :=
    {[ "customer" := "create table customer (cid bigint, primary key (cid))" ]} in
  let ts := {| TargetTable := "customer"; SourceExpression := "select * from customer";
               CreateDdl := "copy" |} in
  ddls !! "customer" = Some "create table customer (cid bigint, primary key (cid))".
Proof.
  intros ddls ts.
  exact (proj2 (proj2 (resolveDDL_copies_same_name (H := Demo.env) ddls ts
                         "create table customer (cid bigint, primary key (cid))"
                         ltac:(vm_compute; reflexivity))) eq_refl).
Defined.

(** ** The column definitions of a lookup table *)


(** ** Every task of a fan-out runs *)

Lemma fanOutErrors_each_runs {A} (R : relation World) `{!PreOrder R}
    (f : A → M unit) l w es w' :
  (∀ a, a ∈ l → steps R (f a)) →
  fanOutErrors f l w = (Ok es, w') →
  ∀ a, a ∈ l → ∃ wa ra wa', R w wa ∧ f a wa = (ra, wa') ∧ R wa' w'.
Proof.
  revert w es. induction l as [|b l IH]; intros w es Hsteps Hrun a Hin.
  - by apply elem_of_nil in Hin.
  - simpl in Hrun. rewrite M_bind_run in Hrun. unfold attempt in Hrun.
    destruct (f b w) as [rb w1] eqn:Hb. rewrite M_bind_run in Hrun.
    destruct (fanOutErrors f l w1) as [[es'|e] w2] eqn:Hrest; [|discriminate].
    injection Hrun as _ <-.
    apply elem_of_cons in Hin as [->|Hin].
    + exists w, rb, w1. split; [reflexivity|]. split; [done|].
      eapply (steps_fanOutErrors R); [|exact Hrest]. intros; apply Hsteps; by right.
    + destruct (IH w1 es' ltac:(intros; apply Hsteps; by right) Hrest a Hin)
        as (wa & ra & wa' & HR & Ha & HR').
      exists wa, ra, wa'. split; [|done]. etrans; [|done].
      eapply Hsteps; [left|done].
Qed.

Lemma fanOut_runs_fanOutErrors {A} (f : A → M unit) l w r w' :
  fanOut f l w = (r, w') → ∃ es, fanOutErrors f l w = (Ok es, w').
Proof.
  unfold fanOut. rewrite M_bind_run.
  destruct (fanOutErrors_total f l w) as (es & w1 & ->).
  destruct es; intros [= _ <-]; by eexists.
Qed.

Lemma tmc_VReplicationExec_logs ti q w r w' :
  tmc_VReplicationExec ti q w = (r, w') →
  trace w' = trace w ++ [EvVReplicationExec (topo.AliasString ti) q].
Proof.
  unfold tmc_VReplicationExec. rewrite M_bind_run. simpl. rewrite M_bind_run.
  unfold reach. simpl. destruct (tablet_states w !! topo.AliasString ti) as [t|].
  - destruct (exec_query q t) as [rows t']. rewrite M_bind_run. simpl.
    by intros [= _ <-].
  - by intros [= _ <-].
Qed.

Section EveryTarget.
Context `{Env}.

(** X24: [startStreams] sends its start statement to the primary of
    every target shard whose tablet record it can read, whatever happens to
    the statement there or on other shards: the tasks of all shards run and
    their errors are collected, so one shard's failure does not keep the
    others from being started. *)
Theorem startStreams_reaches_every_target (mz : materializer) (w : World)
    (r : result unit) (w' : World) (target : topo.ShardInfo) (alias : string)
    (primary : topo.TabletInfo) :
  startStreams mz w = (r, w') →
  target ∈ targetShards mz →
  topo.PrimaryAlias target = Some alias →
  tablet_records (ts w) !! alias = Some primary →
  ∃ before after,
    trace w' = trace w ++ before
               ++ [EvVReplicationExec (topo.AliasString primary)
                     (StartStreams (topo.DbName primary) (Workflow (ms mz)))]
               ++ after.
Proof.
  intros Hrun Htarget Halias Hrec. unfold startStreams, forAllTargets in Hrun.
  apply fanOut_runs_fanOutErrors in Hrun as [es Hrun].
  match type of Hrun with fanOutErrors ?f _ _ = _ => set (task := f) in Hrun end.
  assert (∀ a, steps (both same_topo (adds_only (λ _, True))) (task a)) as Hsteps.
  { intros a. unfold task. steps_tac. apply steps_tmc_VReplicationExec; [apply _|..].
    - intros w0. split; [done|]. by apply adds_only_log.
    - intros w0 t Ht. split; [done|]. by apply adds_only_same_trace. }
  destruct (fanOutErrors_each_runs _ task _ _ _ _ (λ a _, Hsteps a) Hrun target Htarget)
    as (wa & ra & wa' & [[Hts _] (before & Hbefore & _)] & Htask
        & [_ (after & Hafter & _)]).
  assert (trace wa' = trace wa
                      ++ [EvVReplicationExec (topo.AliasString primary)
                            (StartStreams (topo.DbName primary) (Workflow (ms mz)))])
    as Hmid.
  { unfold task in Htask. rewrite M_bind_run in Htask.
    unfold wrapf at 1, GetTablet in Htask. simpl in Htask.
    rewrite Halias in Htask. simpl in Htask. rewrite Hts, Hrec in Htask.
    rewrite M_bind_run in Htask. unfold wrapf in Htask.
    destruct (tmc_VReplicationExec _ _ wa) as [[rows|e] w1] eqn:Hq;
      apply tmc_VReplicationExec_logs in Hq; injection Htask as _ <-; by rewrite Hq. }
  exists before, after. rewrite Hafter, Hmid, Hbefore, <- !app_assoc. done.
Qed.

End EveryTarget.

Lemma startStreams_reaches_every_target_witness :
  let w := set_tablet_states Demo.fresh (delete "zone1-200" (tablet_states Demo.fresh)) in
  let run := startStreams Demo.movecust_mz w in
  (match run.1 with Ok _ => true | Err _ => false end) = false
  ∧ ∃ before after,
      trace run.2
      = trace w ++ before ++ [EvVReplicationExec "zone1-300" (StartStreams "vt_sales" "movecust")]
        ++ after.
Proof.
  intros w run. split; [vm_compute; reflexivity|].
  apply (startStreams_reaches_every_target Demo.movecust_mz w run.1 run.2 Demo.sales_hi
           "zone1-300" {| topo.AliasString := "zone1-300"; topo.DbName := "vt_sales" |});
    [vm_compute; reflexivity | right; left | reflexivity | vm_compute; reflexivity].
Defined.

(** ** A vindex that is already in the source vschema *)

Section ConflictingVindex.
Context `{Env}.

(** X25: a vindex of the specs' name that is already in the source
    vschema must equal the vindex of the specs with [write_only] set to true,
    this parameter included; if it differs in anything, [prepareCreateLookup]
    fails and changes nothing.  (A vindex that has been externalized, and so
    has lost its [write_only] parameter, is such a conflict.) *)
Theorem prepareCreateLookup_conflicting_vindex (keyspace : string)
    (specs : vschemapb.Keyspace) (continueAfterCopyWithOwner : bool) (w : World)
    (i : LookupInput) (sourceVSchema : vschemapb.Keyspace) (existing : vschemapb.Vindex) :
  prepareCreateLookup_validate specs = Ok i →
  vschemas (ts w) !! keyspace = Some sourceVSchema →
  (keyspace ≠ targetKeyspace i → is_Some (vschemas (ts w) !! targetKeyspace i)) →
  vschemapb.Vindexes sourceVSchema !! vindexName i = Some existing →
  existing ≠ vindex i →
  prepareCreateLookup keyspace specs continueAfterCopyWithOwner w
  = (Err (Errorf "a conflicting vindex named %s already exists in the source vschema"
            [AStr (vindexName i)]), w).
Proof.
  intros Hi Hsv Htv Hex Hne. unfold prepareCreateLookup.
  rewrite Hi. rewrite M_bind_run. unfold lift at 1.
  rewrite M_bind_run. unfold GetVSchema at 1. rewrite Hsv.
  rewrite M_bind_run.
  assert (∃ tv, (if str_eqb keyspace (targetKeyspace i) then mret sourceVSchema
                 else GetVSchema (targetKeyspace i)) w = (Ok tv, w)) as [tv ->].
  { unfold str_eqb. destruct (decide (keyspace = targetKeyspace i)) as [Heq|Hneq].
    - rewrite bool_decide_eq_true_2 by done. by eexists.
    - rewrite bool_decide_eq_false_2 by done. destruct (Htv Hneq) as [tv Htv'].
      exists tv. unfold GetVSchema. by rewrite Htv'. }
  rewrite M_bind_run, Hex. unfold vschemapb.proto_Equal.
  by rewrite bool_decide_eq_false_2.
Qed.

End ConflictingVindex.

Lemma prepareCreateLookup_conflicting_vindex_witness :
  let externalized :=
    {| vschemapb.Sharded := false;
       vschemapb.Vindexes := {[ "email_vdx" := Demo.email_vindex ]};
       vschemapb.Tables := {[ "users" := vschemapb.empty_Table ]} |} in
  let w := set_ts LookupDemo.ready
             (set_vschemas (ts LookupDemo.ready)
                (<["main" := externalized]> (vschemas (ts LookupDemo.ready)))) in
  prepareCreateLookup (H := LookupDemo.env) "main" LookupDemo.specs false w
  = (Err (Errorf "a conflicting vindex named %s already exists in the source vschema"
            [AStr "email_vdx"]), w).
Proof.
  intros externalized w.
  apply (prepareCreateLookup_conflicting_vindex (H := LookupDemo.env) "main"
           LookupDemo.specs false w
           {| vindexName := "email_vdx";
              vindex := vschemapb.set_Params Demo.email_vindex
                          (<["write_only" := "true"]> (vschemapb.Params Demo.email_vindex));
              targetKeyspace := "lookupks"; targetTableName := "email_lookup";
              vindexFromCols := ["email"]; vindexToCol := "keyspace_id";
              sourceTableName := "users";
              sourceColumnVindex :=
                {| vschemapb.cv_Column := "email"; vschemapb.cv_Name := "email_vdx";
                   vschemapb.cv_Columns := [] |};
              sourceVindexColumns := ["email"] |}
           externalized Demo.email_vindex);
    [vm_compute; reflexivity | vm_compute; reflexivity
    | intros _; vm_compute; eexists; reflexivity | vm_compute; reflexivity
    | vm_compute; intros [= Heq]; discriminate Heq].
Defined.

(** ** The rows of a target shard, once the template is executed *)

Lemma append_empty_r (s : string) : s +:+ EmptyString = s.
Proof. induction s as [|c s IH]; [done|]. change (String c (s +:+ EmptyString) = String c s). by f_equal. Qed.

Lemma ReplaceAll_dbname (d : string) : Go.ReplaceAll "{{.dbname}}" "{{.dbname}}" d = d.
Proof. unfold Go.ReplaceAll. simpl. apply append_empty_r. Qed.

Section Templated.
Context `{Env}.

Lemma generateInserts_sources_dbname mz targetShard sources ig ig' :
  Forall (λ r, db_name r = ig_dbname ig ∧ workflow r = Workflow (ms mz)
               ∧ state r = ig_state ig ∧ id r = 0) (ig_rows ig) →
  generateInserts_sources mz targetShard sources ig = Ok ig' →
  ig_dbname ig' = ig_dbname ig ∧ ig_state ig' = ig_state ig
  ∧ Forall (λ r, db_name r = ig_dbname ig ∧ workflow r = Workflow (ms mz)
                 ∧ state r = ig_state ig ∧ id r = 0) (ig_rows ig').
Proof.
  revert ig. induction sources as [|s sources IH]; simpl; intros ig Hig Hgen.
  - by injection Hgen as <-.
  - destruct (_ && _) in Hgen; [by eapply IH|].
    result_inv Hgen. apply IH in Hgen; [exact Hgen|].
    simpl. apply Forall_app. split; [done|]. by repeat constructor.
Qed.


End Templated.


(** ** What the stream checks report *)

Lemma fanOutShared_Ok_foldl {A S} (R : relation World) `{!PreOrder R}
    (f : A → S → M (S * option Error)) (g : A → S → S) (l : list A) (w0 : World) :
  (∀ a s, steps R (f a s)) →
  (∀ a s wa s' wa', R w0 wa → f a s wa = (Ok (s', None), wa') → s' = g a s) →
  ∀ s w s' w', R w0 w → fanOutShared f l s w = (Ok (s', []), w') →
               s' = foldl (λ s a, g a s) s l.
Proof.
  intros Hsteps Hg. induction l as [|a l IH]; intros s w s' w' Hw Hrun; simpl in *.
  - by injection Hrun as <- _.
  - apply M_bind_Ok in Hrun as ([s1 e] & w1 & Ha & Hrun).
    apply M_bind_Ok in Hrun as ([s2 es] & w2 & Hrest & Hrun).
    injection Hrun as <- Hes <-.
    destruct e as [e|]; [discriminate|]. simpl in Hes. subst es.
    rewrite <- (Hg a s w s1 w1 Hw Ha).
    eapply IH; [|exact Hrest]. etrans; [exact Hw|]. by eapply Hsteps.
Qed.

Section Reports.

Lemma journal_task_result migrationID si (shared : bool * list string) w s' w' :
  (let '(exists_, tablets) := shared in
   r ← attempt (GetTablet false (topo.PrimaryAlias si));
   match r with
   | Err err => mret ((exists_, tablets), Some err)
   | Ok tablet =>
       r ← attempt (CheckReshardingJournalExistsOnTablet tablet migrationID);
       match r with
       | Err err => mret ((false, tablets), Some err)
       | Ok exists_ =>
           mret ((exists_,
                  if (exists_ : bool) then tablets ++ [topo.AliasString tablet]
                  else tablets),
                 None)
       end
   end) w = (Ok (s', None), w') →
  s' = match journal_holder w migrationID si with
       | Some a => (true, shared.2 ++ [a])
       | None => (false, shared.2)
       end.
Proof.
  destruct shared as [ex tabs]. unfold journal_holder.
  rewrite M_bind_run. unfold attempt at 1, GetTablet. simpl.
  destruct (topo.PrimaryAlias si) as [alias|]; simpl; [|discriminate].
  destruct (tablet_records (ts w) !! alias) as [ti|]; simpl; [|discriminate].
  rewrite M_bind_run. unfold attempt, CheckReshardingJournalExistsOnTablet.
  rewrite M_bind_run. unfold reach.
  destruct (tablet_states w !! topo.AliasString ti) as [t|]; simpl; [|discriminate].
  destruct (bool_decide _); by intros [= <- _].
Qed.

Lemma journal_foldl w migrationID sources ex0 tabs0 :
  let s := foldl (λ (s : bool * list string) si,
                    match journal_holder w migrationID si with
                    | Some a => (true, s.2 ++ [a])
                    | None => (false, s.2)
                    end) (ex0, tabs0) sources in
  s.2 = tabs0 ++ omap (journal_holder w migrationID) sources
  ∧ (s.1 = true → (sources = [] ∧ ex0 = true)
                  ∨ omap (journal_holder w migrationID) sources ≠ []).
Proof.
  revert ex0 tabs0. induction sources as [|si sources IH]; intros ex0 tabs0; simpl.
  - rewrite app_nil_r. split; [done|]. intros ->. by left.
  - destruct (IH (match journal_holder w migrationID si with
                  | Some _ => true | None => false end)
                 (match journal_holder w migrationID si with
                  | Some a => tabs0 ++ [a] | None => tabs0 end)) as [Htabs Hex].
    destruct (journal_holder w migrationID si) as [a|]; simpl in *.
    + rewrite Htabs, <- app_assoc. split; [done|]. intros _. by right.
    + split; [done|]. intros Hs. destruct (Hex Hs) as [[_ ?]|?]; [done|by right].
Qed.


End Reports.


Lemma collect_task_result (wf : string) (target : topo.ShardInfo)
    (shardTablets : list string) (w wa : World) s' wa' :
  same_state w wa →
  (r ← attempt (
     targetPrimary ← wrapf (GetTablet false (topo.PrimaryAlias target))
                           "GetTablet(%v) failed" [AOpaque];
     let query := SelectStreamIDs (topo.DbName targetPrimary) wf in
     wrapf (tmc_VReplicationExec targetPrimary query) "VReplicationExec(%v, %s)"
           [AOpaque; AOpaque]);
   match r with
   | Err err => mret (shardTablets, Some err)
   | Ok rows =>
       mret (shardTablets ++
               map (λ row, topo.ShardName target +:+ ":" +:+ pretty (id row)) rows,
             None)
   end) wa = (Ok (s', None), wa') →
  s' = shardTablets ++ target_stream_ids w wf target.
Proof.
  intros (Hts & _ & _ & Htablets). unfold target_stream_ids.
  rewrite <- Hts, <- Htablets.
  rewrite M_bind_run. unfold attempt. rewrite M_bind_run.
  unfold wrapf at 1, GetTablet, the_topo.
  destruct (topo.PrimaryAlias target) as [alias|]; simpl; [|discriminate].
  destruct (tablet_records (ts wa) !! alias) as [ti|]; simpl; [|discriminate].
  unfold wrapf, tmc_VReplicationExec. rewrite M_bind_run. unfold record at 1.
  rewrite M_bind_run. unfold reach. simpl.
  destruct (tablet_states wa !! topo.AliasString ti) as [t|]; simpl; [|discriminate].
  by intros [= <- _].
Qed.

Lemma foldl_app_concat {A} (g : A → list string) (l : list A) (acc : list string) :
  foldl (λ s a, s ++ g a) acc l = acc ++ concat (map g l).
Proof.
  revert acc. induction l as [|a l IH]; intros acc; simpl.
  - by rewrite app_nil_r.
  - by rewrite IH, app_assoc.
Qed.


